(** * Sentiment pipeline of mcp-nlp-analytics: a shallow embedding

    The development follows the Python modules of the repository:
    [sentiment_analyzer.py] (Lexicon Scorer and Trajectory Analyzer),
    [pattern_detector.py] (Signal Detector), [risk_predictor.py]
    (Action Predictor), [save_analysis] of [database_manager.py] and the
    three analysis tools of [mcp_server.py].

    Conventions of the embedding.
    - A Python [str] is a Rocq [string] holding its UTF-8 bytes; the
      substring test [w in s] on code points coincides with the
      substring test on UTF-8 bytes.
    - A Python [float] is idealised as an exact rational ([Q]); Python
      [int]s are [Z], list positions are [nat].  Binary floating point
      differs from the rationals in the last place; the theorems
      therefore relate and compare the values that the code computes,
      or bound them with a margin, rather than state identities that
      need exact arithmetic.
    - What the code takes from outside the repository is a Section
      variable: [str.lower], TextBlob's polarity, the iteration order of
      a [set] of strings and the ['.0f'] number format. *)

From Stdlib Require Import QArith Qabs Qminmax Qround Lqa ZArith String Ascii List Bool Lia DecimalString Permutation.
Import ListNotations.

Local Open Scope string_scope.
Local Open Scope Q_scope.

(** ** Python built-ins used by the code *)

Module Py.

(** [w in s] for two [str]s: [w] occurs in [s] as a substring. *)
Fixpoint str_in (w s : string) : bool :=
  if String.prefix w s then true
  else match s with
       | EmptyString => false
       | String _ s' => str_in w s'
       end.

(** A byte of the form 10xxxxxx continues a UTF-8 code point. *)
Definition is_continuation (c : ascii) : bool :=
  ((128 <=? nat_of_ascii c) && (nat_of_ascii c <? 192))%nat.

(** [len(s)]: the number of code points of [s]. *)
Fixpoint len (s : string) : nat :=
  match s with
  | EmptyString => O
  | String c s' => if is_continuation c then len s' else S (len s')
  end.

(** [s[:n]]: the first [n] code points of [s]; a continuation byte
    belongs to the code point taken just before it. *)
Fixpoint slice_to (n : nat) (s : string) : string :=
  match s with
  | EmptyString => EmptyString
  | String c s' =>
      if is_continuation c then String c (slice_to n s')
      else match n with
           | O => EmptyString
           | S n' => String c (slice_to n' s')
           end
  end.

(** The elements of a set literal: an element written twice is held
    once. *)
Fixpoint set_of (l : list string) : list string :=
  match l with
  | [] => []
  | w :: l' => if existsb (String.eqb w) l' then set_of l' else w :: set_of l'
  end.

(** [str(n)] for a non-negative [int]. *)
Definition str_of_nat (n : nat) : string := NilEmpty.string_of_uint (Nat.to_uint n).

(** [sep.join(l)]. *)
Fixpoint join (sep : string) (l : list string) : string :=
  match l with
  | [] => EmptyString
  | [s] => s
  | s :: l' => s ++ sep ++ join sep l'
  end.

(** Comparisons of floats as booleans. *)
Definition Qltb (a b : Q) : bool := negb (Qle_bool b a).
Definition Qgtb (a b : Q) : bool := Qltb b a.
Definition Qgeb (a b : Q) : bool := Qle_bool b a.

(** [max(a, b)] keeps its first argument unless the second is strictly
    greater; [min(a, b)] unless the second is strictly smaller. *)
Definition max (a b : Q) : Q := if Qgtb b a then b else a.
Definition min (a b : Q) : Q := if Qltb b a then b else a.

(** [sum(l)] starts from 0 and adds from the left. *)
Definition sum (l : list Q) : Q := fold_left Qplus l 0.

(** [round(x)] to the nearest integer, ties to the even one. *)
Definition round_half_even (x : Q) : Z :=
  let f := Qfloor x in
  let r := x - inject_Z f in
  if Qltb r (1 # 2) then f
  else if Qltb (1 # 2) r then (f + 1)%Z
  else if Z.even f then f else (f + 1)%Z.

(** [round(x, d)] on the idealised float. *)
Definition round (x : Q) (d : nat) : Q :=
  let p := (10 ^ Z.of_nat d)%Z in
  inject_Z (round_half_even (x * inject_Z p)) / inject_Z p.

(** [str.lower] restricted to ASCII letters, which is what Python's
    [str.lower] does on a text of ASCII characters. *)
Definition ascii_lower_char (c : ascii) : ascii :=
  let n := nat_of_ascii c in
  if ((65 <=? n) && (n <=? 90))%nat then ascii_of_nat (n + 32) else c.

Fixpoint ascii_lower (s : string) : string :=
  match s with
  | EmptyString => EmptyString
  | String c s' => String (ascii_lower_char c) (ascii_lower s')
  end.

End Py.

(** The clamp of the specification: a value forced into [0,100]. *)
Definition clamp_0_100 (x : Q) : Q := Qmin 100 (Qmax 0 x).


(** ** Data model *)

(** A message as the three operations receive it: a dict (with its
    ['text'] and ['timestamp'] entries, [None] when the key is absent),
    a bare string, or any other object, of which only [str(msg)] is
    used.  The ['text'] of a dict is a [str]: on a dict whose ['text'] is
    present and anything else ([None], a number) the operations raise at
    [len(text)] or [text.lower()], and such a message is outside this
    type. *)
Inductive Message : Type :=
| MsgDict (text : option string) (timestamp : option string)
| MsgStr (s : string)
| MsgOther (repr : string).

(** One timeline entry of [analyze_evolution]. *)
Module ScoredPoint.
Record t : Type := mk {
  timestamp : string;
  text : string;
  sentiment_score : Q;
  sentiment_state : string;
  message_index : nat
}.
End ScoredPoint.

(** One entry of [_find_turning_points]. *)
Module TurningPoint.
Record t : Type := mk {
  index : nat;
  timestamp : string;
  from_state : string;
  to_state : string;
  change_magnitude : Q;
  severity : string
}.
End TurningPoint.

(** The dict returned by [analyze_evolution] and [_empty_analysis]; both
    have the same eight keys. *)
Module Trajectory.
Record t : Type := mk {
  timeline : list ScoredPoint.t;
  current_sentiment : Q;
  initial_sentiment : Q;
  trend : string;
  turning_points : list TurningPoint.t;
  overall_change : Q;
  interpretation : string;
  message_count : nat
}.
End Trajectory.

(** A Python value, for the dicts whose set of keys varies. *)
#[warnings="-register-all"]
Inductive PyVal : Type :=
| PNone
| PBool (b : bool)
| PInt (n : Z)
| PStr (s : string)
| PList (l : list PyVal)
| PDict (d : list (string * PyVal)).

Definition PyDict : Type := list (string * PyVal).

(** [d.get(k)]. *)
Fixpoint dict_get (k : string) (d : PyDict) : option PyVal :=
  match d with
  | [] => None
  | (k', v) :: d' => if String.eqb k k' then Some v else dict_get k d'
  end.

(** [list(d.keys())]. *)
Definition dict_keys (d : PyDict) : list string := List.map fst d.

(** [v.get(k)] on a value that is a dict. *)
Definition py_get (k : string) (v : PyVal) : option PyVal :=
  match v with
  | PDict d => dict_get k d
  | _ => None
  end.

(** A found signal: the dict [{'found': True, 'type': ..., 'text': ...,
    'description': ...}] of the [_check_*] methods; [{'found': False}]
    is [None]. *)
Module SignalHit.
Record t : Type := mk {
  type : string;
  text : string;
  description : string
}.
Definition to_py (h : t) : PyVal :=
  PDict [("found", PBool true); ("type", PStr (type h));
         ("text", PStr (text h)); ("description", PStr (description h))].
End SignalHit.

(** The ['sentiment_trajectory'] entry of a prediction. *)
Module TrajectorySummary.
Record t : Type := mk {
  initial : Q;
  current : Q;
  trend : string;
  overall_change : Q
}.
End TrajectorySummary.

(** The dict returned by [predict_action]; [_empty_prediction] has no
    ['sentiment_trajectory'] key. *)
Module Prediction.
Record t : Type := mk {
  action : string;
  confidence : Q;
  timeline : string;
  urgency : string;
  interventions : list string;
  success_rate : Z;
  explanation : string;
  sentiment_trajectory : option TrajectorySummary.t
}.
End Prediction.

(** [enumerate(l)]. *)
Definition enumerate {A : Type} (l : list A) : list (nat * A) :=
  combine (seq 0 (length l)) l.

(** ** Stand-ins for the external capabilities, used at concrete inputs *)

(** A negation-aware polarity estimator: a negated strong negative reads
    as mildly positive. *)
Definition negation_aware_polarity (t : string) : Q :=
  if Py.str_in "not terrible" t then 1 # 2
  else if Py.str_in "terrible" t then - (1)
  else 0.

(** A polarity estimator that knows no word. *)
Definition neutral_polarity (t : string) : Q := 0.

(** An iteration order for a set of strings: first occurrence. *)
Definition first_occurrence_order (l : list string) : list string :=
  rev (Py.set_of (rev l)).

(** A number format that prints the rounded integer. *)
Definition fmt_integer (x : Q) : string :=
  NilZero.string_of_int (Z.to_int (Py.round_half_even x)).

(** ** The tables of database_manager.py

    The three tables are lists of rows, oldest first.  A column of type
    REAL is a rational; the column [messages] holds the message list
    that [json.dumps] serialises. *)

Module ConversationRow.
Record t : Type := mk {
  id : Z;
  customer_id : string;
  context_type : string;
  analysis_date : string;
  messages : list Message;
  sentiment_score : Q;
  trend : string;
  risk_level : string;
  predicted_action : string;
  confidence : Q
}.
End ConversationRow.

Module AlertRow.
Record t : Type := mk {
  id : Z;
  customer_id : string;
  alert_type : string;
  severity : string;
  created_at : string;
  resolved : Z;
  notes : string
}.
End AlertRow.

Module ProfileRow.
Record t : Type := mk {
  id : Z;
  customer_id : string;
  context_type : string;
  first_contact : string;
  last_contact : string;
  total_interactions : Z;
  churn_risk : Q;
  lifetime_sentiment : Q
}.
End ProfileRow.

Module Database.
Record t : Type := mk {
  conversations : list ConversationRow.t;
  risk_alerts : list AlertRow.t;
  customer_profiles : list ProfileRow.t
}.
End Database.

(** The entries that [save_analysis] reads off its [analysis] dict with
    [.get]; [None] is an absent key. *)
Module Analysis.
Record t : Type := mk {
  current_sentiment : option Q;
  trend : option string;
  risk_level : option string;
  predicted_action : option string;
  confidence : option Q
}.
End Analysis.


Section Pipeline.

(** [str.lower] of Python. *)
Variable lower : string -> string.

(** [TextBlob(text).sentiment.polarity], a value that the library
    documents to lie between -1 and 1. *)
Variable polarity : string -> Q.

(** [list(set(l))]: the elements of [l] without duplicates, in the
    order in which the interpreter iterates over the set. *)
Variable set_iter : list string -> list string.

(** [f"{x:.0f}"]. *)
Variable fmt0f : Q -> string.

(** ** sentiment_analyzer.py *)

(** [self.positive_words]; the literal is a set, so a word written twice
    is held once. *)
Definition positive_words : list string :=
  Py.set_of
  [ "love"; "excellent"; "amazing"; "fantastic"; "wonderful"; "great"; "good";
    "perfect"; "best"; "awesome"; "brilliant"; "outstanding"; "superb"; "trust";
    "confident"; "happy"; "thrilled"; "delighted"; "impressed"; "satisfied";
    "encanta"; "excelente"; "perfecto"; "increible"; "genial"; "bueno"; "maravilloso";
    "fantastico"; "sobresaliente"; "impresionado"; "satisfecho"; "love"; "adoro";
    "me encanta"; "fantástico"; "fabuloso"; "me gusta"; "bien"; "obra" ].

(** [self.negative_words], a set as well. *)
Definition negative_words : list string :=
  Py.set_of
  [ "hate"; "terrible"; "awful"; "horrible"; "bad"; "poor"; "worst";
    "disappointed"; "frustrated"; "angry"; "annoyed"; "upset"; "problem";
    "issue"; "bug"; "slow"; "expensive"; "difficult"; "fail"; "cancel";
    "doubt"; "concern"; "worried"; "unsure"; "alternative"; "competitor";
    "odio"; "terrible"; "horrible"; "malo"; "peor"; "problema"; "bugs";
    "caro"; "lento"; "difícil"; "fracaso"; "cancelar"; "competencia";
    "competidor"; "preocupacion"; "inquietud"; "alternativa"; "dudoso";
    "cambiar"; "adios"; "adiós"; "otros developers"; "más barato";
    "renunciar"; "renuncia"; "renuncie"; "partir"; "irme"; "me voy";
    "dejar"; "abandonar"; "salir"; "terminar"; "fin"; "otro trabajo";
    "mejor oferta"; "buscar"; "explorar"; "mejores"; "mejores roles" ].

(** [sum(1 for word in words if word in text_lower)]. *)
Definition count_words (words : list string) (text_lower : string) : Z :=
  Z.of_nat (length (filter (fun word => Py.str_in word text_lower) words)).

Definition positive_count (text : string) : Z := count_words positive_words (lower text).
Definition negative_count (text : string) : Z := count_words negative_words (lower text).

(** [_calculate_sentiment(text)]; [None] is a missing text. *)
Definition _calculate_sentiment (text : option string) : Q :=
  match text with
  | None | Some EmptyString => 50
  | Some text =>
      let text_lower := lower text in
      let positive_count := count_words positive_words text_lower in
      let negative_count := count_words negative_words text_lower in
      let keyword_score := (50 + positive_count * 10 - negative_count * 10)%Z in
      let textblob_score := (polarity text + 1) * 50 in
      let final_score := inject_Z keyword_score * 0.7 + textblob_score * 0.3 in
      Py.min 100 (Py.max 0 final_score)
  end.

(** [_sentiment_state(score)]. *)
Definition _sentiment_state (score : Q) : string :=
  if Py.Qgeb score 80 then "EXTREMELY_POSITIVE"
  else if Py.Qgeb score 60 then "POSITIVE"
  else if Py.Qgeb score 40 then "NEUTRAL"
  else if Py.Qgeb score 20 then "NEGATIVE"
  else "EXTREMELY_NEGATIVE".

(** [_calculate_trend(sentiments)]. *)
Definition _calculate_trend (sentiments : list Q) : string :=
  if (length sentiments <? 2)%nat then "insufficient_data"
  else
    let half := (length sentiments / 2)%nat in
    let first_half :=
      Py.sum (firstn half sentiments) / inject_Z (Z.of_nat (Nat.max 1 half)) in
    let second_half :=
      Py.sum (skipn half sentiments)
      / inject_Z (Z.of_nat (Nat.max 1 (length sentiments - half))) in
    let diff := second_half - first_half in
    if Py.Qgtb diff 10 then "IMPROVING"
    else if Py.Qltb diff (- (10)) then "DECLINING"
    else "STABLE".

(** The severity expression of a turning point. *)
Definition severity_of (change : Q) : string :=
  if Py.Qgtb change 40 then "CRITICAL"
  else if Py.Qgtb change 30 then "HIGH"
  else "MEDIUM".

(** One iteration of the loop of [_find_turning_points]; [None] is the
    [IndexError] of [timeline[i]]. *)
Definition turning_point_step (sentiments : list Q) (timeline : list ScoredPoint.t)
    (acc : option (list TurningPoint.t)) (i : nat) : option (list TurningPoint.t) :=
  match acc with
  | None => None
  | Some turning_points =>
      let change := Qabs (nth i sentiments 0 - nth (i - 1) sentiments 0) in
      if Py.Qgtb change 20 then
        match nth_error timeline i with
        | None => None
        | Some point =>
            Some (turning_points ++
                  [ TurningPoint.mk i (ScoredPoint.timestamp point)
                      (_sentiment_state (nth (i - 1) sentiments 0))
                      (_sentiment_state (nth i sentiments 0))
                      (Py.round change 2)
                      (severity_of change) ])%list
        end
      else Some turning_points
  end.

(** [_find_turning_points(sentiments, timeline)]: [i] ranges over
    [range(1, len(sentiments))]. *)
Definition _find_turning_points (sentiments : list Q) (timeline : list ScoredPoint.t)
    : option (list TurningPoint.t) :=
  fold_left (turning_point_step sentiments timeline)
            (seq 1 (length sentiments - 1)) (Some []).

(** [_generate_interpretation(sentiments, trend, turning_points)]. *)
Definition _generate_interpretation (sentiments : list Q) (trend : string)
    (turning_points : list TurningPoint.t) : string :=
  match sentiments with
  | [] => "No messages to analyze."
  | initial :: _ =>
      let current := last sentiments 0 in
      let base :=
        if String.eqb trend "DECLINING" then
          "Sentiment is DECLINING overall (from " ++ fmt0f initial ++ " to " ++ fmt0f current ++ ")"
        else if String.eqb trend "IMPROVING" then
          "Sentiment is IMPROVING overall (from " ++ fmt0f initial ++ " to " ++ fmt0f current ++ ")"
        else "Sentiment is STABLE (around " ++ fmt0f current ++ ")" in
      let critical_points :=
        filter (fun p => String.eqb (TurningPoint.severity p) "CRITICAL") turning_points in
      let base :=
        match critical_points with
        | [] => base
        | _ => base ++ ". WARNING: " ++ Py.str_of_nat (length critical_points)
                    ++ " critical sentiment shift(s) detected."
        end in
      if Py.Qltb current 30 then
        base ++ " RISK LEVEL: CRITICAL - Immediate intervention recommended."
      else if Py.Qltb current 50 then
        base ++ " RISK LEVEL: HIGH - Attention needed soon."
      else if Py.Qgtb current 70 then
        base ++ " Status: POSITIVE - No immediate action needed."
      else base
  end.

(** [_empty_analysis()]. *)
Definition _empty_analysis : Trajectory.t :=
  Trajectory.mk [] 0 0 "unknown" [] 0 "No data provided" 0.

(** The [text] and [timestamp] that the loops of [analyze_evolution] and
    [detect_signals] read off message [i] (before any lower-casing). *)
Definition message_text (msg : Message) : string :=
  match msg with
  | MsgDict (Some text) _ => text
  | MsgDict None _ => ""
  | MsgStr s => s
  | MsgOther repr => repr
  end.

Definition message_timestamp (i : nat) (msg : Message) : string :=
  match msg with
  | MsgDict _ (Some timestamp) => timestamp
  | _ => "Message " ++ Py.str_of_nat (i + 1)
  end.

(** The two lists that the loop of [analyze_evolution] fills. *)
Record EvolutionState : Type := mkEvolution {
  ev_timeline : list ScoredPoint.t;
  ev_sentiments : list Q
}.

(** One iteration of that loop. *)
Definition evolution_step (st : EvolutionState) (im : nat * Message) : EvolutionState :=
  let (i, msg) := im in
  let text := message_text msg in
  let timestamp := message_timestamp i msg in
  let sentiment_score := _calculate_sentiment (Some text) in
  mkEvolution
    (ev_timeline st ++
     [ ScoredPoint.mk timestamp
         (if (100 <? Py.len text)%nat then Py.slice_to 100 text ++ "..." else text)
         (Py.round sentiment_score 2)
         (_sentiment_state sentiment_score)
         (i + 1) ])%list
    (ev_sentiments st ++ [sentiment_score])%list.

Definition evolution_loop (messages : list Message) : EvolutionState :=
  fold_left evolution_step (enumerate messages) (mkEvolution [] []).

(** [analyze_evolution(messages)]; [None] is an [IndexError]. *)
Definition analyze_evolution (messages : list Message) : option Trajectory.t :=
  match messages with
  | [] => Some _empty_analysis
  | _ =>
      let st := evolution_loop messages in
      let timeline := ev_timeline st in
      let sentiments := ev_sentiments st in
      let trend := _calculate_trend sentiments in
      match _find_turning_points sentiments timeline with
      | None => None
      | Some turning_points =>
          let overall_change :=
            match sentiments with
            | [] => 0
            | first :: _ => last sentiments 0 - first
            end in
          let interpretation := _generate_interpretation sentiments trend turning_points in
          Some (Trajectory.mk timeline
                  (match sentiments with [] => 0 | _ => Py.round (last sentiments 0) 2 end)
                  (match sentiments with [] => 0 | first :: _ => Py.round first 2 end)
                  trend turning_points (Py.round overall_change 2)
                  interpretation (length messages))
      end
  end.

(** ** pattern_detector.py *)

Definition comparison_keywords : list string :=
  [ "competitor"; "alternative"; "better"; "cheaper"; "faster";
    "other"; "someone else"; "another"; "different"; "switch";
    "change"; "similar"; "compare"; "versus"; "instead" ].

Definition frustration_keywords : list string :=
  [ "slow"; "late"; "delayed"; "wait"; "frustrated"; "annoyed";
    "angry"; "upset"; "disappointed"; "problem"; "issue"; "bug";
    "broken"; "not working"; "fail"; "error"; "impossible" ].

Definition disengagement_keywords : list string :=
  [ "cancel"; "stop"; "end"; "quit"; "leave"; "exit"; "goodbye";
    "farewell"; "thanks anyway"; "no thanks"; "decline"; "refuse";
    "not interested"; "moving on"; "consider"; "think about";
    "evaluate"; "looking at" ].

Definition price_keywords : list string :=
  [ "expensive"; "cost"; "price"; "cheap"; "expensive"; "fee";
    "charge"; "budget"; "discount"; "negotiate"; "lower" ].

(** The scan shared by the four [_check_*] methods: the first keyword of
    the list that occurs in the text. *)
Definition first_keyword (keywords : list string) (text : string) : option string :=
  find (fun keyword => Py.str_in keyword text) keywords.

Definition _check_comparisons (text : string) : option SignalHit.t :=
  option_map (fun keyword =>
    SignalHit.mk "COMPETITOR_COMPARISON" keyword
      "Comparing with alternatives or competitors")
    (first_keyword comparison_keywords text).

Definition _check_frustration (text : string) : option SignalHit.t :=
  option_map (fun keyword =>
    SignalHit.mk "FRUSTRATION" keyword
      "Expressing dissatisfaction or frustration")
    (first_keyword frustration_keywords text).

Definition _check_disengagement (text : string) : option SignalHit.t :=
  option_map (fun keyword =>
    SignalHit.mk "DISENGAGEMENT" keyword
      "Showing intent to leave or end relationship")
    (first_keyword disengagement_keywords text).

Definition _check_price (text : string) : option SignalHit.t :=
  option_map (fun keyword =>
    SignalHit.mk "PRICE_CONCERN" keyword
      "Mentioning cost or pricing concerns")
    (first_keyword price_keywords text).

(** [signal['found']]. *)
Definition found (signal : option SignalHit.t) : bool :=
  match signal with Some _ => true | None => false end.

(** [_assess_risk_level(risk_score)]. *)
Definition _assess_risk_level (risk_score : Z) : string :=
  if (risk_score >=? 70)%Z then "CRITICAL"
  else if (risk_score >=? 50)%Z then "HIGH"
  else if (risk_score >=? 30)%Z then "MEDIUM"
  else "LOW".

(** The variables that one iteration of the loop of [detect_signals]
    updates while it goes through its four [if] blocks: the two locals
    of the iteration and the two variables shared by all iterations. *)
Record MessageScan : Type := mkScan {
  msg_signals : list SignalHit.t;
  msg_risk : Z;
  scan_breaking_point : option nat;
  scan_key_phrases : list string
}.

(** [if comparison_signal['found']: ...] for message [i]. *)
Definition comparison_block (i : nat) (signal : option SignalHit.t) (s : MessageScan)
    : MessageScan :=
  match signal with
  | None => s
  | Some hit =>
      mkScan (msg_signals s ++ [hit])%list (msg_risk s + 25)
        (match scan_breaking_point s with
         | None => Some (i + 1)%nat
         | Some b => Some b
         end)
        (scan_key_phrases s ++ [SignalHit.text hit])%list
  end.

(** [if frustration_signal['found']: ...]; the breaking point is set
    when there is none yet and [msg_risk], already increased, is above
    30. *)
Definition frustration_block (i : nat) (signal : option SignalHit.t) (s : MessageScan)
    : MessageScan :=
  match signal with
  | None => s
  | Some hit =>
      let msg_risk' := (msg_risk s + 30)%Z in
      mkScan (msg_signals s ++ [hit])%list msg_risk'
        (match scan_breaking_point s with
         | None => if (msg_risk' >? 30)%Z then Some (i + 1)%nat else None
         | Some b => Some b
         end)
        (scan_key_phrases s ++ [SignalHit.text hit])%list
  end.

(** [if disengagement_signal['found']: ...]. *)
Definition disengagement_block (i : nat) (signal : option SignalHit.t) (s : MessageScan)
    : MessageScan :=
  match signal with
  | None => s
  | Some hit =>
      mkScan (msg_signals s ++ [hit])%list (msg_risk s + 35)
        (match scan_breaking_point s with
         | None => Some (i + 1)%nat
         | Some b => Some b
         end)
        (scan_key_phrases s ++ [SignalHit.text hit])%list
  end.

(** [if price_signal['found']: ...]. *)
Definition price_block (signal : option SignalHit.t) (s : MessageScan) : MessageScan :=
  match signal with
  | None => s
  | Some hit =>
      mkScan (msg_signals s ++ [hit])%list (msg_risk s + 20)
        (scan_breaking_point s)
        (scan_key_phrases s ++ [SignalHit.text hit])%list
  end.

(** The variables that live across the iterations of [detect_signals]. *)
Record DetectState : Type := mkDetect {
  signals : list PyVal;
  risk_scores : list Z;
  breaking_point : option nat;
  key_phrases : list string
}.

(** The four blocks of one iteration, on the lower-cased text. *)
Definition scan_message (i : nat) (text : string) (breaking_point : option nat)
    (key_phrases : list string) : MessageScan :=
  price_block (_check_price text)
    (disengagement_block i (_check_disengagement text)
       (frustration_block i (_check_frustration text)
          (comparison_block i (_check_comparisons text)
             (mkScan [] 0 breaking_point key_phrases)))).

(** One iteration of the loop of [detect_signals]. *)
Definition detect_step (st : DetectState) (im : nat * Message) : DetectState :=
  let (i, msg) := im in
  let text := lower (message_text msg) in
  let timestamp := message_timestamp i msg in
  let s := scan_message i text (breaking_point st) (key_phrases st) in
  match msg_signals s with
  | [] => mkDetect (signals st) (risk_scores st) (scan_breaking_point s) (scan_key_phrases s)
  | _ =>
      mkDetect
        (signals st ++
         [ PDict [ ("message_index", PInt (Z.of_nat (i + 1)));
                   ("timestamp", PStr timestamp);
                   ("signals", PList (List.map SignalHit.to_py (msg_signals s)));
                   ("risk_score", PInt (Z.min 100 (msg_risk s))) ] ])%list
        (risk_scores st ++ [msg_risk s])%list
        (scan_breaking_point s) (scan_key_phrases s)
  end.

Definition detect_loop (messages : list Message) : DetectState :=
  fold_left detect_step (enumerate messages) (mkDetect [] [] None []).

(** [max(l)] of a non-empty list of [int]s. *)
Definition max_of (first : Z) (rest : list Z) : Z := fold_left Z.max rest first.

(** [any(s.get('type') == t for s in signals)]. *)
Definition any_type (t : string) (signals : list PyVal) : bool :=
  existsb (fun s => match py_get "type" s with
                    | Some (PStr t') => String.eqb t' t
                    | _ => false
                    end) signals.

(** [_generate_recommendations(context, risk_level, signals,
    breaking_point)]. *)
Definition _generate_recommendations (context risk_level : string)
    (signals : list PyVal) (breaking_point : option nat) : list string :=
  let critical_or_high :=
    String.eqb risk_level "CRITICAL" || String.eqb risk_level "HIGH" in
  let urgent :=
    if String.eqb risk_level "CRITICAL" then
      "⚠️ URGENT: Immediate intervention required"
      :: match breaking_point with
         | Some (S b) =>
             ["Breaking point detected at message " ++ Py.str_of_nat (S b)]
         | _ => []
         end
    else [] in
  let by_context :=
    if String.eqb context "customer" then
      if critical_or_high then
        [ "Contact customer immediately to address concerns";
          "Prepare retention offer (discount/upgrade)";
          "Escalate to account manager" ]
      else []
    else if String.eqb context "employee" then
      if critical_or_high then
        [ "Schedule 1-on-1 with HR or manager";
          "Identify root cause of dissatisfaction";
          "Prepare retention plan" ]
      else []
    else if String.eqb context "investor" then
      if critical_or_high then
        [ "Prepare detailed response addressing concerns";
          "Schedule follow-up meeting" ]
      else []
    else [] in
  let comparison :=
    if any_type "COMPETITOR_COMPARISON" signals then
      ["Counter competitive threats with unique value proposition"]
    else [] in
  let price :=
    if any_type "PRICE_CONCERN" signals then
      ["Review pricing strategy and alternative plans"]
    else [] in
  firstn 5 (urgent ++ by_context ++ comparison ++ price)%list.

(** [_empty_signals()]. *)
Definition _empty_signals : PyDict :=
  [ ("signals", PList []);
    ("risk_level", PStr "UNKNOWN");
    ("confidence", PInt 0);
    ("breaking_point", PNone);
    ("key_phrases", PList []);
    ("recommendations", PList []) ].

(** [detect_signals(messages, context)]. *)
Definition detect_signals (messages : list Message) (context : string) : PyDict :=
  match messages with
  | [] => _empty_signals
  | _ =>
      let st := detect_loop messages in
      let overall_risk :=
        match risk_scores st with
        | [] => 0%Z
        | first :: rest => max_of first rest
        end in
      let risk_level := _assess_risk_level overall_risk in
      let recommendations :=
        _generate_recommendations context risk_level (signals st) (breaking_point st) in
      [ ("signals", PList (signals st));
        ("risk_level", PStr risk_level);
        ("confidence", PInt (Z.min 100 (Z.of_nat (length (signals st)) * 15)));
        ("breaking_point",
         match breaking_point st with
         | None => PNone
         | Some b => PInt (Z.of_nat b)
         end);
        ("key_phrases", PList (List.map PStr (firstn 5 (set_iter (key_phrases st)))));
        ("recommendations", PList (List.map PStr recommendations));
        ("total_risk_score", PInt (Z.min 100 overall_risk)) ]
  end.

(** ** risk_predictor.py *)

Definition churn_indicators : list string :=
  [ "cancel"; "leave"; "stop"; "switch"; "competitor"; "alternative";
    "expensive"; "slow"; "disappointed"; "problem"; "issue" ].

Definition resolution_indicators : list string :=
  [ "understand"; "sorry"; "appreciate"; "help"; "support"; "solution";
    "fix"; "improve"; "better"; "thanks" ].

(** The loop shared by the two scoring methods: 15 points for every
    indicator that occurs in the text, the total capped at 100. *)
Definition score_indicators (indicators : list string) (text : string) : Z :=
  Z.min 100
    (fold_left (fun score indicator =>
                  if Py.str_in indicator text then (score + 15)%Z else score)
               indicators 0%Z).

Definition _score_churn_risk (text : string) : Z :=
  score_indicators churn_indicators text.

Definition _score_resolution_likelihood (text : string) : Z :=
  score_indicators resolution_indicators text.

(** [_predict_primary_action(current_sentiment, trend, churn_score,
    resolution_score, context)]. *)
Definition _predict_primary_action (current_sentiment : Q) (trend : string)
    (churn_score resolution_score : Z) (context : string) : string :=
  if (churn_score >? 50)%Z && Py.Qltb current_sentiment 40 then "LIKELY_CHURN"
  else if (resolution_score >? 50)%Z && String.eqb trend "IMPROVING" then "LIKELY_RESOLUTION"
  else if Py.Qgtb current_sentiment 50 && negb (String.eqb trend "DECLINING") then "LIKELY_STAY"
  else if Py.Qltb current_sentiment 30 && String.eqb trend "DECLINING" then "ESCALATION_NEEDED"
  else "MONITOR_CLOSELY".

(** [l[-2:]]. *)
Definition last_two {A : Type} (l : list A) : list A := skipn (length l - 2) l.

(** [_calculate_confidence(sentiments, churn_score, resolution_score)]. *)
Definition _calculate_confidence (sentiments : list Q)
    (churn_score resolution_score : Z) : Q :=
  let n := length sentiments in
  let base_confidence : Q := 50 in
  let base_confidence :=
    if (5 <=? n)%nat then base_confidence + 20
    else if (3 <=? n)%nat then base_confidence + 10
    else base_confidence in
  let base_confidence :=
    if (3 <=? n)%nat then
      let trend_strength :=
        Qabs (Py.sum (last_two sentiments) - Py.sum (firstn 2 sentiments))
        / inject_Z (Z.of_nat n) in
      base_confidence + Py.min 20 trend_strength
    else base_confidence in
  let base_confidence :=
    if (Z.max churn_score resolution_score >? 60)%Z then base_confidence + 15
    else base_confidence in
  Py.min 100 base_confidence.

(** [_predict_timeline(trend, current_sentiment, churn_score, context)]. *)
Definition _predict_timeline (trend : string) (current_sentiment : Q)
    (churn_score : Z) (context : string) : string :=
  if Py.Qltb current_sentiment 20 && (churn_score >? 80)%Z then "IMMEDIATE (0-24 hours)"
  else if String.eqb trend "DECLINING" && (churn_score >? 60)%Z then "VERY_SOON (1-3 days)"
  else if (churn_score >? 50)%Z || Py.Qltb current_sentiment 40 then "SOON (3-7 days)"
  else if Py.Qltb current_sentiment 50 then "MEDIUM_TERM (1-4 weeks)"
  else "EXTENDED (1-3 months)".

(** [_assess_urgency(current_sentiment, churn_score, action)]. *)
Definition _assess_urgency (current_sentiment : Q) (churn_score : Z)
    (action : string) : string :=
  if Py.Qltb current_sentiment 20 || (churn_score >? 80)%Z
     || String.eqb action "LIKELY_CHURN" then "CRITICAL"
  else if Py.Qltb current_sentiment 40 || (churn_score >? 60)%Z
          || String.eqb action "ESCALATION_NEEDED" then "HIGH"
  else if Py.Qltb current_sentiment 50 || (churn_score >? 40)%Z then "MEDIUM"
  else "LOW".

(** [_generate_interventions(action, context, urgency, sentiment)]. *)
Definition _generate_interventions (action context urgency : string)
    (sentiment : Q) : list string :=
  let critical_or_high :=
    String.eqb urgency "CRITICAL" || String.eqb urgency "HIGH" in
  let by_action :=
    if String.eqb action "LIKELY_CHURN" then
      [ "ðŸš¨ Immediate outreach required"; "Prepare retention offer"; "Escalate to senior management" ]
    else if String.eqb action "ESCALATION_NEEDED" then
      [ "âš ï¸ Schedule urgent meeting"; "Identify root cause"; "Prepare solution options" ]
    else if String.eqb action "LIKELY_RESOLUTION" then
      [ "âœ… Prepare resolution proposal"; "Schedule follow-up" ]
    else [] in
  let by_context :=
    if String.eqb context "customer" then
      if critical_or_high then [ "Offer priority support/upgrade"; "Consider special pricing" ] else []
    else if String.eqb context "employee" then
      if critical_or_high then [ "Schedule HR meeting"; "Assess job satisfaction" ] else []
    else [] in
  firstn 4 (by_action ++ by_context)%list.

(** [d.get(k, 0)] for the two tables of
    [_calculate_intervention_success]. *)
Fixpoint table_get (k : string) (table : list (string * Z)) : Z :=
  match table with
  | [] => 0%Z
  | (k', v) :: table' => if String.eqb k k' then v else table_get k table'
  end.

Definition urgency_map : list (string * Z) :=
  [ ("CRITICAL", -20); ("HIGH", -10); ("MEDIUM", 0); ("LOW", 10) ]%Z.

Definition action_map : list (string * Z) :=
  [ ("LIKELY_RESOLUTION", 20); ("LIKELY_STAY", 15); ("MONITOR_CLOSELY", 5);
    ("ESCALATION_NEEDED", -5); ("LIKELY_CHURN", -15) ]%Z.

(** [_calculate_intervention_success(context, urgency, action)]. *)
Definition _calculate_intervention_success (context urgency action : string) : Z :=
  let base_success := 60%Z in
  let base_success := (base_success + table_get urgency urgency_map)%Z in
  let base_success := (base_success + table_get action action_map)%Z in
  let base_success :=
    if String.eqb context "customer" || String.eqb context "employee"
    then (base_success + 10)%Z else base_success in
  Z.max 20 (Z.min 95 base_success).

(** [_generate_explanation(action, sentiment, trend, churn_score)]. *)
Definition _generate_explanation (action : string) (sentiment : Q)
    (trend : string) (churn_score : Z) : string :=
  let explanation :=
    "Based on current sentiment (" ++ fmt0f sentiment ++ "/100) and "
      ++ lower trend ++ " trend, " in
  if String.eqb action "LIKELY_CHURN" then
    explanation ++ "the subject shows strong churn indicators ("
      ++ fmt0f (inject_Z churn_score) ++ "/100). "
      ++ "Immediate action strongly recommended to prevent departure."
  else if String.eqb action "LIKELY_RESOLUTION" then
    explanation ++ "the situation appears to be resolving. "
      ++ "Continue supportive approach and follow up soon."
  else if String.eqb action "LIKELY_STAY" then
    explanation ++ "the relationship appears stable. "
      ++ "Maintain current level of service and monitor for changes."
  else if String.eqb action "ESCALATION_NEEDED" then
    explanation ++ "the situation has deteriorated significantly. "
      ++ "Escalation and intervention are necessary."
  else explanation ++ "signals are mixed. Continue monitoring closely.".

(** [_empty_prediction()]. *)
Definition _empty_prediction : Prediction.t :=
  Prediction.mk "UNKNOWN" 0 "UNKNOWN" "UNKNOWN" [] 0 "No data provided" None.

(** [messages[-3:] if len(messages) >= 3 else messages]. *)
Definition final_messages (messages : list Message) : list Message :=
  if (3 <=? length messages)%nat then skipn (length messages - 3) messages
  else messages.

(** An element of the list handed to [' '.join]: the text of a dict,
    the message itself otherwise; [None] when it is not a [str], on
    which [join] raises [TypeError]. *)
Definition join_item (m : Message) : option string :=
  match m with
  | MsgDict (Some text) _ => Some text
  | MsgDict None _ => Some ""
  | MsgStr s => Some s
  | MsgOther _ => None
  end.

Fixpoint join_items (l : list Message) : option (list string) :=
  match l with
  | [] => Some []
  | m :: l' =>
      match join_item m, join_items l' with
      | Some s, Some r => Some (s :: r)
      | _, _ => None
      end
  end.

(** [final_text] of [predict_action]. *)
Definition final_text (messages : list Message) : option string :=
  option_map (fun items => lower (Py.join " " items))
             (join_items (final_messages messages)).

(** [predict_action(messages, context)]; [None] is an exception. *)
Definition predict_action (messages : list Message) (context : string)
    : option Prediction.t :=
  match messages with
  | [] => Some _empty_prediction
  | _ =>
      match analyze_evolution messages with
      | None => None
      | Some sentiment_data =>
          let sentiments :=
            List.map ScoredPoint.sentiment_score (Trajectory.timeline sentiment_data) in
          let current_sentiment := Trajectory.current_sentiment sentiment_data in
          let trend := Trajectory.trend sentiment_data in
          match final_text messages with
          | None => None
          | Some final_text =>
              let churn_score := _score_churn_risk final_text in
              let resolution_score := _score_resolution_likelihood final_text in
              let action :=
                _predict_primary_action current_sentiment trend churn_score
                  resolution_score context in
              let confidence :=
                _calculate_confidence sentiments churn_score resolution_score in
              let timeline :=
                _predict_timeline trend current_sentiment churn_score context in
              let urgency := _assess_urgency current_sentiment churn_score action in
              let interventions :=
                _generate_interventions action context urgency current_sentiment in
              let success_rate :=
                _calculate_intervention_success context urgency action in
              let explanation :=
                _generate_explanation action current_sentiment trend churn_score in
              Some (Prediction.mk action (Py.round confidence 1) timeline urgency
                      interventions success_rate explanation
                      (Some (TrajectorySummary.mk
                               (Trajectory.initial_sentiment sentiment_data)
                               current_sentiment trend
                               (Trajectory.overall_change sentiment_data))))
          end
      end
  end.

(** ** The specification's wording, for comparison with the code *)

(** A word occurs in a text as a substring. *)
Definition occurs_in (word text : string) : Prop :=
  exists before after : string, text = before ++ word ++ after.

(** The weights of the signal types that fire in a message, summed. *)
Definition raw_risk (text_lower : string) : Z :=
  ((if found (_check_comparisons text_lower) then 25 else 0)
   + (if found (_check_frustration text_lower) then 30 else 0)
   + (if found (_check_disengagement text_lower) then 35 else 0)
   + (if found (_check_price text_lower) then 20 else 0))%Z.

(** The per-message risk contribution: that sum, capped at 100. *)
Definition risk_contribution (text_lower : string) : Z :=
  Z.min 100 (raw_risk text_lower).

(** The maximum of a list of contributions, none of them negative. *)
Definition maximum (l : list Z) : Z := fold_right Z.max 0%Z l.

(** The lower-cased texts that the Signal Detector scans. *)
Definition scanned_texts (messages : list Message) : list string :=
  List.map (fun msg => lower (message_text msg)) messages.

(** The risk that message [text_lower] has accumulated when the
    frustration signal is examined: comparison, then frustration. *)
Definition risk_at_frustration (text_lower : string) : Z :=
  ((if found (_check_comparisons text_lower) then 25 else 0) + 30)%Z.

(** A message qualifies as breaking point when it triggers comparison or
    disengagement at all, or frustration with a risk already above 30. *)
Definition qualifies (text_lower : string) : bool :=
  found (_check_comparisons text_lower)
  || found (_check_disengagement text_lower)
  || (found (_check_frustration text_lower)
      && (risk_at_frustration text_lower >? 30)%Z).

(** The 1-based position of the first text that satisfies [p], counting
    from [start]. *)
Fixpoint first_index (p : string -> bool) (start : nat) (texts : list string)
    : option nat :=
  match texts with
  | [] => None
  | t :: texts' => if p t then Some (start + 1)%nat else first_index p (S start) texts'
  end.

(** The five rules of the primary action decision, first match wins. *)
Inductive ActionRule : Q -> string -> Z -> Z -> string -> Prop :=
| rule_churn : forall cs trend churn res,
    (churn > 50)%Z -> cs < 40 ->
    ActionRule cs trend churn res "LIKELY_CHURN"
| rule_resolution : forall cs trend churn res,
    ~ ((churn > 50)%Z /\ cs < 40) ->
    (res > 50)%Z -> trend = "IMPROVING" ->
    ActionRule cs trend churn res "LIKELY_RESOLUTION"
| rule_stay : forall cs trend churn res,
    ~ ((churn > 50)%Z /\ cs < 40) ->
    ~ ((res > 50)%Z /\ trend = "IMPROVING") ->
    50 < cs -> trend <> "DECLINING" ->
    ActionRule cs trend churn res "LIKELY_STAY"
| rule_escalation : forall cs trend churn res,
    ~ ((churn > 50)%Z /\ cs < 40) ->
    ~ ((res > 50)%Z /\ trend = "IMPROVING") ->
    ~ (50 < cs /\ trend <> "DECLINING") ->
    cs < 30 -> trend = "DECLINING" ->
    ActionRule cs trend churn res "ESCALATION_NEEDED"
| rule_monitor : forall cs trend churn res,
    ~ ((churn > 50)%Z /\ cs < 40) ->
    ~ ((res > 50)%Z /\ trend = "IMPROVING") ->
    ~ (50 < cs /\ trend <> "DECLINING") ->
    ~ (cs < 30 /\ trend = "DECLINING") ->
    ActionRule cs trend churn res "MONITOR_CLOSELY".

(** The score swing that ends at position [i]. *)
Definition magnitude (sentiments : list Q) (i : nat) : Q :=
  Qabs (nth i sentiments 0 - nth (i - 1) sentiments 0).

(** The severity tier of a magnitude. *)
Inductive SeverityTier : Q -> string -> Prop :=
| tier_critical : forall m, 40 < m -> SeverityTier m "CRITICAL"
| tier_high : forall m, 30 < m -> m <= 40 -> SeverityTier m "HIGH"
| tier_medium : forall m, m <= 30 -> SeverityTier m "MEDIUM".

(** What a turning point records about the scores around its index. *)
Definition records_change (sentiments : list Q) (tp : TurningPoint.t) : Prop :=
  let i := TurningPoint.index tp in
  TurningPoint.from_state tp = _sentiment_state (nth (i - 1) sentiments 0)
  /\ TurningPoint.to_state tp = _sentiment_state (nth i sentiments 0)
  /\ TurningPoint.change_magnitude tp = Py.round (magnitude sentiments i) 2
  /\ SeverityTier (magnitude sentiments i) (TurningPoint.severity tp).

(** The score sequence of a message list. *)
Definition scores (messages : list Message) : list Q :=
  List.map (fun msg => _calculate_sentiment (Some (message_text msg))) messages.

(** ** Further wording for the properties of the whole pipeline *)

(** The timeline entry that [analyze_evolution] appends for message [i]
    (counted from 0). *)
Definition scored_point (i : nat) (msg : Message) : ScoredPoint.t :=
  let text := message_text msg in
  let sentiment_score := _calculate_sentiment (Some text) in
  ScoredPoint.mk (message_timestamp i msg)
    (if (100 <? Py.len text)%nat then Py.slice_to 100 text ++ "..." else text)
    (Py.round sentiment_score 2)
    (_sentiment_state sentiment_score)
    (i + 1).

(** A message is flagged when one of the four checks finds a keyword in
    its lower-cased text. *)
Definition flagged (text_lower : string) : bool :=
  found (_check_comparisons text_lower)
  || found (_check_frustration text_lower)
  || found (_check_disengagement text_lower)
  || found (_check_price text_lower).

(** The number of flagged messages. *)
Definition flagged_count (messages : list Message) : Z :=
  Z.of_nat (length (filter flagged (scanned_texts messages))).

(** The number of indicators of a list that occur in a text. *)
Definition indicator_count (indicators : list string) (text : string) : Z :=
  Z.of_nat (length (filter (fun indicator => Py.str_in indicator text) indicators)).


(** ** database_manager.py: [save_analysis]

    The moment of [CURRENT_TIMESTAMP] is an argument [now] of the
    operation. *)

(** [d.get(k, default)]. *)
Definition get_or {A : Type} (v : option A) (default : A) : A :=
  match v with
  | Some x => x
  | None => default
  end.

(** The id that AUTOINCREMENT gives the next row of a table from which
    no row has been deleted: one more than the largest id in it. *)
Definition next_id (ids : list Z) : Z := (fold_right Z.max 0 ids + 1)%Z.

(** [UPDATE customer_profiles SET ... WHERE customer_id = ?] on one row;
    every right-hand side reads the row as it was before the update.
    SQLite computes the new lifetime sentiment in REAL arithmetic, here
    it is the exact rational. *)
Definition update_profile (now customer_id : string) (confidence sentiment : Q)
    (row : ProfileRow.t) : ProfileRow.t :=
  if String.eqb (ProfileRow.customer_id row) customer_id then
    ProfileRow.mk (ProfileRow.id row) (ProfileRow.customer_id row)
      (ProfileRow.context_type row) (ProfileRow.first_contact row)
      now
      (ProfileRow.total_interactions row + 1)
      confidence
      ((ProfileRow.lifetime_sentiment row
        * inject_Z (ProfileRow.total_interactions row) + sentiment)
       / inject_Z (ProfileRow.total_interactions row + 1))
  else row.

(** [save_analysis(customer_id, context_type, messages, analysis)]: the
    returned [analysis_id] and the database after the commit. *)
Definition save_analysis (db : Database.t) (now customer_id context_type : string)
    (messages : list Message) (analysis : Analysis.t) : Z * Database.t :=
  let sentiment := get_or (Analysis.current_sentiment analysis) 0 in
  let confidence := get_or (Analysis.confidence analysis) 0 in
  let predicted_action := get_or (Analysis.predicted_action analysis) "UNKNOWN" in
  let analysis_id :=
    next_id (List.map ConversationRow.id (Database.conversations db)) in
  let conversations :=
    (Database.conversations db ++
     [ ConversationRow.mk analysis_id customer_id context_type now messages
         sentiment
         (get_or (Analysis.trend analysis) "UNKNOWN")
         (get_or (Analysis.risk_level analysis) "UNKNOWN")
         predicted_action
         confidence ])%list in
  let profile :=
    existsb (fun row => String.eqb (ProfileRow.customer_id row) customer_id)
            (Database.customer_profiles db) in
  let customer_profiles :=
    if profile then
      List.map (update_profile now customer_id confidence sentiment)
               (Database.customer_profiles db)
    else
      (Database.customer_profiles db ++
       [ ProfileRow.mk
           (next_id (List.map ProfileRow.id (Database.customer_profiles db)))
           customer_id context_type now now 1 confidence sentiment ])%list in
  let risk_alerts :=
    if Py.Qgtb confidence 0.7 then
      (Database.risk_alerts db ++
       [ AlertRow.mk
           (next_id (List.map AlertRow.id (Database.risk_alerts db)))
           customer_id predicted_action
           (if Py.Qgtb confidence 0.85 then "HIGH" else "MEDIUM")
           now 0
           ("Detected " ++ get_or (Analysis.trend analysis) "None" ++ " trend with "
              ++ fmt0f (confidence * 100) ++ "% confidence") ])%list
    else Database.risk_alerts db in
  (analysis_id, Database.mk conversations risk_alerts customer_profiles).

(** The first profile of a customer, the only one when [customer_id] is
    unique. *)
Definition profile_of (customer_id : string) (db : Database.t) : option ProfileRow.t :=
  find (fun row => String.eqb (ProfileRow.customer_id row) customer_id)
       (Database.customer_profiles db).

(** One call of [save_analysis] at a given moment. *)
Record Save : Type := mkSave {
  save_now : string;
  save_context_type : string;
  save_messages : list Message;
  save_analysis_arg : Analysis.t
}.

(** Successive calls of [save_analysis] for one customer. *)
Definition save_all (customer_id : string) (saves : list Save) (db : Database.t)
    : Database.t :=
  fold_left (fun db s =>
               snd (save_analysis db (save_now s) customer_id (save_context_type s)
                      (save_messages s) (save_analysis_arg s)))
            saves db.

(** ** mcp_server.py: the three analysis tools of [call_tool]

    What [analysis.get] finds in each of the three results, by the keys
    of the dicts that the operations return. *)

(** The result of [analyze_evolution] has the keys 'current_sentiment'
    and 'trend', and none of the other three. *)
Definition analysis_of_trajectory (result : Trajectory.t) : Analysis.t :=
  Analysis.mk (Some (Trajectory.current_sentiment result))
    (Some (Trajectory.trend result)) None None None.

(** The result of [detect_signals] has the keys 'risk_level' and
    'confidence' (an int), and none of the other three. *)
Definition analysis_of_assessment (result : PyDict) : Analysis.t :=
  Analysis.mk None None
    (match dict_get "risk_level" result with
     | Some (PStr level) => Some level
     | _ => None
     end)
    None
    (match dict_get "confidence" result with
     | Some (PInt confidence) => Some (inject_Z confidence)
     | _ => None
     end).

(** The result of [predict_action] has the key 'confidence'; its action
    is under 'action', and its sentiment and trend are inside
    'sentiment_trajectory'. *)
Definition analysis_of_prediction (result : Prediction.t) : Analysis.t :=
  Analysis.mk None None None None (Some (Prediction.confidence result)).

(** The arguments of a tool call: [None] is an absent key, and for
    'messages' also a value that is not a list. *)
Record Arguments : Type := mkArguments {
  arg_messages : option (list Message);
  arg_context_type : option string;
  arg_customer_id : option string
}.

(** The payload of the answer, before [json.dumps].  In the three
    branches below [default_customer_id messages] stands for
    [f"customer_{hash(str(messages))}"]. *)
Inductive Response : Type :=
| ErrorResponse (error : string)
| ToolException (name : string)
| TrajectoryResponse (result : Trajectory.t)
| AssessmentResponse (result : PyDict)
| PredictionResponse (result : Prediction.t).

Definition invalid_messages : string :=
  "Missing or invalid 'messages' parameter (must be non-empty array)".

(** [if context_type not in ["customer", "employee", "email"]:
    context_type = "customer"]. *)
Definition normalize_context (context_type : option string) : string :=
  let context_type := get_or context_type "customer" in
  if String.eqb context_type "customer" || String.eqb context_type "employee"
     || String.eqb context_type "email"
  then context_type else "customer".

(** The branch of [call_tool] for "analyze_sentiment_evolution". *)
Definition call_analyze_sentiment_evolution (default_customer_id : list Message -> string)
    (arguments : Arguments) (now : string)
    (db : Database.t) : Response * Database.t :=
  match arg_messages arguments with
  | None | Some [] => (ErrorResponse invalid_messages, db)
  | Some messages =>
      match analyze_evolution messages with
      | None => (ToolException "analyze_sentiment_evolution", db)
      | Some result =>
          let customer_id :=
            get_or (arg_customer_id arguments) (default_customer_id messages) in
          (TrajectoryResponse result,
           snd (save_analysis db now customer_id "conversation" messages
                  (analysis_of_trajectory result)))
      end
  end.

(** The branch for "detect_risk_signals". *)
Definition call_detect_risk_signals (default_customer_id : list Message -> string)
    (arguments : Arguments) (now : string)
    (db : Database.t) : Response * Database.t :=
  match arg_messages arguments with
  | None | Some [] => (ErrorResponse invalid_messages, db)
  | Some messages =>
      let context_type := normalize_context (arg_context_type arguments) in
      let result := detect_signals messages context_type in
      let customer_id :=
        get_or (arg_customer_id arguments) (default_customer_id messages) in
      (AssessmentResponse result,
       snd (save_analysis db now customer_id context_type messages
              (analysis_of_assessment result)))
  end.

(** The branch for "predict_next_action". *)
Definition call_predict_next_action (default_customer_id : list Message -> string)
    (arguments : Arguments) (now : string)
    (db : Database.t) : Response * Database.t :=
  match arg_messages arguments with
  | None | Some [] => (ErrorResponse invalid_messages, db)
  | Some messages =>
      let context_type := normalize_context (arg_context_type arguments) in
      match predict_action messages context_type with
      | None => (ToolException "predict_next_action", db)
      | Some result =>
          let customer_id :=
            get_or (arg_customer_id arguments) (default_customer_id messages) in
          (PredictionResponse result,
           snd (save_analysis db now customer_id context_type messages
                  (analysis_of_prediction result)))
      end
  end.

(** The sentiment and the confidence that a call stores. *)
Definition stored_sentiment (s : Save) : Q :=
  get_or (Analysis.current_sentiment (save_analysis_arg s)) 0.

Definition stored_confidence (s : Save) : Q :=
  get_or (Analysis.confidence (save_analysis_arg s)) 0.

(** The signals found in a lower-cased text, in the order of the four
    [if] blocks. *)
Definition message_hits (text_lower : string) : list SignalHit.t :=
  (match _check_comparisons text_lower with Some hit => [hit] | None => [] end
   ++ match _check_frustration text_lower with Some hit => [hit] | None => [] end
   ++ match _check_disengagement text_lower with Some hit => [hit] | None => [] end
   ++ match _check_price text_lower with Some hit => [hit] | None => [] end)%list.

(** The positions (from 0) of the flagged messages, with the messages. *)
Definition flagged_messages (messages : list Message) : list (nat * Message) :=
  filter (fun im => flagged (lower (message_text (snd im)))) (enumerate messages).
(** * Properties *)

(** ** Arithmetic of the built-ins *)

Lemma Qltb_lt (a b : Q) : Py.Qltb a b = true <-> a < b.
Proof.
  unfold Py.Qltb. rewrite negb_true_iff.
  split; intro H.
  - apply Qnot_le_lt. intro Hle. apply Qle_bool_iff in Hle. congruence.
  - destruct (Qle_bool b a) eqn:E; [|reflexivity].
    apply Qle_bool_iff in E. exfalso. apply (Qlt_not_le _ _ H E).
Qed.

Lemma Qltb_ge (a b : Q) : Py.Qltb a b = false <-> b <= a.
Proof.
  unfold Py.Qltb. rewrite negb_false_iff. apply Qle_bool_iff.
Qed.

Lemma Qgeb_ge (a b : Q) : Py.Qgeb a b = true <-> b <= a.
Proof. apply Qle_bool_iff. Qed.

Lemma Qgeb_lt (a b : Q) : Py.Qgeb a b = false <-> a < b.
Proof.
  unfold Py.Qgeb. split; intro H.
  - apply Qnot_le_lt. intro Hle. apply Qle_bool_iff in Hle. congruence.
  - destruct (Qle_bool b a) eqn:E; [|reflexivity].
    apply Qle_bool_iff in E. exfalso. apply (Qlt_not_le _ _ H E).
Qed.

Lemma py_max_spec (a b : Q) : Py.max a b == Qmax a b.
Proof.
  unfold Py.max, Py.Qgtb. destruct (Py.Qltb a b) eqn:E.
  - apply Qltb_lt in E. symmetry. apply Q.max_r. lra.
  - apply Qltb_ge in E. symmetry. apply Q.max_l. exact E.
Qed.

Lemma py_min_spec (a b : Q) : Py.min a b == Qmin a b.
Proof.
  unfold Py.min. destruct (Py.Qltb b a) eqn:E.
  - apply Qltb_lt in E. symmetry. apply Q.min_r. lra.
  - apply Qltb_ge in E. symmetry. apply Q.min_l. exact E.
Qed.

Lemma clamp_0_100_bounds (x : Q) : 0 <= clamp_0_100 x <= 100.
Proof.
  unfold clamp_0_100. split.
  - apply Q.min_glb; [lra | apply Q.le_max_l].
  - apply Q.le_min_l.
Qed.

Lemma clamp_0_100_monotone (x y : Q) : x <= y -> clamp_0_100 x <= clamp_0_100 y.
Proof.
  intro H. unfold clamp_0_100.
  apply Q.min_le_compat_l. apply Q.max_le_compat_l. exact H.
Qed.

Lemma py_clamp_spec (x : Q) : Py.min 100 (Py.max 0 x) == clamp_0_100 x.
Proof.
  unfold clamp_0_100. rewrite py_min_spec.
  destruct (Q.min_spec 100 (Py.max 0 x)) as [[H1 H2]|[H1 H2]];
  destruct (Q.min_spec 100 (Qmax 0 x)) as [[H3 H4]|[H3 H4]];
  rewrite H2, H4; pose proof (py_max_spec 0 x) as E; try reflexivity;
  try (rewrite E in H1; lra); exact E.
Qed.

Lemma clamp_0_100_compat (x y : Q) : x == y -> clamp_0_100 x == clamp_0_100 y.
Proof.
  intro H. apply Qle_antisym; apply clamp_0_100_monotone; rewrite H; apply Qle_refl.
Qed.




(** ** Lexicon Scorer *)

(** The blend of the specification, before the clamp. *)
Lemma final_score_blend (text : string) :
  inject_Z (50 + positive_count text * 10 - negative_count text * 10) * 0.7
    + (polarity text + 1) * 50 * 0.3
  == 0.7 * (50 + 10 * inject_Z (positive_count text) - 10 * inject_Z (negative_count text))
     + 0.3 * ((polarity text + 1) * 50).
Proof.
  unfold Z.sub. rewrite !inject_Z_plus, inject_Z_opp, !inject_Z_mult.
  change (inject_Z 50) with 50. change (inject_Z 10) with 10. ring.
Qed.

Lemma score_unfold (c : ascii) (s : string) :
  _calculate_sentiment (Some (String c s))
  = Py.min 100 (Py.max 0
      (inject_Z (50 + positive_count (String c s) * 10 - negative_count (String c s) * 10) * 0.7
       + (polarity (String c s) + 1) * 50 * 0.3)).
Proof.
  unfold _calculate_sentiment, positive_count, negative_count. reflexivity.
Qed.

Lemma score_nonempty (c : ascii) (s : string) :
  _calculate_sentiment (Some (String c s))
  == clamp_0_100
       (0.7 * (50 + 10 * inject_Z (positive_count (String c s))
                  - 10 * inject_Z (negative_count (String c s)))
        + 0.3 * ((polarity (String c s) + 1) * 50)).
Proof.
  rewrite score_unfold.
  eapply Qeq_trans; [apply py_clamp_spec|].
  apply clamp_0_100_compat. apply final_score_blend.
Qed.

Lemma score_bounds (text : option string) :
  0 <= _calculate_sentiment text <= 100.
Proof.
  destruct text as [[|c s]|].
  - split; discriminate.
  - pose proof (score_nonempty c s) as E.
    pose proof (clamp_0_100_bounds
      (0.7 * (50 + 10 * inject_Z (positive_count (String c s))
                 - 10 * inject_Z (negative_count (String c s)))
       + 0.3 * ((polarity (String c s) + 1) * 50))) as B.
    split; [eapply Qle_trans; [apply B|] | eapply Qle_trans; [|apply B]];
      apply Qle_lteq; right; [symmetry|]; exact E.
  - split; discriminate.
Qed.

(** [w in s] is the substring relation. *)
Lemma prefix_iff (w s : string) :
  String.prefix w s = true <-> exists post : string, s = w ++ post.
Proof.
  revert s. induction w as [|c w IH]; intro s.
  - split; [intros _; exists s; reflexivity|]. intros _. destruct s; reflexivity.
  - destruct s as [|c' s]; cbn [String.prefix].
    + split; [discriminate|]. intros [post H]. discriminate H.
    + destruct (ascii_dec c c') as [->|Hne].
      * rewrite IH. split; intros [post H]; exists post.
        -- cbn. rewrite H. reflexivity.
        -- cbn in H. injection H as H. exact H.
      * split; [discriminate|]. intros [post H]. cbn in H. injection H as H _.
        congruence.
Qed.

Lemma str_in_iff (w s : string) :
  Py.str_in w s = true <-> exists pre post : string, s = pre ++ w ++ post.
Proof.
  induction s as [|c s IH]; cbn [Py.str_in].
  - destruct (String.prefix w "") eqn:E.
    + split; [|reflexivity]. intros _. apply prefix_iff in E. destruct E as [post E].
      exists "", post. exact E.
    + split; [discriminate|]. intros [pre [post H]].
      destruct pre; [|discriminate H]. cbn in H.
      assert (Hp : String.prefix w "" = true) by (apply prefix_iff; exists post; exact H).
      congruence.
  - destruct (String.prefix w (String c s)) eqn:E.
    + split; [|reflexivity]. intros _. apply prefix_iff in E. destruct E as [post E].
      exists "", post. exact E.
    + rewrite IH. split.
      * intros [pre [post H]]. exists (String c pre), post. cbn. rewrite H. reflexivity.
      * intros [[|c' pre] [post H]].
        -- cbn in H.
           assert (Hp : String.prefix w (String c s) = true)
             by (apply prefix_iff; exists post; exact H).
           congruence.
        -- cbn in H. injection H as _ H. exists pre, post. exact H.
Qed.

(** A set literal holds each of its words once. *)
Lemma In_set_of (w : string) (l : list string) : In w (Py.set_of l) -> In w l.
Proof.
  induction l as [|x l IH]; cbn [Py.set_of]; [tauto|].
  destruct (existsb (String.eqb x) l); cbn [In]; tauto.
Qed.

Lemma NoDup_set_of (l : list string) : NoDup (Py.set_of l).
Proof.
  induction l as [|x l IH]; cbn [Py.set_of]; [constructor|].
  destruct (existsb (String.eqb x) l) eqn:E; [exact IH|].
  constructor; [|exact IH]. intro Hin. apply In_set_of in Hin.
  assert (Ht : existsb (String.eqb x) l = true).
  { apply existsb_exists. exists x. split; [exact Hin|apply String.eqb_refl]. }
  congruence.
Qed.

Lemma NoDup_positive_words : NoDup positive_words.
Proof. unfold positive_words. apply NoDup_set_of. Qed.

Lemma NoDup_negative_words : NoDup negative_words.
Proof. unfold negative_words. apply NoDup_set_of. Qed.

(** The count of the code is the number of words of the list that occur
    in the text. *)
Lemma count_words_occurring (words : list string) (text_lower : string) :
  NoDup words ->
  exists occurring : list string,
    NoDup occurring
    /\ (forall w : string,
          In w occurring <-> In w words /\ occurs_in w text_lower)
    /\ count_words words text_lower = Z.of_nat (length occurring).
Proof.
  intro Hnd. exists (filter (fun word => Py.str_in word text_lower) words).
  split; [apply NoDup_filter; exact Hnd|]. split; [|reflexivity].
  intro w. rewrite filter_In. unfold occurs_in. rewrite str_in_iff. reflexivity.
Qed.

(** C1. The Lexicon Scorer returns 50 for a missing or empty text; for
    every other text it returns the blend 0.7 * (50 + 10 * positive_count
    - 10 * negative_count) + 0.3 * ((polarity + 1) * 50) clamped to
    [0,100]; the result always lies in [0,100].  The two counts are the
    numbers of words of the positive and of the negative lexicon that
    occur as substrings of the lower-cased text, each word counted once.
    The scorer is a total function, so no input makes it fail. *)
Theorem lexicon_scorer_contract :
  _calculate_sentiment None = 50
  /\ _calculate_sentiment (Some "") = 50
  /\ (forall (c : ascii) (s : string),
        let text := String c s in
        _calculate_sentiment (Some text)
        == clamp_0_100
             (0.7 * (50 + 10 * inject_Z (positive_count text)
                        - 10 * inject_Z (negative_count text))
              + 0.3 * ((polarity text + 1) * 50)))
  /\ (forall text : option string, 0 <= _calculate_sentiment text <= 100)
  /\ (forall text : string,
        exists positive negative : list string,
          NoDup positive
          /\ NoDup negative
          /\ (forall w : string,
                In w positive <-> In w positive_words /\ occurs_in w (lower text))
          /\ (forall w : string,
                In w negative <-> In w negative_words /\ occurs_in w (lower text))
          /\ positive_count text = Z.of_nat (length positive)
          /\ negative_count text = Z.of_nat (length negative)).
Proof.
  split; [reflexivity|]. split; [reflexivity|]. split; [|split].
  - intros c s. exact (score_nonempty c s).
  - apply score_bounds.
  - intro text.
    destruct (count_words_occurring positive_words (lower text) NoDup_positive_words)
      as [positive [Hp [Hpin Hpc]]].
    destruct (count_words_occurring negative_words (lower text) NoDup_negative_words)
      as [negative [Hn [Hnin Hnc]]].
    exists positive, negative.
    split; [exact Hp|]. split; [exact Hn|]. split; [exact Hpin|].
    split; [exact Hnin|]. unfold positive_count, negative_count.
    split; [exact Hpc|exact Hnc].
Qed.



(** ** Signal Detector *)

(** The loop of [detect_signals], started at position [k] in state [st]. *)
Lemma enumerate_cons {A : Type} (k : nat) (x : A) (l : list A) :
  combine (seq k (length (x :: l))) (x :: l) = (k, x) :: combine (seq (S k) (length l)) l.
Proof. reflexivity. Qed.

Lemma raw_risk_nonneg (t : string) : (0 <= raw_risk t)%Z.
Proof.
  unfold raw_risk.
  destruct (found (_check_comparisons t)), (found (_check_frustration t)),
    (found (_check_disengagement t)), (found (_check_price t)); lia.
Qed.

(** What the four blocks of one iteration leave behind. *)
Lemma scan_message_risk (i : nat) (t : string) (bp : option nat) (kp : list string) :
  msg_risk (scan_message i t bp kp) = raw_risk t.
Proof.
  unfold scan_message, raw_risk.
  destruct (_check_comparisons t), (_check_frustration t),
    (_check_disengagement t), (_check_price t); reflexivity.
Qed.

Lemma scan_message_no_signal (i : nat) (t : string) (bp : option nat) (kp : list string) :
  msg_signals (scan_message i t bp kp) = [] <-> raw_risk t = 0%Z.
Proof.
  unfold scan_message, raw_risk.
  destruct (_check_comparisons t), (_check_frustration t),
    (_check_disengagement t), (_check_price t);
    cbn; split; intro H; try discriminate; try reflexivity.
Qed.

Lemma scan_message_breaking_point (i : nat) (t : string) (bp : option nat)
    (kp : list string) :
  scan_breaking_point (scan_message i t bp kp)
  = match bp with
    | Some b => Some b
    | None => if qualifies t then Some (i + 1)%nat else None
    end.
Proof.
  unfold scan_message, qualifies, risk_at_frustration.
  destruct (_check_comparisons t), (_check_frustration t),
    (_check_disengagement t), (_check_price t), bp; reflexivity.
Qed.

(** Frustration never qualifies by itself: its clause needs a
    comparison signal in the same message. *)
Lemma qualifies_comparison_or_disengagement (t : string) :
  qualifies t = found (_check_comparisons t) || found (_check_disengagement t).
Proof.
  unfold qualifies, risk_at_frustration.
  destruct (found (_check_comparisons t)), (found (_check_frustration t)),
    (found (_check_disengagement t)); reflexivity.
Qed.

Lemma detect_step_breaking_point (st : DetectState) (i : nat) (msg : Message) :
  breaking_point (detect_step st (i, msg))
  = match breaking_point st with
    | Some b => Some b
    | None => if qualifies (lower (message_text msg)) then Some (i + 1)%nat else None
    end.
Proof.
  unfold detect_step.
  destruct (msg_signals (scan_message i (lower (message_text msg))
                           (breaking_point st) (key_phrases st)));
    cbn [breaking_point]; apply scan_message_breaking_point.
Qed.

Lemma detect_step_risk_scores (st : DetectState) (i : nat) (msg : Message) :
  risk_scores (detect_step st (i, msg))
  = (risk_scores st
     ++ (if (raw_risk (lower (message_text msg)) =? 0)%Z then []
         else [raw_risk (lower (message_text msg))]))%list.
Proof.
  unfold detect_step.
  pose proof (scan_message_no_signal i (lower (message_text msg))
                (breaking_point st) (key_phrases st)) as Hn.
  pose proof (scan_message_risk i (lower (message_text msg))
                (breaking_point st) (key_phrases st)) as Hr.
  destruct (msg_signals (scan_message i (lower (message_text msg))
                           (breaking_point st) (key_phrases st))) eqn:E;
    cbn [risk_scores].
  - destruct Hn as [Hn _]. rewrite (Hn eq_refl). cbn. symmetry. apply app_nil_r.
  - rewrite Hr. destruct (Z.eqb_spec (raw_risk (lower (message_text msg))) 0) as [Hz|Hz].
    + destruct Hn as [_ Hn]. discriminate (Hn Hz).
    + reflexivity.
Qed.

Lemma detect_loop_breaking_point (msgs : list Message) :
  forall (k : nat) (st : DetectState),
  breaking_point (fold_left detect_step (combine (seq k (length msgs)) msgs) st)
  = match breaking_point st with
    | Some b => Some b
    | None => first_index qualifies k (scanned_texts msgs)
    end.
Proof.
  induction msgs as [|msg msgs IH]; intros k st.
  - cbn. destruct (breaking_point st); reflexivity.
  - rewrite enumerate_cons. cbn [fold_left]. rewrite IH.
    rewrite detect_step_breaking_point.
    cbn [scanned_texts List.map first_index].
    destruct (breaking_point st); [reflexivity|].
    destruct (qualifies (lower (message_text msg))); reflexivity.
Qed.

Lemma detect_loop_risk_scores (msgs : list Message) :
  forall (k : nat) (st : DetectState),
  risk_scores (fold_left detect_step (combine (seq k (length msgs)) msgs) st)
  = (risk_scores st
     ++ filter (fun r => negb (r =? 0)%Z) (List.map raw_risk (scanned_texts msgs)))%list.
Proof.
  induction msgs as [|msg msgs IH]; intros k st.
  - cbn. symmetry. apply app_nil_r.
  - rewrite enumerate_cons. cbn [fold_left]. rewrite IH.
    rewrite detect_step_risk_scores.
    cbn [scanned_texts List.map filter].
    destruct (raw_risk (lower (message_text msg)) =? 0)%Z; cbn [negb].
    + rewrite app_nil_r. reflexivity.
    + rewrite <- app_assoc. reflexivity.
Qed.

(** Arithmetic of maxima of non-negative lists. *)
Lemma maximum_nonneg (l : list Z) : (0 <= maximum l)%Z.
Proof. unfold maximum. induction l as [|x l IH]; cbn [fold_right]; lia. Qed.

Lemma maximum_cons (x : Z) (l : list Z) : maximum (x :: l) = Z.max x (maximum l).
Proof. reflexivity. Qed.

Lemma maximum_filter_nonzero (l : list Z) :
  Forall (fun r => 0 <= r)%Z l ->
  maximum (filter (fun r => negb (r =? 0)%Z) l) = maximum l.
Proof.
  induction 1 as [|x l Hx _ IH]; [reflexivity|].
  cbn [filter]. destruct (Z.eqb_spec x 0) as [->|Hn]; cbn [negb];
    rewrite ?maximum_cons, IH; [|reflexivity].
  pose proof (maximum_nonneg l). lia.
Qed.

Lemma max_of_maximum (rest : list Z) :
  forall first : Z, (0 <= first)%Z -> max_of first rest = maximum (first :: rest).
Proof.
  unfold max_of.
  induction rest as [|x rest IH]; intros first Hf.
  - cbn. lia.
  - cbn [fold_left]. rewrite IH by lia. rewrite !maximum_cons. lia.
Qed.

Lemma maximum_capped (l : list Z) :
  Z.min 100 (maximum l) = maximum (List.map (Z.min 100) l).
Proof.
  induction l as [|x l IH]; [reflexivity|].
  cbn [List.map]. rewrite !maximum_cons, <- IH. lia.
Qed.

(** The overall risk that [detect_signals] computes from the loop. *)
Lemma overall_risk_maximum (msgs : list Message) :
  match risk_scores (detect_loop msgs) with
  | [] => 0%Z
  | first :: rest => max_of first rest
  end = maximum (List.map raw_risk (scanned_texts msgs)).
Proof.
  unfold detect_loop, enumerate. rewrite detect_loop_risk_scores.
  cbn [risk_scores app].
  assert (Hall : Forall (fun r => 0 <= r)%Z (List.map raw_risk (scanned_texts msgs))).
  { apply Forall_forall. intros r Hr. apply in_map_iff in Hr.
    destruct Hr as [t [<- _]]. apply raw_risk_nonneg. }
  rewrite <- (maximum_filter_nonzero _ Hall).
  assert (Hf : Forall (fun r => 0 <= r)%Z
                 (filter (fun r => negb (r =? 0)%Z) (List.map raw_risk (scanned_texts msgs)))).
  { apply Forall_forall. intros r Hr. apply filter_In in Hr.
    rewrite Forall_forall in Hall. apply Hall. tauto. }
  destruct (filter (fun r => negb (r =? 0)%Z) (List.map raw_risk (scanned_texts msgs)))
    as [|first rest]; [reflexivity|].
  apply max_of_maximum. inversion Hf; assumption.
Qed.

Lemma total_risk_score_maximum (msgs : list Message) :
  Z.min 100 (maximum (List.map raw_risk (scanned_texts msgs)))
  = maximum (List.map risk_contribution (scanned_texts msgs)).
Proof.
  rewrite maximum_capped, map_map. reflexivity.
Qed.

(** The banding of [_assess_risk_level]. *)
Lemma risk_level_bands (x : Z) :
  (_assess_risk_level x = "CRITICAL" <-> 70 <= x)%Z
  /\ (_assess_risk_level x = "HIGH" <-> 50 <= x < 70)%Z
  /\ (_assess_risk_level x = "MEDIUM" <-> 30 <= x < 50)%Z
  /\ (_assess_risk_level x = "LOW" <-> x < 30)%Z.
Proof.
  unfold _assess_risk_level.
  destruct (Z.geb_spec x 70); [|destruct (Z.geb_spec x 50); [|destruct (Z.geb_spec x 30)]];
    repeat apply conj; intro Hx; try discriminate; try lia; reflexivity.
Qed.

Lemma risk_level_capped (x : Z) :
  _assess_risk_level (Z.min 100 x) = _assess_risk_level x.
Proof.
  unfold _assess_risk_level.
  destruct (Z.geb_spec x 70), (Z.geb_spec (Z.min 100 x) 70); try lia; try reflexivity.
  destruct (Z.geb_spec x 50), (Z.geb_spec (Z.min 100 x) 50); try lia; try reflexivity.
  destruct (Z.geb_spec x 30), (Z.geb_spec (Z.min 100 x) 30); try lia; reflexivity.
Qed.

(** The entries of the result of [detect_signals] on a non-empty list. *)
Lemma detect_signals_total_risk_score (msg : Message) (msgs : list Message)
    (context : string) :
  dict_get "total_risk_score" (detect_signals (msg :: msgs) context)
  = Some (PInt (maximum (List.map risk_contribution (scanned_texts (msg :: msgs))))).
Proof.
  rewrite <- total_risk_score_maximum, <- overall_risk_maximum. reflexivity.
Qed.

Lemma detect_signals_risk_level (msg : Message) (msgs : list Message)
    (context : string) :
  dict_get "risk_level" (detect_signals (msg :: msgs) context)
  = Some (PStr (_assess_risk_level
                  (maximum (List.map risk_contribution (scanned_texts (msg :: msgs)))))).
Proof.
  rewrite <- total_risk_score_maximum, risk_level_capped, <- overall_risk_maximum.
  reflexivity.
Qed.

Lemma detect_signals_breaking_point (messages : list Message) (context : string) :
  dict_get "breaking_point" (detect_signals messages context)
  = Some (match breaking_point (detect_loop messages) with
          | None => PNone
          | Some b => PInt (Z.of_nat b)
          end).
Proof. destruct messages; reflexivity. Qed.

Lemma detect_loop_first_qualifying (messages : list Message) :
  breaking_point (detect_loop messages)
  = first_index qualifies 0 (scanned_texts messages).
Proof.
  unfold detect_loop, enumerate. rewrite detect_loop_breaking_point. reflexivity.
Qed.

(** The first keyword of each list decides its signal as soon as it
    occurs in the text. *)
Lemma cancel_fires_disengagement (t : string) :
  Py.str_in "cancel" t = true -> found (_check_disengagement t) = true.
Proof.
  intro H. unfold _check_disengagement, first_keyword, disengagement_keywords.
  cbn [find]. rewrite H. reflexivity.
Qed.

Lemma competitor_fires_comparison (t : string) :
  Py.str_in "competitor" t = true -> found (_check_comparisons t) = true.
Proof.
  intro H. unfold _check_comparisons, first_keyword, comparison_keywords.
  cbn [find]. rewrite H. reflexivity.
Qed.

(** C2, as the code has it.  On a non-empty message list the total risk
    score of the Signal Detector is the maximum of the per-message risk
    contributions (the weights 25, 30, 35 and 20 of the signal types that
    fire, summed and capped at 100), and the risk level is CRITICAL
    exactly when that maximum is at least 70, HIGH exactly in [50,70),
    MEDIUM exactly in [30,50) and LOW below 30.  A message whose
    lower-cased text contains "cancel" and "competitor" fires
    disengagement and comparison, so its contribution is at least 60; it
    is 35 + 25 = 60 exactly when neither a frustration keyword nor a
    price keyword occurs in the message, and the message alone then
    yields the level HIGH. *)
Theorem overall_risk_is_maximum (messages : list Message) (context : string) :
  messages <> [] ->
  let contributions := List.map risk_contribution (scanned_texts messages) in
  let result := detect_signals messages context in
  dict_get "total_risk_score" result = Some (PInt (maximum contributions))
  /\ (exists level : string,
        dict_get "risk_level" result = Some (PStr level)
        /\ (level = "CRITICAL" <-> 70 <= maximum contributions)%Z
        /\ (level = "HIGH" <-> 50 <= maximum contributions < 70)%Z
        /\ (level = "MEDIUM" <-> 30 <= maximum contributions < 50)%Z
        /\ (level = "LOW" <-> maximum contributions < 30)%Z)
  /\ (forall msg : Message,
        let text := lower (message_text msg) in
        Py.str_in "cancel" text = true ->
        Py.str_in "competitor" text = true ->
        found (_check_disengagement text) = true
        /\ found (_check_comparisons text) = true
        /\ (60 <= risk_contribution text)%Z
        /\ (risk_contribution text = 60%Z
            <-> found (_check_frustration text) = false
                /\ found (_check_price text) = false)
        /\ (found (_check_frustration text) = false ->
            found (_check_price text) = false ->
            risk_contribution text = 60%Z
            /\ dict_get "total_risk_score" (detect_signals [msg] context)
               = Some (PInt 60)
            /\ dict_get "risk_level" (detect_signals [msg] context)
               = Some (PStr "HIGH"))).
Proof.
  intros Hne. cbv zeta. destruct messages as [|m ms]; [congruence|].
  split; [apply detect_signals_total_risk_score|]. split.
  - eexists. split; [apply detect_signals_risk_level|]. apply risk_level_bands.
  - intros msg Hcancel Hcompetitor.
    pose proof (cancel_fires_disengagement _ Hcancel) as Hd.
    pose proof (competitor_fires_comparison _ Hcompetitor) as Hc.
    split; [exact Hd|]. split; [exact Hc|]. split.
    { unfold risk_contribution, raw_risk. rewrite Hd, Hc.
      destruct (found (_check_frustration (lower (message_text msg)))),
        (found (_check_price (lower (message_text msg)))); cbn; lia. }
    split.
    { unfold risk_contribution, raw_risk. rewrite Hd, Hc.
      destruct (found (_check_frustration (lower (message_text msg)))),
        (found (_check_price (lower (message_text msg)))); cbn;
        (split; [intro H; try discriminate H; split; reflexivity
                |intros [Hf Hp]; try discriminate Hf; try discriminate Hp;
                 reflexivity]). }
    intros Hf Hp.
    assert (Hr : risk_contribution (lower (message_text msg)) = 60%Z).
    { unfold risk_contribution, raw_risk. rewrite Hd, Hc, Hf, Hp. reflexivity. }
    split; [exact Hr|].
    rewrite detect_signals_total_risk_score, detect_signals_risk_level.
    cbn [scanned_texts List.map]. rewrite maximum_cons, Hr. split; reflexivity.
Qed.

(** What [first_index] returns: the 1-based position of the first
    element that satisfies the predicate. *)
Lemma first_index_spec (p : string -> bool) (texts : list string) :
  forall (start b : nat),
  first_index p start texts = Some b <->
  (start < b <= start + length texts)%nat
  /\ p (nth (b - start - 1) texts "") = true
  /\ (forall j : nat, (j < b - start - 1)%nat -> p (nth j texts "") = false).
Proof.
  induction texts as [|t texts IH]; intros start b.
  - cbn. split; [discriminate|]. intros [H _]. lia.
  - cbn [first_index length]. destruct (p t) eqn:Ept.
    + split.
      * intro H. injection H as <-. replace (start + 1 - start - 1)%nat with 0%nat by lia.
        split; [lia|]. split; [exact Ept|]. intros j Hj. lia.
      * intros [Hb [Hp Hfirst]].
        destruct (Nat.eq_dec b (start + 1)) as [->|Hneq]; [reflexivity|].
        specialize (Hfirst 0%nat). cbn in Hfirst. rewrite Hfirst in Ept by lia.
        discriminate.
    + rewrite IH. split.
      * intros [Hb [Hp Hfirst]]. split; [lia|].
        replace (b - start - 1)%nat with (S (b - S start - 1)) by lia.
        split; [exact Hp|]. intros [|j] Hj; [exact Ept|]. apply Hfirst. lia.
      * intros [Hb [Hp Hfirst]].
        assert (Hneq : b <> (start + 1)%nat).
        { intros ->. replace (start + 1 - start - 1)%nat with 0%nat in Hp by lia.
          cbn in Hp. congruence. }
        replace (b - start - 1)%nat with (S (b - S start - 1)) in Hp, Hfirst by lia.
        split; [lia|]. split; [exact Hp|]. intros j Hj.
        apply (Hfirst (S j)). lia.
Qed.

Lemma first_index_exists (p : string -> bool) (texts : list string) :
  forall start : nat,
  first_index p start texts <> None <-> exists t, In t texts /\ p t = true.
Proof.
  induction texts as [|t texts IH]; intros start.
  - cbn. split; [congruence|]. intros [t [[] _]].
  - cbn [first_index]. destruct (p t) eqn:Ept.
    + split; [|discriminate]. intros _. exists t. split; [left; reflexivity|exact Ept].
    + rewrite IH. split.
      * intros [t' [Hin Hp]]. exists t'. split; [right; exact Hin|exact Hp].
      * intros [t' [[<-|Hin] Hp]]; [congruence|]. exists t'. split; assumption.
Qed.

Lemma combine_append {A B : Type} (l1 : list A) :
  forall (l2 : list A) (m1 m2 : list B),
  length l1 = length m1 ->
  combine (l1 ++ l2) (m1 ++ m2) = (combine l1 m1 ++ combine l2 m2)%list.
Proof.
  induction l1 as [|x l1 IH]; intros l2 [|y m1] m2 Hlen; try discriminate.
  - reflexivity.
  - cbn. f_equal. apply IH. injection Hlen as Hlen. exact Hlen.
Qed.

Lemma enumerate_app (l more : list Message) :
  enumerate (l ++ more)
  = (enumerate l ++ combine (seq (length l) (length more)) more)%list.
Proof.
  unfold enumerate. rewrite length_app, seq_app.
  rewrite combine_append by apply length_seq. reflexivity.
Qed.

(** C3. The breaking point that the Signal Detector returns is the
    1-based position of the first message that qualifies, a message
    qualifying when it triggers comparison or disengagement at all, or
    frustration with the risk it has accumulated at that check already
    above 30; there is none when no message qualifies.  Once set, the
    breaking point is kept whatever messages follow. *)
Theorem breaking_point_is_first_qualifying (messages : list Message)
    (context : string) :
  let texts := scanned_texts messages in
  dict_get "breaking_point" (detect_signals messages context)
  = Some (match first_index qualifies 0 texts with
          | None => PNone
          | Some b => PInt (Z.of_nat b)
          end)
  /\ (forall b : nat,
        first_index qualifies 0 texts = Some b <->
        (1 <= b <= length messages)%nat
        /\ qualifies (nth (b - 1) texts "") = true
        /\ (forall j : nat, (j < b - 1)%nat -> qualifies (nth j texts "") = false))
  /\ (forall (b : nat) (later : list Message),
        breaking_point (detect_loop messages) = Some b ->
        breaking_point (detect_loop (messages ++ later)) = Some b).
Proof.
  cbv zeta. split; [|split].
  - rewrite detect_signals_breaking_point, detect_loop_first_qualifying. reflexivity.
  - intro b. rewrite first_index_spec.
    unfold scanned_texts. rewrite length_map.
    replace (b - 0 - 1)%nat with (b - 1)%nat by lia.
    split; intros [Hb H]; (split; [lia|exact H]).
  - intros b later Hb. unfold detect_loop in *.
    rewrite enumerate_app, fold_left_app, detect_loop_breaking_point, Hb. reflexivity.
Qed.

(** C9. A breaking point exists exactly when some message triggers a
    comparison or a disengagement signal.  The frustration block never
    sets it: it leaves the breaking point as the comparison block left
    it, because with no comparison signal in the message the risk
    accumulated at that check is exactly 30, which is not above 30, and
    with one the breaking point is already set. *)
Theorem frustration_never_sets_breaking_point (messages : list Message)
    (context : string) :
  ((exists b : Z,
      dict_get "breaking_point" (detect_signals messages context) = Some (PInt b))
   <-> (exists t : string,
          In t (scanned_texts messages)
          /\ (found (_check_comparisons t) = true
              \/ found (_check_disengagement t) = true)))
  /\ (forall (i : nat) (t : string) (bp : option nat) (kp : list string),
        let before := comparison_block i (_check_comparisons t) (mkScan [] 0 bp kp) in
        let after := frustration_block i (_check_frustration t) before in
        scan_breaking_point after = scan_breaking_point before
        /\ (found (_check_frustration t) = true ->
            found (_check_comparisons t) = false ->
            msg_risk after = 30%Z)
        /\ (found (_check_frustration t) = true ->
            found (_check_comparisons t) = true ->
            scan_breaking_point before <> None)).
Proof.
  split.
  - rewrite detect_signals_breaking_point, detect_loop_first_qualifying.
    pose proof (first_index_exists qualifies (scanned_texts messages) 0) as Hex.
    split.
    + intros [b Hb].
      destruct (first_index qualifies 0 (scanned_texts messages)); [|discriminate].
      destruct Hex as [Hex _]. destruct Hex as [t [Hin Hq]]; [discriminate|].
      exists t. split; [exact Hin|].
      rewrite qualifies_comparison_or_disengagement in Hq.
      apply orb_true_iff in Hq. exact Hq.
    + intros [t [Hin Hq]].
      destruct Hex as [_ Hex].
      destruct (first_index qualifies 0 (scanned_texts messages)) as [b|].
      * exists (Z.of_nat b). reflexivity.
      * exfalso. apply Hex; [|reflexivity]. exists t. split; [exact Hin|].
        rewrite qualifies_comparison_or_disengagement. apply orb_true_iff. exact Hq.
  - intros i t bp kp. cbv zeta.
    destruct (_check_comparisons t), (_check_frustration t), bp; cbn;
      repeat apply conj; intros; try discriminate; reflexivity.
Qed.

(** C10. The empty result of the Signal Detector has the six keys
    signals, risk_level, confidence, breaking_point, key_phrases and
    recommendations and no total_risk_score; the result for a non-empty
    message list has these six keys and total_risk_score, whose value
    lies in [0,100]. *)
Theorem empty_assessment_lacks_total_risk_score :
  dict_keys _empty_signals
  = ["signals"; "risk_level"; "confidence"; "breaking_point"; "key_phrases";
     "recommendations"]
  /\ (forall context : string,
        detect_signals [] context = _empty_signals
        /\ dict_get "total_risk_score" (detect_signals [] context) = None)
  /\ (forall (msg : Message) (msgs : list Message) (context : string),
        dict_keys (detect_signals (msg :: msgs) context)
        = ["signals"; "risk_level"; "confidence"; "breaking_point"; "key_phrases";
           "recommendations"; "total_risk_score"]
        /\ exists v : Z,
             dict_get "total_risk_score" (detect_signals (msg :: msgs) context)
             = Some (PInt v)
             /\ (0 <= v <= 100)%Z).
Proof.
  split; [reflexivity|]. split.
  - intro context. split; reflexivity.
  - intros msg msgs context. split; [reflexivity|].
    eexists. split; [apply detect_signals_total_risk_score|].
    rewrite <- total_risk_score_maximum.
    pose proof (maximum_nonneg (List.map raw_risk (scanned_texts (msg :: msgs)))).
    lia.
Qed.

(** ** Trajectory Analyzer *)

Lemma severity_of_tier (m : Q) : SeverityTier m (severity_of m).
Proof.
  unfold severity_of, Py.Qgtb.
  destruct (Py.Qltb 40 m) eqn:E40.
  - apply tier_critical. apply Qltb_lt. exact E40.
  - apply Qltb_ge in E40. destruct (Py.Qltb 30 m) eqn:E30.
    + apply tier_high; [apply Qltb_lt; exact E30 | exact E40].
    + apply tier_medium. apply Qltb_ge. exact E30.
Qed.

(** One iteration of the loop of [_find_turning_points] at a position
    that the timeline has. *)
Lemma turning_point_step_some (sentiments : list Q) (timeline : list ScoredPoint.t)
    (acc : list TurningPoint.t) (i : nat) :
  (i < length timeline)%nat ->
  exists new : list TurningPoint.t,
    turning_point_step sentiments timeline (Some acc) i = Some (acc ++ new)%list
    /\ List.map TurningPoint.index new
       = (if Py.Qgtb (magnitude sentiments i) 20 then [i] else [])
    /\ Forall (records_change sentiments) new.
Proof.
  intro Hi. unfold turning_point_step. fold (magnitude sentiments i).
  destruct (Py.Qgtb (magnitude sentiments i) 20).
  - destruct (nth_error timeline i) as [point|] eqn:E.
    + eexists. split; [reflexivity|]. split; [reflexivity|].
      constructor; [|constructor].
      unfold records_change. cbn [TurningPoint.index TurningPoint.from_state
        TurningPoint.to_state TurningPoint.change_magnitude TurningPoint.severity].
      repeat split. apply severity_of_tier.
    + apply nth_error_None in E. lia.
  - exists []. rewrite app_nil_r. repeat split. constructor.
Qed.

Lemma turning_points_fold (sentiments : list Q) (timeline : list ScoredPoint.t)
    (positions : list nat) :
  forall acc : list TurningPoint.t,
  (forall i, In i positions -> (i < length timeline)%nat) ->
  exists new : list TurningPoint.t,
    fold_left (turning_point_step sentiments timeline) positions (Some acc)
    = Some (acc ++ new)%list
    /\ List.map TurningPoint.index new
       = filter (fun i => Py.Qgtb (magnitude sentiments i) 20) positions
    /\ Forall (records_change sentiments) new.
Proof.
  induction positions as [|i positions IH]; intros acc Hin.
  - exists []. rewrite app_nil_r. repeat split. constructor.
  - cbn [fold_left filter].
    destruct (turning_point_step_some sentiments timeline acc i) as [new1 [E1 [M1 F1]]].
    { apply Hin. left. reflexivity. }
    rewrite E1.
    destruct (IH (acc ++ new1)%list) as [new2 [E2 [M2 F2]]].
    { intros j Hj. apply Hin. right. exact Hj. }
    exists (new1 ++ new2)%list. rewrite E2, app_assoc. split; [reflexivity|].
    split.
    + rewrite map_app, M1, M2.
      destruct (Py.Qgtb (magnitude sentiments i) 20); reflexivity.
    + apply Forall_app. split; assumption.
Qed.

Lemma find_turning_points_some (sentiments : list Q) (timeline : list ScoredPoint.t) :
  length timeline = length sentiments ->
  exists turning_points : list TurningPoint.t,
    _find_turning_points sentiments timeline = Some turning_points
    /\ List.map TurningPoint.index turning_points
       = filter (fun i => Py.Qgtb (magnitude sentiments i) 20)
                (seq 1 (length sentiments - 1))
    /\ Forall (records_change sentiments) turning_points.
Proof.
  intro Hlen. unfold _find_turning_points.
  destruct (turning_points_fold sentiments timeline (seq 1 (length sentiments - 1)) [])
    as [new [E [M F]]].
  - intros i Hi. apply in_seq in Hi. lia.
  - exists new. split; [exact E|]. split; assumption.
Qed.

(** C5. For a score sequence and a timeline of the same length the
    Trajectory Analyzer emits a turning point at position i, between the
    points i-1 and i, exactly when |score[i] - score[i-1]| is strictly
    above 20, and at most one per position; each turning point records
    the state bands of both scores, the magnitude (rounded to two
    decimals) and the severity CRITICAL above 40, HIGH above 30 and up to
    40, MEDIUM otherwise. *)
Theorem turning_points_above_twenty (sentiments : list Q)
    (timeline : list ScoredPoint.t) :
  length timeline = length sentiments ->
  exists turning_points : list TurningPoint.t,
    _find_turning_points sentiments timeline = Some turning_points
    /\ (forall i : nat,
          In i (List.map TurningPoint.index turning_points)
          <-> (1 <= i < length sentiments)%nat
              /\ 20 < Qabs (nth i sentiments 0 - nth (i - 1) sentiments 0))
    /\ NoDup (List.map TurningPoint.index turning_points)
    /\ (forall tp : TurningPoint.t,
          In tp turning_points ->
          let i := TurningPoint.index tp in
          let change := Qabs (nth i sentiments 0 - nth (i - 1) sentiments 0) in
          TurningPoint.from_state tp = _sentiment_state (nth (i - 1) sentiments 0)
          /\ TurningPoint.to_state tp = _sentiment_state (nth i sentiments 0)
          /\ TurningPoint.change_magnitude tp = Py.round change 2
          /\ SeverityTier change (TurningPoint.severity tp)).
Proof.
  intro Hlen.
  destruct (find_turning_points_some sentiments timeline Hlen) as [tps [E [M F]]].
  exists tps. split; [exact E|]. split; [|split].
  - intro i. rewrite M, filter_In, in_seq.
    unfold Py.Qgtb. rewrite Qltb_lt. unfold magnitude.
    split; intros [H1 H2]; (split; [lia|exact H2]).
  - rewrite M. apply NoDup_filter. apply seq_NoDup.
  - intros tp Hin. rewrite Forall_forall in F. exact (F tp Hin).
Qed.

(** The loop of [analyze_evolution], started at position [k]. *)
Lemma evolution_loop_sentiments (msgs : list Message) :
  forall (k : nat) (st : EvolutionState),
  ev_sentiments (fold_left evolution_step (combine (seq k (length msgs)) msgs) st)
  = (ev_sentiments st ++ scores msgs)%list.
Proof.
  induction msgs as [|msg msgs IH]; intros k st.
  - cbn. symmetry. apply app_nil_r.
  - rewrite enumerate_cons. cbn [fold_left]. rewrite IH.
    unfold evolution_step at 1. cbn [ev_sentiments].
    rewrite <- app_assoc. reflexivity.
Qed.

Lemma evolution_loop_timeline_scores (msgs : list Message) :
  forall (k : nat) (st : EvolutionState),
  List.map ScoredPoint.sentiment_score
    (ev_timeline (fold_left evolution_step (combine (seq k (length msgs)) msgs) st))
  = (List.map ScoredPoint.sentiment_score (ev_timeline st)
     ++ List.map (fun score => Py.round score 2) (scores msgs))%list.
Proof.
  induction msgs as [|msg msgs IH]; intros k st.
  - cbn. symmetry. apply app_nil_r.
  - rewrite enumerate_cons. cbn [fold_left]. rewrite IH.
    unfold evolution_step at 1. cbn [ev_timeline].
    rewrite map_app, <- app_assoc. reflexivity.
Qed.

Lemma evolution_loop_scores (messages : list Message) :
  ev_sentiments (evolution_loop messages) = scores messages
  /\ List.map ScoredPoint.sentiment_score (ev_timeline (evolution_loop messages))
     = List.map (fun score => Py.round score 2) (scores messages).
Proof.
  unfold evolution_loop, enumerate.
  rewrite evolution_loop_sentiments, evolution_loop_timeline_scores. split; reflexivity.
Qed.

Lemma evolution_loop_lengths (messages : list Message) :
  length (ev_timeline (evolution_loop messages))
  = length (ev_sentiments (evolution_loop messages)).
Proof.
  destruct (evolution_loop_scores messages) as [Hs Ht].
  rewrite Hs. rewrite <- (length_map ScoredPoint.sentiment_score), Ht.
  apply length_map.
Qed.

Lemma last_map {A B : Type} (f : A -> B) (l : list A) (d : A) :
  last (List.map f l) (f d) = f (last l d).
Proof.
  induction l as [|x [|y l] IH]; try reflexivity.
  exact IH.
Qed.

Lemma last_rounded (l : list Q) (q : Q) :
  l <> [] ->
  last (List.map (fun score => Py.round score 2) l) q = Py.round (last l 0) 2.
Proof.
  induction l as [|x [|y l] IH]; intro H; [congruence|reflexivity|].
  apply IH. discriminate.
Qed.

(** [analyze_evolution] on a non-empty list, field by field. *)
Lemma analyze_evolution_nonempty (msg : Message) (msgs : list Message) :
  exists traj : Trajectory.t,
    analyze_evolution (msg :: msgs) = Some traj
    /\ Trajectory.timeline traj = ev_timeline (evolution_loop (msg :: msgs))
    /\ Trajectory.current_sentiment traj
       = Py.round (last (scores (msg :: msgs)) 0) 2
    /\ Trajectory.trend traj = _calculate_trend (scores (msg :: msgs)).
Proof.
  unfold analyze_evolution.
  destruct (find_turning_points_some _ _ (evolution_loop_lengths (msg :: msgs)))
    as [tps [E _]].
  rewrite E. eexists. split; [reflexivity|].
  cbn [Trajectory.timeline Trajectory.current_sentiment Trajectory.trend].
  destruct (evolution_loop_scores (msg :: msgs)) as [Hs _].
  rewrite Hs. split; [reflexivity|]. split; reflexivity.
Qed.

Lemma predict_action_nonempty (msg : Message) (msgs : list Message)
    (context : string) (p : Prediction.t) :
  predict_action (msg :: msgs) context = Some p ->
  exists (traj : Trajectory.t) (text : string),
    analyze_evolution (msg :: msgs) = Some traj
    /\ final_text (msg :: msgs) = Some text
    /\ Prediction.action p
       = _predict_primary_action (Trajectory.current_sentiment traj)
           (Trajectory.trend traj) (_score_churn_risk text)
           (_score_resolution_likelihood text) context
    /\ option_map TrajectorySummary.trend (Prediction.sentiment_trajectory p)
       = Some (Trajectory.trend traj)
    /\ option_map TrajectorySummary.current (Prediction.sentiment_trajectory p)
       = Some (Trajectory.current_sentiment traj).
Proof.
  unfold predict_action.
  destruct (analyze_evolution (msg :: msgs)) as [traj|]; [|discriminate].
  destruct (final_text (msg :: msgs)) as [text|]; [|discriminate].
  intro H. injection H as <-. exists traj, text. repeat split.
Qed.

Lemma predict_action_returns (msg : Message) (msgs : list Message) (context : string) :
  join_items (final_messages (msg :: msgs)) <> None ->
  exists p : Prediction.t, predict_action (msg :: msgs) context = Some p.
Proof.
  intro Hjoin. unfold predict_action.
  destruct (analyze_evolution_nonempty msg msgs) as [traj [E _]]. rewrite E.
  unfold final_text.
  destruct (join_items (final_messages (msg :: msgs))); [|congruence].
  cbn [option_map]. eexists. reflexivity.
Qed.

(** C6. On a non-empty message list [analyze_evolution] returns a
    trajectory whose timeline is not empty and whose current sentiment
    is the score of the last timeline entry; its trend is
    [_calculate_trend] of the score sequence, so two message lists with
    the same score sequence have the same trend, and the prediction built
    from the trajectory carries that trend unchanged. *)
Theorem current_sentiment_is_last_score (messages : list Message) :
  messages <> [] ->
  exists traj : Trajectory.t,
    analyze_evolution messages = Some traj
    /\ Trajectory.timeline traj <> []
    /\ (forall d : ScoredPoint.t,
          ScoredPoint.sentiment_score (last (Trajectory.timeline traj) d)
          = Trajectory.current_sentiment traj)
    /\ Trajectory.trend traj = _calculate_trend (scores messages)
    /\ (forall (others : list Message) (traj' : Trajectory.t),
          analyze_evolution others = Some traj' ->
          scores others = scores messages ->
          Trajectory.trend traj' = Trajectory.trend traj)
    /\ (forall (context : string) (p : Prediction.t),
          predict_action messages context = Some p ->
          option_map TrajectorySummary.trend (Prediction.sentiment_trajectory p)
          = Some (Trajectory.trend traj)).
Proof.
  intro Hne. destruct messages as [|msg msgs]; [congruence|].
  destruct (analyze_evolution_nonempty msg msgs) as [traj [E [Htl [Hcur Htrend]]]].
  exists traj. split; [exact E|].
  destruct (evolution_loop_scores (msg :: msgs)) as [_ Hmap].
  rewrite <- Htl in Hmap.
  assert (Hnonempty : Trajectory.timeline traj <> []).
  { intro Hnil. rewrite Hnil in Hmap. discriminate Hmap. }
  split; [exact Hnonempty|]. split; [|split; [exact Htrend|split]].
  - intro d. rewrite <- last_map, Hmap, Hcur.
    apply last_rounded. unfold scores. cbn [List.map]. discriminate.
  - intros others traj' E' Hscores.
    destruct others as [|msg' others]; [discriminate Hscores|].
    destruct (analyze_evolution_nonempty msg' others) as [traj2 [E2 [_ [_ Htrend2]]]].
    rewrite E2 in E'. injection E' as <-. rewrite Htrend2, Htrend, Hscores. reflexivity.
  - intros context p Hp.
    destruct (predict_action_nonempty msg msgs context p Hp) as [traj2 [text [E2 [_ [_ [H _]]]]]].
    rewrite E in E2. injection E2 as <-. exact H.
Qed.

(** C7. On the empty message list the three operations return their
    empty results: a trajectory with an empty timeline, zero scores and
    the trend unknown; a risk assessment with level UNKNOWN, confidence 0
    and no breaking point; a prediction with action UNKNOWN.  Each is a
    value, none an exception. *)
Theorem empty_input_canonical_results (context : string) :
  (exists traj : Trajectory.t,
      analyze_evolution [] = Some traj
      /\ traj = _empty_analysis
      /\ Trajectory.timeline traj = []
      /\ Trajectory.turning_points traj = []
      /\ Trajectory.current_sentiment traj = 0
      /\ Trajectory.initial_sentiment traj = 0
      /\ Trajectory.overall_change traj = 0
      /\ Trajectory.trend traj = "unknown"
      /\ Trajectory.message_count traj = 0%nat)
  /\ (detect_signals [] context = _empty_signals
      /\ dict_get "signals" (detect_signals [] context) = Some (PList [])
      /\ dict_get "risk_level" (detect_signals [] context) = Some (PStr "UNKNOWN")
      /\ dict_get "confidence" (detect_signals [] context) = Some (PInt 0)
      /\ dict_get "breaking_point" (detect_signals [] context) = Some PNone)
  /\ (exists p : Prediction.t,
        predict_action [] context = Some p
        /\ p = _empty_prediction
        /\ Prediction.action p = "UNKNOWN"
        /\ Prediction.confidence p = 0
        /\ Prediction.urgency p = "UNKNOWN"
        /\ Prediction.interventions p = []).
Proof.
  split; [|split].
  - exists _empty_analysis. repeat split.
  - repeat split.
  - exists _empty_prediction. repeat split.
Qed.

(** ** Action Predictor *)

Lemma predict_primary_action_rule (cs : Q) (trend : string) (churn res : Z)
    (context : string) :
  ActionRule cs trend churn res (_predict_primary_action cs trend churn res context).
Proof.
  unfold _predict_primary_action, Py.Qgtb.
  assert (R1 : (churn >? 50)%Z && Py.Qltb cs 40 = true <-> (churn > 50)%Z /\ cs < 40).
  { rewrite andb_true_iff, Z.gtb_lt, Qltb_lt. split; intros [A B]; (split; [lia|exact B]). }
  assert (R2 : (res >? 50)%Z && String.eqb trend "IMPROVING" = true
               <-> (res > 50)%Z /\ trend = "IMPROVING").
  { rewrite andb_true_iff, Z.gtb_lt, String.eqb_eq.
    split; intros [A B]; (split; [lia|exact B]). }
  assert (R3 : Py.Qltb 50 cs && negb (String.eqb trend "DECLINING") = true
               <-> 50 < cs /\ trend <> "DECLINING").
  { rewrite andb_true_iff, Qltb_lt, negb_true_iff, String.eqb_neq. reflexivity. }
  assert (R4 : Py.Qltb cs 30 && String.eqb trend "DECLINING" = true
               <-> cs < 30 /\ trend = "DECLINING").
  { rewrite andb_true_iff, Qltb_lt, String.eqb_eq. reflexivity. }
  destruct ((churn >? 50)%Z && Py.Qltb cs 40).
  { destruct R1 as [R1 _]. destruct (R1 eq_refl). apply rule_churn; assumption. }
  assert (H1 : ~ ((churn > 50)%Z /\ cs < 40)).
  { intro H. apply R1 in H. discriminate H. }
  destruct ((res >? 50)%Z && String.eqb trend "IMPROVING").
  { destruct R2 as [R2 _]. destruct (R2 eq_refl). apply rule_resolution; assumption. }
  assert (H2 : ~ ((res > 50)%Z /\ trend = "IMPROVING")).
  { intro H. apply R2 in H. discriminate H. }
  destruct (Py.Qltb 50 cs && negb (String.eqb trend "DECLINING")).
  { destruct R3 as [R3 _]. destruct (R3 eq_refl). apply rule_stay; assumption. }
  assert (H3 : ~ (50 < cs /\ trend <> "DECLINING")).
  { intro H. apply R3 in H. discriminate H. }
  destruct (Py.Qltb cs 30 && String.eqb trend "DECLINING").
  { destruct R4 as [R4 _]. destruct (R4 eq_refl). apply rule_escalation; assumption. }
  apply rule_monitor; try assumption.
  intro H. apply R4 in H. discriminate H.
Qed.

Lemma action_rule_functional (cs : Q) (trend : string) (churn res : Z) (a a' : string) :
  ActionRule cs trend churn res a -> ActionRule cs trend churn res a' -> a = a'.
Proof.
  intros H H'.
  inversion H; subst; inversion H'; subst; try reflexivity; exfalso; tauto.
Qed.

(** C4. On a non-empty message list the action of every prediction
    that [predict_action] returns is the one that the five rules give,
    taken in order with the first match winning, on the current
    sentiment and the trend of the trajectory and on the churn and
    resolution scores of the final text; the rules leave exactly one
    action, the one [_predict_primary_action] computes; and a prediction
    is returned whenever the last three messages are strings or dicts. *)
Theorem primary_action_first_match (messages : list Message) (context : string) :
  messages <> [] ->
  (forall p : Prediction.t,
     predict_action messages context = Some p ->
     exists (traj : Trajectory.t) (text : string),
       analyze_evolution messages = Some traj
       /\ final_text messages = Some text
       /\ ActionRule (Trajectory.current_sentiment traj) (Trajectory.trend traj)
            (_score_churn_risk text) (_score_resolution_likelihood text)
            (Prediction.action p))
  /\ (join_items (final_messages messages) <> None ->
      exists p : Prediction.t, predict_action messages context = Some p)
  /\ (forall (cs : Q) (trend : string) (churn res : Z) (a : string),
        ActionRule cs trend churn res a
        <-> a = _predict_primary_action cs trend churn res context).
Proof.
  intro Hne. destruct messages as [|msg msgs]; [congruence|].
  split; [|split].
  - intros p Hp.
    destruct (predict_action_nonempty msg msgs context p Hp)
      as [traj [text [E [Et [Ha _]]]]].
    exists traj, text. split; [exact E|]. split; [exact Et|].
    rewrite Ha. apply predict_primary_action_rule.
  - apply predict_action_returns.
  - intros cs trend churn res a. split.
    + intro H. apply (action_rule_functional cs trend churn res); [exact H|].
      apply predict_primary_action_rule.
    + intros ->. apply predict_primary_action_rule.
Qed.

(** * Further properties of the code *)

(** ** Sentiment states and trend *)

(** X1. The five sentiment states are the bands [80,oo), [60,80),
    [40,60), [20,40) and (-oo,20) of the score. *)
Theorem sentiment_state_bands (score : Q) :
  (_sentiment_state score = "EXTREMELY_POSITIVE" <-> 80 <= score)
  /\ (_sentiment_state score = "POSITIVE" <-> 60 <= score /\ score < 80)
  /\ (_sentiment_state score = "NEUTRAL" <-> 40 <= score /\ score < 60)
  /\ (_sentiment_state score = "NEGATIVE" <-> 20 <= score /\ score < 40)
  /\ (_sentiment_state score = "EXTREMELY_NEGATIVE" <-> score < 20).
Proof.
  unfold _sentiment_state.
  destruct (Py.Qgeb score 80) eqn:E80;
    [apply Qgeb_ge in E80 | apply Qgeb_lt in E80;
     destruct (Py.Qgeb score 60) eqn:E60;
       [apply Qgeb_ge in E60 | apply Qgeb_lt in E60;
        destruct (Py.Qgeb score 40) eqn:E40;
          [apply Qgeb_ge in E40 | apply Qgeb_lt in E40;
           destruct (Py.Qgeb score 20) eqn:E20;
             [apply Qgeb_ge in E20 | apply Qgeb_lt in E20]]]];
    repeat apply conj; intro Hx;
    first [ discriminate Hx
          | reflexivity
          | assumption
          | split; assumption
          | exfalso; lra
          | exfalso; destruct Hx; lra ].
Qed.

(** ** Rounding *)

Lemma round_half_even_ge (n : Z) (y : Q) :
  inject_Z n <= y -> (n <= Py.round_half_even y)%Z.
Proof.
  intro H. apply Qfloor_resp_le in H. rewrite Qfloor_Z in H.
  unfold Py.round_half_even.
  destruct (Py.Qltb (y - inject_Z (Qfloor y)) (1 # 2)); [exact H|].
  destruct (Py.Qltb (1 # 2) (y - inject_Z (Qfloor y))); [lia|].
  destruct (Z.even (Qfloor y)); lia.
Qed.

Lemma round_half_even_le (n : Z) (y : Q) :
  y <= inject_Z n -> (Py.round_half_even y <= n)%Z.
Proof.
  intro H. pose proof (Qfloor_resp_le _ _ H) as Hf. rewrite Qfloor_Z in Hf.
  pose proof (Qfloor_le y) as Hfy.
  assert (Hup : ~ y - inject_Z (Qfloor y) < 1 # 2 -> (Qfloor y + 1 <= n)%Z).
  { intro Hr. apply Z.lt_succ_r. unfold Z.succ. apply Z.add_lt_mono_r.
    rewrite Zlt_Qlt. lra. }
  unfold Py.round_half_even.
  destruct (Py.Qltb (y - inject_Z (Qfloor y)) (1 # 2)) eqn:E; [exact Hf|].
  apply Qltb_ge in E.
  assert (Hn : (Qfloor y + 1 <= n)%Z) by (apply Hup; lra).
  destruct (Py.Qltb (1 # 2) (y - inject_Z (Qfloor y))); [exact Hn|].
  destruct (Z.even (Qfloor y)); lia.
Qed.

(** Rounding to two decimals keeps a value between two integers. *)
Lemma round2_bounds (a b : Z) (x : Q) :
  inject_Z a <= x -> x <= inject_Z b ->
  inject_Z a <= Py.round x 2 /\ Py.round x 2 <= inject_Z b.
Proof.
  intros Ha Hb. unfold Py.round.
  change (10 ^ Z.of_nat 2)%Z with 100%Z. change (inject_Z 100) with 100.
  assert (H1 : (a * 100 <= Py.round_half_even (x * 100))%Z).
  { apply round_half_even_ge. rewrite inject_Z_mult. change (inject_Z 100) with 100. lra. }
  assert (H2 : (Py.round_half_even (x * 100) <= b * 100)%Z).
  { apply round_half_even_le. rewrite inject_Z_mult. change (inject_Z 100) with 100. lra. }
  rewrite Zle_Qle, inject_Z_mult in H1, H2. change (inject_Z 100) with 100 in H1, H2.
  split.
  - apply Qle_shift_div_l; [reflexivity|exact H1].
  - apply Qle_shift_div_r; [reflexivity|exact H2].
Qed.

(** Rounding moves a value by at most one half of the last place. *)
Lemma round_half_even_near (y : Q) :
  y - (1 # 2) <= inject_Z (Py.round_half_even y)
  /\ inject_Z (Py.round_half_even y) <= y + (1 # 2).
Proof.
  pose proof (Qfloor_le y) as Hlo. pose proof (Qlt_floor y) as Hhi.
  rewrite inject_Z_plus in Hhi. change (inject_Z 1) with 1 in Hhi.
  unfold Py.round_half_even.
  destruct (Py.Qltb (y - inject_Z (Qfloor y)) (1 # 2)) eqn:E1.
  - apply Qltb_lt in E1. split; lra.
  - apply Qltb_ge in E1.
    destruct (Py.Qltb (1 # 2) (y - inject_Z (Qfloor y))) eqn:E2.
    + rewrite inject_Z_plus. change (inject_Z 1) with 1. split; lra.
    + apply Qltb_ge in E2. destruct (Z.even (Qfloor y)).
      * split; lra.
      * rewrite inject_Z_plus. change (inject_Z 1) with 1. split; lra.
Qed.

Lemma round2_near (x : Q) :
  Py.round x 2 - x < 1 # 100 /\ x - Py.round x 2 < 1 # 100.
Proof.
  unfold Py.round. change (10 ^ Z.of_nat 2)%Z with 100%Z.
  change (inject_Z 100) with 100.
  destruct (round_half_even_near (x * 100)) as [H1 H2].
  generalize dependent (inject_Z (Py.round_half_even (x * 100))). intros r H1 H2.
  assert (E : r / 100 == r * (1 # 100)) by (field; discriminate).
  rewrite E. split; lra.
Qed.

(** ** The trajectory as a whole *)

Lemma evolution_loop_timeline (msgs : list Message) :
  forall (k : nat) (st : EvolutionState),
  ev_timeline (fold_left evolution_step (combine (seq k (length msgs)) msgs) st)
  = (ev_timeline st
     ++ List.map (fun im => scored_point (fst im) (snd im))
          (combine (seq k (length msgs)) msgs))%list.
Proof.
  induction msgs as [|msg msgs IH]; intros k st.
  - cbn. symmetry. apply app_nil_r.
  - rewrite enumerate_cons. cbn [fold_left List.map]. rewrite IH.
    unfold evolution_step at 1. cbn [ev_timeline fst snd].
    rewrite <- app_assoc. reflexivity.
Qed.

Lemma nth_error_enumerate (msgs : list Message) :
  forall (start k : nat) (msg : Message),
  nth_error msgs k = Some msg ->
  nth_error (combine (seq start (length msgs)) msgs) k = Some ((start + k)%nat, msg).
Proof.
  induction msgs as [|m msgs IH]; intros start [|k] msg H; try discriminate.
  - cbn in H. injection H as <-. cbn. rewrite Nat.add_0_r. reflexivity.
  - cbn [length seq combine nth_error]. cbn [nth_error] in H.
    rewrite (IH (S start) k msg H). f_equal. f_equal. lia.
Qed.

(** The whole result of [analyze_evolution] on a non-empty list. *)
Lemma analyze_evolution_result (msg : Message) (msgs : list Message) :
  let messages := msg :: msgs in
  exists turning_points : list TurningPoint.t,
    _find_turning_points (scores messages)
      (List.map (fun im => scored_point (fst im) (snd im)) (enumerate messages))
    = Some turning_points
    /\ analyze_evolution messages
       = Some (Trajectory.mk
                 (List.map (fun im => scored_point (fst im) (snd im)) (enumerate messages))
                 (Py.round (last (scores messages) 0) 2)
                 (Py.round (_calculate_sentiment (Some (message_text msg))) 2)
                 (_calculate_trend (scores messages))
                 turning_points
                 (Py.round (last (scores messages) 0
                            - _calculate_sentiment (Some (message_text msg))) 2)
                 (_generate_interpretation (scores messages)
                    (_calculate_trend (scores messages)) turning_points)
                 (length messages)).
Proof.
  cbv zeta. unfold analyze_evolution.
  destruct (evolution_loop_scores (msg :: msgs)) as [Hs _].
  assert (Ht : ev_timeline (evolution_loop (msg :: msgs))
               = List.map (fun im => scored_point (fst im) (snd im))
                   (enumerate (msg :: msgs))).
  { unfold evolution_loop, enumerate. rewrite evolution_loop_timeline. reflexivity. }
  pose proof (evolution_loop_lengths (msg :: msgs)) as Hlen.
  rewrite Hs, Ht in *.
  destruct (find_turning_points_some _ _ Hlen) as [tps [E _]].
  exists tps. split; [exact E|]. rewrite E. reflexivity.
Qed.

Lemma timeline_entries (messages : list Message) :
  exists traj : Trajectory.t,
    analyze_evolution messages = Some traj
    /\ length (Trajectory.timeline traj) = length messages
    /\ Trajectory.message_count traj = length messages
    /\ (forall (k : nat) (msg : Message),
          nth_error messages k = Some msg ->
          nth_error (Trajectory.timeline traj) k = Some (scored_point k msg)).
Proof.
  destruct messages as [|m ms].
  - exists _empty_analysis. split; [reflexivity|]. split; [reflexivity|].
    split; [reflexivity|]. intros [|k] msg H; discriminate H.
  - destruct (analyze_evolution_result m ms) as [tps [_ E]]. cbv zeta in E.
    eexists. split; [exact E|]. cbn [Trajectory.timeline Trajectory.message_count].
    split; [|split; [reflexivity|]].
    + rewrite length_map. unfold enumerate. rewrite length_combine, length_seq. lia.
    + intros k msg Hk. rewrite nth_error_map. unfold enumerate.
      rewrite (nth_error_enumerate (m :: ms) 0 k msg Hk). reflexivity.
Qed.

Lemma firstn_length_app {A : Type} (l more : list A) :
  firstn (length l) (l ++ more) = l.
Proof. induction l as [|x l IH]; [reflexivity|]. cbn. rewrite IH. reflexivity. Qed.

(** The timeline of a returned trajectory, entry by entry. *)
Lemma timeline_of_result (messages : list Message) (traj : Trajectory.t) :
  analyze_evolution messages = Some traj ->
  Trajectory.timeline traj
  = List.map (fun im => scored_point (fst im) (snd im)) (enumerate messages)
  /\ Trajectory.message_count traj = length messages.
Proof.
  intro H.
  assert (Heq : exists traj0 : Trajectory.t,
            Some traj = Some traj0
            /\ Trajectory.timeline traj0
               = List.map (fun im => scored_point (fst im) (snd im)) (enumerate messages)
            /\ Trajectory.message_count traj0 = length messages).
  { destruct messages as [|m ms].
    - exists _empty_analysis. split; [rewrite <- H; reflexivity|].
      split; reflexivity.
    - destruct (analyze_evolution_result m ms) as [tps [_ E]]. cbv zeta in E.
      eexists. split; [rewrite <- H; exact E|].
      cbn [Trajectory.timeline Trajectory.message_count]. split; reflexivity. }
  destruct Heq as [traj0 [Heq [Ht Hc]]].
  assert (Hsame : traj = traj0).
  { exact (f_equal (fun o => match o with Some t => t | None => traj end) Heq). }
  rewrite Hsame. split; [exact Ht|exact Hc].
Qed.

(** X3. The timeline of a trajectory that [analyze_evolution] returns
    has one entry per message, in the order of the messages: entry k
    (from 0) carries the index k+1, the timestamp of message k (or
    "Message k+1"), the band of the score of its text and a score within
    0.01 of that score; message_count is the number of messages.  The
    entries do not depend on what follows: the timeline of a longer
    conversation starts with the timeline of the shorter one. *)
Theorem timeline_follows_messages (messages : list Message) (traj : Trajectory.t) :
  analyze_evolution messages = Some traj ->
  length (Trajectory.timeline traj) = length messages
  /\ Trajectory.message_count traj = length messages
  /\ (forall (k : nat) (msg : Message),
        nth_error messages k = Some msg ->
        exists point : ScoredPoint.t,
          nth_error (Trajectory.timeline traj) k = Some point
          /\ ScoredPoint.message_index point = (k + 1)%nat
          /\ ScoredPoint.timestamp point = message_timestamp k msg
          /\ ScoredPoint.sentiment_state point
             = _sentiment_state (_calculate_sentiment (Some (message_text msg)))
          /\ ScoredPoint.sentiment_score point
             - _calculate_sentiment (Some (message_text msg)) < 1 # 100
          /\ _calculate_sentiment (Some (message_text msg))
             - ScoredPoint.sentiment_score point < 1 # 100)
  /\ (forall (later : list Message) (traj' : Trajectory.t),
        analyze_evolution (messages ++ later) = Some traj' ->
        firstn (length messages) (Trajectory.timeline traj') = Trajectory.timeline traj).
Proof.
  intro Htraj.
  destruct (timeline_of_result messages traj Htraj) as [Ht Hc].
  assert (Hl : length messages
               = length (List.map (fun im => scored_point (fst im) (snd im))
                           (enumerate messages))).
  { rewrite length_map. unfold enumerate. rewrite length_combine, length_seq. lia. }
  split; [rewrite Ht; symmetry; exact Hl|]. split; [exact Hc|]. split.
  - intros k msg Hk. exists (scored_point k msg). split.
    { rewrite Ht, nth_error_map. unfold enumerate.
      rewrite (nth_error_enumerate messages 0 k msg Hk). reflexivity. }
    do 3 (split; [reflexivity|]).
    unfold scored_point. cbn [ScoredPoint.sentiment_score].
    apply round2_near.
  - intros later traj' E'.
    destruct (timeline_of_result _ _ E') as [Ht' _].
    rewrite Ht', Ht, enumerate_app, map_app.
    rewrite Hl at 1. apply firstn_length_app.
Qed.

Lemma score_in_range_Z (text : option string) :
  inject_Z 0 <= _calculate_sentiment text /\ _calculate_sentiment text <= inject_Z 100.
Proof. exact (score_bounds text). Qed.

Lemma last_in_range (l : list Q) (x : Q) :
  Forall (fun s => 0 <= s /\ s <= 100) (x :: l) ->
  0 <= last (x :: l) 0 /\ last (x :: l) 0 <= 100.
Proof.
  revert x. induction l as [|y l IH]; intros x H.
  - inversion H; assumption.
  - inversion H. apply (IH y). assumption.
Qed.

Lemma scores_in_range (messages : list Message) :
  Forall (fun s => 0 <= s /\ s <= 100) (scores messages).
Proof.
  apply Forall_forall. intros s Hs. unfold scores in Hs.
  apply in_map_iff in Hs. destruct Hs as [m [<- _]]. apply score_bounds.
Qed.

(** X4. Every number of a trajectory is within its range: the scores of
    the timeline, the current and the initial sentiment lie in [0,100],
    the overall change in [-100,100]. *)
Theorem trajectory_numbers_in_range (messages : list Message) :
  exists traj : Trajectory.t,
    analyze_evolution messages = Some traj
    /\ Forall (fun point => 0 <= ScoredPoint.sentiment_score point
                            /\ ScoredPoint.sentiment_score point <= 100)
         (Trajectory.timeline traj)
    /\ (0 <= Trajectory.current_sentiment traj
        /\ Trajectory.current_sentiment traj <= 100)
    /\ (0 <= Trajectory.initial_sentiment traj
        /\ Trajectory.initial_sentiment traj <= 100)
    /\ (- (100) <= Trajectory.overall_change traj
        /\ Trajectory.overall_change traj <= 100).
Proof.
  destruct messages as [|m ms].
  - exists _empty_analysis. split; [reflexivity|]. cbn.
    split; [constructor|]. repeat split; discriminate.
  - destruct (analyze_evolution_result m ms) as [tps [_ E]]. cbv zeta in E.
    eexists. split; [exact E|].
    cbn [Trajectory.timeline Trajectory.current_sentiment
         Trajectory.initial_sentiment Trajectory.overall_change].
    pose proof (score_bounds (Some (message_text m))) as Hfirst.
    assert (Hlast : 0 <= last (scores (m :: ms)) 0 /\ last (scores (m :: ms)) 0 <= 100).
    { apply (last_in_range (scores ms) (_calculate_sentiment (Some (message_text m)))).
      exact (scores_in_range (m :: ms)). }
    split; [|split; [|split]].
    + apply Forall_forall. intros p Hp. apply in_map_iff in Hp.
      destruct Hp as [[i msg] [<- _]]. cbn [fst snd].
      unfold scored_point. cbn [ScoredPoint.sentiment_score].
      apply (round2_bounds 0 100); apply score_in_range_Z.
    + apply (round2_bounds 0 100); apply Hlast.
    + apply (round2_bounds 0 100); apply Hfirst.
    + revert Hfirst Hlast.
      generalize (last (scores (m :: ms)) 0) (_calculate_sentiment (Some (message_text m))).
      intros l f Hf Hl. apply (round2_bounds (-100) 100).
      * change (inject_Z (-100)) with (- (100)). lra.
      * change (inject_Z 100) with 100. lra.
Qed.

Lemma turning_point_step_none (sentiments : list Q) (timeline : list ScoredPoint.t)
    (positions : list nat) :
  fold_left (turning_point_step sentiments timeline) positions None = None.
Proof. induction positions as [|i positions IH]; [reflexivity|exact IH]. Qed.

(** Every turning point is taken at a position of the timeline and
    carries the timestamp found there. *)
Lemma turning_points_positions (sentiments : list Q) (timeline : list ScoredPoint.t)
    (positions : list nat) :
  forall acc turning_points : list TurningPoint.t,
  Forall (fun tp => option_map ScoredPoint.timestamp
                      (nth_error timeline (TurningPoint.index tp))
                    = Some (TurningPoint.timestamp tp)) acc ->
  fold_left (turning_point_step sentiments timeline) positions (Some acc)
  = Some turning_points ->
  Forall (fun tp => option_map ScoredPoint.timestamp
                      (nth_error timeline (TurningPoint.index tp))
                    = Some (TurningPoint.timestamp tp)) turning_points.
Proof.
  induction positions as [|i positions IH]; intros acc tps Hacc Hfold.
  - cbn in Hfold. injection Hfold as <-. exact Hacc.
  - cbn [fold_left] in Hfold. unfold turning_point_step at 2 in Hfold.
    destruct (Py.Qgtb (Qabs (nth i sentiments 0 - nth (i - 1) sentiments 0)) 20).
    + destruct (nth_error timeline i) as [point|] eqn:E.
      * eapply IH; [|exact Hfold].
        apply Forall_app. split; [exact Hacc|].
        constructor; [|constructor].
        cbn [TurningPoint.index TurningPoint.timestamp]. rewrite E. reflexivity.
      * rewrite turning_point_step_none in Hfold. discriminate Hfold.
    + exact (IH _ _ Hacc Hfold).
Qed.

(** X5. The derived fields of a trajectory: the initial sentiment is the
    score of the first timeline entry, the overall change is the last
    score minus the first, rounded; every turning point sits at a
    position i with 1 <= i < n, carries the timestamp of timeline entry
    i, whose message index is i + 1; and a single message gives the
    trend insufficient_data, no turning point and no change. *)
Theorem trajectory_derived_fields (msg : Message) (msgs : list Message) :
  exists traj : Trajectory.t,
    analyze_evolution (msg :: msgs) = Some traj
    /\ (forall d : ScoredPoint.t,
          ScoredPoint.sentiment_score (hd d (Trajectory.timeline traj))
          = Trajectory.initial_sentiment traj)
    /\ Trajectory.overall_change traj
       = Py.round (last (scores (msg :: msgs)) 0
                   - _calculate_sentiment (Some (message_text msg))) 2
    /\ (forall tp : TurningPoint.t,
          In tp (Trajectory.turning_points traj) ->
          (1 <= TurningPoint.index tp < length (msg :: msgs))%nat
          /\ exists point : ScoredPoint.t,
               nth_error (Trajectory.timeline traj) (TurningPoint.index tp) = Some point
               /\ ScoredPoint.timestamp point = TurningPoint.timestamp tp
               /\ ScoredPoint.message_index point = (TurningPoint.index tp + 1)%nat)
    /\ (msgs = [] ->
        Trajectory.trend traj = "insufficient_data"
        /\ Trajectory.turning_points traj = []
        /\ Trajectory.overall_change traj == 0
        /\ Trajectory.initial_sentiment traj = Trajectory.current_sentiment traj).
Proof.
  destruct (analyze_evolution_result msg msgs) as [tps [Etps E]]. cbv zeta in E, Etps.
  eexists. split; [exact E|].
  cbn [Trajectory.timeline Trajectory.initial_sentiment Trajectory.overall_change
       Trajectory.turning_points Trajectory.trend Trajectory.current_sentiment].
  split; [intro d; reflexivity|]. split; [reflexivity|]. split.
  - intros tp Hin.
    assert (Hlen : length (List.map (fun im => scored_point (fst im) (snd im))
                             (enumerate (msg :: msgs)))
                   = length (scores (msg :: msgs))).
    { unfold scores, enumerate. rewrite !length_map, length_combine, length_seq. lia. }
    destruct (find_turning_points_some _ _ Hlen) as [tps' [E' [M _]]].
    rewrite Etps in E'. injection E' as <-.
    assert (Hidx : In (TurningPoint.index tp) (List.map TurningPoint.index tps)).
    { apply in_map. exact Hin. }
    rewrite M in Hidx. apply filter_In in Hidx. destruct Hidx as [Hseq _].
    apply in_seq in Hseq. unfold scores in Hseq. rewrite length_map in Hseq.
    split; [lia|].
    pose proof (turning_points_positions _ _ _ [] tps (Forall_nil _) Etps) as Hpos.
    rewrite Forall_forall in Hpos. specialize (Hpos tp Hin).
    destruct (nth_error (List.map (fun im => scored_point (fst im) (snd im))
                           (enumerate (msg :: msgs))) (TurningPoint.index tp))
      as [point|] eqn:Ept; [|discriminate Hpos].
    exists point. split; [reflexivity|]. cbn [option_map] in Hpos.
    split; [congruence|].
    rewrite nth_error_map in Ept.
    destruct (nth_error (enumerate (msg :: msgs)) (TurningPoint.index tp))
      as [[i m]|] eqn:Een; [|discriminate Ept].
    cbn [option_map fst snd] in Ept. injection Ept as <-.
    unfold scored_point. cbn [ScoredPoint.message_index].
    unfold enumerate in Een.
    destruct (nth_error (msg :: msgs) (TurningPoint.index tp)) as [m'|] eqn:Em.
    + rewrite (nth_error_enumerate _ 0 _ _ Em) in Een. injection Een as <- _.
      reflexivity.
    + apply nth_error_None in Em. lia.
  - intros ->. cbn in Etps. injection Etps as <-.
    split; [reflexivity|]. split; [reflexivity|]. split; [|reflexivity].
    unfold scores. cbn [List.map last].
    generalize (_calculate_sentiment (Some (message_text msg))). intro s.
    unfold Py.round. change (10 ^ Z.of_nat 2)%Z with 100%Z.
    assert (H0 : (s - s) * inject_Z 100 == inject_Z 0) by (change (inject_Z 0) with 0; ring).
    assert (Hr : Py.round_half_even ((s - s) * inject_Z 100) = 0%Z).
    { apply Z.le_antisymm.
      - apply round_half_even_le. rewrite H0. apply Qle_refl.
      - apply round_half_even_ge. rewrite H0. apply Qle_refl. }
    rewrite Hr. reflexivity.
Qed.

(** ** The text preview *)

Lemma len_app (a b : string) : Py.len (a ++ b) = (Py.len a + Py.len b)%nat.
Proof.
  induction a as [|c a IH]; [reflexivity|].
  cbn [append Py.len]. rewrite IH. destruct (Py.is_continuation c); reflexivity.
Qed.

Lemma len_slice_to (s : string) :
  forall n : nat, Py.len (Py.slice_to n s) = Nat.min n (Py.len s).
Proof.
  induction s as [|c s IH]; intro n; cbn [Py.slice_to Py.len].
  - symmetry. apply Nat.min_0_r.
  - destruct (Py.is_continuation c) eqn:E.
    + cbn [Py.len]. rewrite E. apply IH.
    + destruct n as [|n]; [reflexivity|].
      cbn [Py.len]. rewrite E, IH. reflexivity.
Qed.

Lemma prefix_slice_to (s : string) :
  forall n : nat, String.prefix (Py.slice_to n s) s = true.
Proof.
  induction s as [|c s IH]; intro n; cbn [Py.slice_to]; [reflexivity|].
  destruct (Py.is_continuation c).
  - cbn [String.prefix]. destruct (ascii_dec c c); [apply IH|congruence].
  - destruct n as [|n]; [reflexivity|].
    cbn [String.prefix]. destruct (ascii_dec c c); [apply IH|congruence].
Qed.

Lemma scored_point_preview (i : nat) (msg : Message) :
  let text := message_text msg in
  let preview := ScoredPoint.text (scored_point i msg) in
  (Py.len preview <= 103)%nat
  /\ ((Py.len text <= 100)%nat -> preview = text)
  /\ ((100 < Py.len text)%nat ->
      exists head : string,
        preview = head ++ "..."
        /\ String.prefix head text = true
        /\ Py.len head = 100%nat).
Proof.
  cbv zeta. unfold scored_point. cbn [ScoredPoint.text].
  destruct (Nat.ltb_spec 100 (Py.len (message_text msg))) as [Hlong|Hshort].
  - split; [|split].
    + rewrite len_app, len_slice_to. change (Py.len "...") with 3%nat. lia.
    + intro H. lia.
    + intros _. exists (Py.slice_to 100 (message_text msg)).
      split; [reflexivity|]. split; [apply prefix_slice_to|].
      rewrite len_slice_to. lia.
  - split; [lia|]. split; [reflexivity|]. intro H. lia.
Qed.

(** X6. The text kept in the timeline entry of a message is the message
    text itself when it has at most 100 characters, and otherwise its
    first 100 characters followed by "..."; it never has more than 103
    characters. *)
Theorem text_preview_bounded (messages : list Message) :
  exists traj : Trajectory.t,
    analyze_evolution messages = Some traj
    /\ (forall (k : nat) (msg : Message),
          nth_error messages k = Some msg ->
          exists point : ScoredPoint.t,
            nth_error (Trajectory.timeline traj) k = Some point
            /\ (Py.len (ScoredPoint.text point) <= 103)%nat
            /\ ((Py.len (message_text msg) <= 100)%nat ->
                ScoredPoint.text point = message_text msg)
            /\ ((100 < Py.len (message_text msg))%nat ->
                exists head : string,
                  ScoredPoint.text point = head ++ "..."
                  /\ String.prefix head (message_text msg) = true
                  /\ Py.len head = 100%nat)).
Proof.
  destruct (timeline_entries messages) as [traj [E [_ [_ Hnth]]]].
  exists traj. split; [exact E|].
  intros k msg Hk. exists (scored_point k msg).
  split; [exact (Hnth k msg Hk)|]. exact (scored_point_preview k msg).
Qed.

(** ** The result of the Signal Detector *)

(** X7. The context only selects recommendations: every other entry of
    the result is the same for any two contexts. *)
Theorem context_only_selects_recommendations (messages : list Message)
    (context1 context2 key : string) :
  key <> "recommendations" ->
  dict_get key (detect_signals messages context1)
  = dict_get key (detect_signals messages context2).
Proof.
  intro Hkey. destruct messages as [|m ms]; [reflexivity|].
  unfold detect_signals. cbn [dict_get].
  destruct (String.eqb key "signals"); [reflexivity|].
  destruct (String.eqb key "risk_level"); [reflexivity|].
  destruct (String.eqb key "confidence"); [reflexivity|].
  destruct (String.eqb key "breaking_point"); [reflexivity|].
  destruct (String.eqb key "key_phrases"); [reflexivity|].
  destruct (String.eqb_spec key "recommendations"); [congruence|].
  reflexivity.
Qed.

(** No entry of the signals list has a key 'type'. *)
Lemma detect_step_signals_untyped (st : DetectState) (im : nat * Message) :
  Forall (fun s => py_get "type" s = None) (signals st) ->
  Forall (fun s => py_get "type" s = None) (signals (detect_step st im)).
Proof.
  intro H. destruct im as [i msg]. unfold detect_step.
  destruct (msg_signals (scan_message i (lower (message_text msg))
                           (breaking_point st) (key_phrases st)));
    cbn [signals]; [exact H|].
  apply Forall_app. split; [exact H|]. constructor; [reflexivity|constructor].
Qed.

Lemma detect_loop_signals_untyped (messages : list Message) :
  Forall (fun s => py_get "type" s = None) (signals (detect_loop messages)).
Proof.
  unfold detect_loop.
  assert (H : forall (l : list (nat * Message)) (st : DetectState),
            Forall (fun s => py_get "type" s = None) (signals st) ->
            Forall (fun s => py_get "type" s = None)
              (signals (fold_left detect_step l st))).
  { induction l as [|im l IH]; intros st Hst; [exact Hst|].
    cbn [fold_left]. apply IH. apply detect_step_signals_untyped. exact Hst. }
  apply H. constructor.
Qed.

Lemma any_type_untyped (t : string) (l : list PyVal) :
  Forall (fun s => py_get "type" s = None) l -> any_type t l = false.
Proof.
  unfold any_type. induction 1 as [|s l Hs _ IH]; [reflexivity|].
  cbn [existsb]. rewrite Hs, IH. reflexivity.
Qed.

(** The recommendations that [detect_signals] returns on a non-empty
    list. *)
Lemma detect_signals_recommendations (msg : Message) (msgs : list Message)
    (context : string) :
  dict_get "recommendations" (detect_signals (msg :: msgs) context)
  = Some (PList (List.map PStr
       (_generate_recommendations context
          (_assess_risk_level
             (maximum (List.map risk_contribution (scanned_texts (msg :: msgs)))))
          (signals (detect_loop (msg :: msgs)))
          (breaking_point (detect_loop (msg :: msgs)))))).
Proof.
  rewrite <- total_risk_score_maximum, risk_level_capped, <- overall_risk_maximum.
  reflexivity.
Qed.

(** X8. The two recommendations tied to a signal type are never issued:
    [_generate_recommendations] looks for a key 'type' in the entries of
    the signals list, which have none.  Hence a LOW or MEDIUM risk level
    gives no recommendation at all, whatever the context. *)
Theorem signal_type_recommendations_never_issued (messages : list Message)
    (context : string) :
  exists recommendations : list string,
    dict_get "recommendations" (detect_signals messages context)
    = Some (PList (List.map PStr recommendations))
    /\ ~ In "Counter competitive threats with unique value proposition"
            recommendations
    /\ ~ In "Review pricing strategy and alternative plans" recommendations
    /\ (dict_get "risk_level" (detect_signals messages context) = Some (PStr "LOW")
        \/ dict_get "risk_level" (detect_signals messages context)
           = Some (PStr "MEDIUM") ->
        recommendations = []).
Proof.
  destruct messages as [|m ms].
  - exists []. split; [reflexivity|]. split; [intros []|]. split; [intros []|].
    reflexivity.
  - eexists. split; [apply detect_signals_recommendations|].
    rewrite detect_signals_risk_level.
    generalize (_assess_risk_level
                  (maximum (List.map risk_contribution (scanned_texts (m :: ms))))).
    intro level.
    generalize (breaking_point (detect_loop (m :: ms))). intro bp.
    unfold _generate_recommendations.
    rewrite !(any_type_untyped _ _ (detect_loop_signals_untyped (m :: ms))).
    rewrite !app_nil_r.
    split; [|split].
    + destruct (String.eqb level "CRITICAL"), (String.eqb level "HIGH"),
        (String.eqb context "customer"), (String.eqb context "employee"),
        (String.eqb context "investor"), bp as [[|b]|];
        cbn; intro H; repeat (destruct H as [H|H]; [discriminate H|]); exact H.
    + destruct (String.eqb level "CRITICAL"), (String.eqb level "HIGH"),
        (String.eqb context "customer"), (String.eqb context "employee"),
        (String.eqb context "investor"), bp as [[|b]|];
        cbn; intro H; repeat (destruct H as [H|H]; [discriminate H|]); exact H.
    + intros [H|H]; injection H as ->; cbn;
        destruct (String.eqb context "customer"), (String.eqb context "employee"),
          (String.eqb context "investor"); reflexivity.
Qed.

Lemma maximum_attained (l : list Z) :
  (0 < maximum l)%Z -> In (maximum l) l.
Proof.
  induction l as [|x l IH]; intro H.
  - cbn in H. lia.
  - rewrite maximum_cons in *.
    destruct (Z.max_spec x (maximum l)) as [[Hlt ->]|[Hle ->]].
    + right. apply IH. lia.
    + left. reflexivity.
Qed.

Lemma detect_signals_confidence (msg : Message) (msgs : list Message)
    (context : string) :
  dict_get "confidence" (detect_signals (msg :: msgs) context)
  = Some (PInt (Z.min 100 (Z.of_nat (length (signals (detect_loop (msg :: msgs)))) * 15))).
Proof. reflexivity. Qed.

Lemma raw_risk_flagged (t : string) : (raw_risk t =? 0)%Z = negb (flagged t).
Proof.
  unfold raw_risk, flagged.
  destruct (found (_check_comparisons t)), (found (_check_frustration t)),
    (found (_check_disengagement t)), (found (_check_price t)); reflexivity.
Qed.

Lemma detect_step_signals_length (st : DetectState) (i : nat) (msg : Message) :
  length (signals (detect_step st (i, msg)))
  = (length (signals st)
     + (if flagged (lower (message_text msg)) then 1 else 0))%nat.
Proof.
  unfold detect_step.
  pose proof (scan_message_no_signal i (lower (message_text msg))
                (breaking_point st) (key_phrases st)) as Hn.
  pose proof (raw_risk_flagged (lower (message_text msg))) as Hf.
  destruct (msg_signals (scan_message i (lower (message_text msg))
                           (breaking_point st) (key_phrases st))) eqn:E;
    cbn [signals].
  - destruct Hn as [Hn _]. rewrite (Hn eq_refl) in Hf. cbn in Hf.
    destruct (flagged (lower (message_text msg))); [discriminate Hf|lia].
  - destruct (flagged (lower (message_text msg))).
    + rewrite length_app. reflexivity.
    + cbn in Hf. apply Z.eqb_eq in Hf. destruct Hn as [_ Hn]. discriminate (Hn Hf).
Qed.

Lemma detect_loop_signals_length (msgs : list Message) :
  forall (k : nat) (st : DetectState),
  length (signals (fold_left detect_step (combine (seq k (length msgs)) msgs) st))
  = (length (signals st) + length (filter flagged (scanned_texts msgs)))%nat.
Proof.
  induction msgs as [|msg msgs IH]; intros k st.
  - cbn. lia.
  - rewrite enumerate_cons. cbn [fold_left]. rewrite IH, detect_step_signals_length.
    unfold scanned_texts. cbn [List.map filter].
    destruct (flagged (lower (message_text msg))); cbn [length]; lia.
Qed.

Lemma detect_signals_confidence_flagged (msg : Message) (msgs : list Message)
    (context : string) :
  length (signals (detect_loop (msg :: msgs)))
  = length (filter flagged (scanned_texts (msg :: msgs)))
  /\ dict_get "confidence" (detect_signals (msg :: msgs) context)
     = Some (PInt (Z.min 100 (15 * flagged_count (msg :: msgs)))).
Proof.
  assert (Hlen : length (signals (detect_loop (msg :: msgs)))
                 = length (filter flagged (scanned_texts (msg :: msgs)))).
  { unfold detect_loop, enumerate. rewrite detect_loop_signals_length. reflexivity. }
  split; [exact Hlen|].
  rewrite detect_signals_confidence, Hlen. unfold flagged_count.
  f_equal. f_equal. f_equal. lia.
Qed.

(** X9. The confidence of the Signal Detector is 15 points for every
    message in which at least one of the four checks finds a keyword,
    capped at 100, and the signals list has one entry for each such
    message. *)
Theorem confidence_counts_flagged_messages (msg : Message) (msgs : list Message)
    (context : string) :
  dict_get "confidence" (detect_signals (msg :: msgs) context)
  = Some (PInt (Z.min 100 (15 * flagged_count (msg :: msgs))))
  /\ exists entries : list PyVal,
       dict_get "signals" (detect_signals (msg :: msgs) context) = Some (PList entries)
       /\ Z.of_nat (length entries) = flagged_count (msg :: msgs).
Proof.
  destruct (detect_signals_confidence_flagged msg msgs context) as [Hlen Hc].
  split; [exact Hc|].
  eexists. split; [reflexivity|]. unfold flagged_count. rewrite Hlen. reflexivity.
Qed.

Lemma raw_risk_without_qualifying (t : string) :
  qualifies t = false -> (raw_risk t <= 50)%Z.
Proof.
  rewrite qualifies_comparison_or_disengagement. unfold raw_risk.
  destruct (found (_check_comparisons t)), (found (_check_frustration t)),
    (found (_check_disengagement t)), (found (_check_price t));
    cbn; intro H; try discriminate H; lia.
Qed.

(** X10. A CRITICAL risk level always comes with a breaking point, and
    the recommendations then start with the urgent notice followed by
    the breaking point. *)
Theorem critical_risk_has_breaking_point (messages : list Message)
    (context : string) :
  dict_get "risk_level" (detect_signals messages context) = Some (PStr "CRITICAL") ->
  exists (b : nat) (others : list string),
    (1 <= b <= length messages)%nat
    /\ dict_get "breaking_point" (detect_signals messages context)
       = Some (PInt (Z.of_nat b))
    /\ dict_get "recommendations" (detect_signals messages context)
       = Some (PList (List.map PStr
                 ("⚠️ URGENT: Immediate intervention required"
                  :: ("Breaking point detected at message " ++ Py.str_of_nat b)
                  :: others))).
Proof.
  intro Hlevel. destruct messages as [|m ms]; [discriminate Hlevel|].
  rewrite detect_signals_risk_level in Hlevel.
  pose proof (detect_signals_recommendations m ms context) as Hrecs.
  set (M := maximum (List.map risk_contribution (scanned_texts (m :: ms)))) in *.
  assert (HlevelM : _assess_risk_level M = "CRITICAL") by congruence.
  pose proof (risk_level_bands M) as [Hcrit _].
  apply Hcrit in HlevelM as Hmax.
  assert (Hin : In M (List.map risk_contribution (scanned_texts (m :: ms)))).
  { apply maximum_attained. fold M. lia. }
  apply in_map_iff in Hin. destruct Hin as [t [Ht Hint]].
  assert (Hq : qualifies t = true).
  { destruct (qualifies t) eqn:E; [reflexivity|].
    apply raw_risk_without_qualifying in E.
    unfold risk_contribution in Ht. lia. }
  pose proof (first_index_exists qualifies (scanned_texts (m :: ms)) 0) as [_ Hex].
  destruct (first_index qualifies 0 (scanned_texts (m :: ms))) as [b|] eqn:Eb.
  - pose proof Eb as Hspec. apply first_index_spec in Hspec. destruct Hspec as [Hb _].
    unfold scanned_texts in Hb. rewrite length_map in Hb.
    destruct b as [|b]; [lia|].
    exists (S b). eexists. split; [lia|]. split.
    + rewrite detect_signals_breaking_point, detect_loop_first_qualifying, Eb.
      reflexivity.
    + rewrite Hrecs, HlevelM, detect_loop_first_qualifying, Eb.
      unfold _generate_recommendations.
      rewrite !(any_type_untyped _ _ (detect_loop_signals_untyped (m :: ms))).
      rewrite !app_nil_r. cbn [String.eqb Ascii.eqb Bool.eqb andb orb].
      reflexivity.
  - exfalso. apply Hex; [|reflexivity]. exists t. split; assumption.
Qed.

Lemma maximum_app (l1 l2 : list Z) :
  maximum (l1 ++ l2) = Z.max (maximum l1) (maximum l2).
Proof.
  induction l1 as [|x l1 IH].
  - cbn [app]. pose proof (maximum_nonneg l2). change (maximum []) with 0%Z. lia.
  - cbn [app]. rewrite !maximum_cons, IH. lia.
Qed.

Lemma maximum_permutation (l1 l2 : list Z) :
  Permutation l1 l2 -> maximum l1 = maximum l2.
Proof.
  induction 1 as [|x l1 l2 _ IH|x y l|l1 l2 l3 _ IH1 _ IH2].
  - reflexivity.
  - rewrite !maximum_cons, IH. reflexivity.
  - rewrite !maximum_cons. lia.
  - congruence.
Qed.

Lemma filter_length_permutation {A : Type} (f : A -> bool) (l1 l2 : list A) :
  Permutation l1 l2 -> length (filter f l1) = length (filter f l2).
Proof.
  induction 1 as [|x l1 l2 _ IH|x y l|l1 l2 l3 _ IH1 _ IH2].
  - reflexivity.
  - cbn [filter]. destruct (f x); cbn [length]; rewrite IH; reflexivity.
  - cbn [filter]. destruct (f x), (f y); reflexivity.
  - congruence.
Qed.

(** X11. Further messages never lower the assessment: after any
    continuation of a non-empty conversation the total risk score and
    the confidence are at least what they were. *)
Theorem later_messages_never_lower_risk (msg : Message) (msgs later : list Message)
    (context : string) :
  exists risk risk' confidence confidence' : Z,
    dict_get "total_risk_score" (detect_signals (msg :: msgs) context)
    = Some (PInt risk)
    /\ dict_get "total_risk_score" (detect_signals ((msg :: msgs) ++ later) context)
       = Some (PInt risk')
    /\ dict_get "confidence" (detect_signals (msg :: msgs) context)
       = Some (PInt confidence)
    /\ dict_get "confidence" (detect_signals ((msg :: msgs) ++ later) context)
       = Some (PInt confidence')
    /\ (risk <= risk')%Z
    /\ (confidence <= confidence')%Z.
Proof.
  pose proof (detect_signals_confidence_flagged msg msgs context) as [_ Hc].
  pose proof (detect_signals_confidence_flagged msg (msgs ++ later) context) as [_ Hc'].
  do 4 eexists.
  split; [apply detect_signals_total_risk_score|].
  split; [apply (detect_signals_total_risk_score msg (msgs ++ later))|].
  split; [exact Hc|]. split; [exact Hc'|].
  change (msg :: msgs ++ later)%list with ((msg :: msgs) ++ later)%list.
  unfold flagged_count, scanned_texts.
  rewrite !map_app, maximum_app, filter_app, length_app. split; lia.
Qed.

(** X12. The order of the messages does not matter for the total risk
    score, the risk level and the confidence. *)
Theorem risk_ignores_message_order (messages messages' : list Message)
    (context key : string) :
  Permutation messages messages' ->
  key = "total_risk_score" \/ key = "risk_level" \/ key = "confidence" ->
  dict_get key (detect_signals messages context)
  = dict_get key (detect_signals messages' context).
Proof.
  intros Hperm Hkey.
  destruct messages as [|m ms].
  - apply Permutation_nil in Hperm. subst messages'. reflexivity.
  - destruct messages' as [|m' ms'].
    + apply Permutation_sym, Permutation_nil in Hperm. discriminate Hperm.
    + assert (Hmax : maximum (List.map risk_contribution (scanned_texts (m :: ms)))
                     = maximum (List.map risk_contribution (scanned_texts (m' :: ms')))).
      { apply maximum_permutation. unfold scanned_texts.
        apply Permutation_map, Permutation_map. exact Hperm. }
      assert (Hcount : flagged_count (m :: ms) = flagged_count (m' :: ms')).
      { unfold flagged_count, scanned_texts. f_equal.
        apply filter_length_permutation, Permutation_map. exact Hperm. }
      pose proof (detect_signals_confidence_flagged m ms context) as [_ Hc].
      pose proof (detect_signals_confidence_flagged m' ms' context) as [_ Hc'].
      destruct Hkey as [ -> | [ -> | -> ] ].
      * rewrite !detect_signals_total_risk_score, Hmax. reflexivity.
      * rewrite !detect_signals_risk_level, Hmax. reflexivity.
      * rewrite Hc, Hc', Hcount. reflexivity.
Qed.

(** The scan of a keyword list. *)
Lemma first_keyword_some (keywords : list string) (text keyword : string) :
  first_keyword keywords text = Some keyword <->
  exists before after : list string,
    keywords = (before ++ keyword :: after)%list
    /\ Py.str_in keyword text = true
    /\ (forall k : string, In k before -> Py.str_in k text = false).
Proof.
  unfold first_keyword. induction keywords as [|k keywords IH]; cbn [find].
  - split; [discriminate|]. intros [[|b before] [after [H _]]]; discriminate H.
  - destruct (Py.str_in k text) eqn:E.
    + split.
      * intro H. injection H as <-. exists [], keywords.
        split; [reflexivity|]. split; [exact E|]. intros k' [].
      * intros [[|b before] [after [H [Hin Hnone]]]].
        -- injection H as -> _. reflexivity.
        -- injection H as -> _. rewrite (Hnone b) in E; [discriminate E|].
           left. reflexivity.
    + rewrite IH. split.
      * intros [before [after [H [Hin Hnone]]]]. exists (k :: before), after.
        split; [rewrite H; reflexivity|]. split; [exact Hin|].
        intros k' [<-|Hk']; [exact E|apply Hnone; exact Hk'].
      * intros [[|b before] [after [H [Hin Hnone]]]].
        -- injection H as -> _. congruence.
        -- injection H as _ ->. exists before, after.
           split; [reflexivity|]. split; [exact Hin|].
           intros k' Hk'. apply Hnone. right. exact Hk'.
Qed.

Lemma first_keyword_found (keywords : list string) (text : string) :
  first_keyword keywords text <> None <->
  exists k : string, In k keywords /\ Py.str_in k text = true.
Proof.
  unfold first_keyword. split.
  - destruct (find (fun keyword => Py.str_in keyword text) keywords) as [k|] eqn:E;
      [|congruence].
    intros _. apply find_some in E. exists k. exact E.
  - intros [k [Hin Hk]] Hnone.
    apply (find_none _ _ Hnone) in Hin. congruence.
Qed.

(** X13. Each of the four checks finds a signal exactly when some
    keyword of its list occurs in the text, and the keyword it reports is
    the first such keyword in the order of the list. *)
Theorem checks_report_first_keyword (text : string) :
  let reports_first (check : string -> option SignalHit.t) (keywords : list string) :=
    (found (check text) = true <->
     exists k : string, In k keywords /\ Py.str_in k text = true)
    /\ (forall hit : SignalHit.t,
          check text = Some hit ->
          exists before after : list string,
            keywords = (before ++ SignalHit.text hit :: after)%list
            /\ Py.str_in (SignalHit.text hit) text = true
            /\ (forall k : string, In k before -> Py.str_in k text = false)) in
  reports_first _check_comparisons comparison_keywords
  /\ reports_first _check_frustration frustration_keywords
  /\ reports_first _check_disengagement disengagement_keywords
  /\ reports_first _check_price price_keywords.
Proof.
  assert (H : forall (type description : string) (keywords : list string),
            let check := fun t =>
              option_map (fun keyword => SignalHit.mk type keyword description)
                (first_keyword keywords t) in
            (found (check text) = true <->
             exists k : string, In k keywords /\ Py.str_in k text = true)
            /\ (forall hit : SignalHit.t,
                  check text = Some hit ->
                  exists before after : list string,
                    keywords = (before ++ SignalHit.text hit :: after)%list
                    /\ Py.str_in (SignalHit.text hit) text = true
                    /\ (forall k : string, In k before -> Py.str_in k text = false))).
  { intros type description keywords. cbv zeta. split.
    - rewrite <- first_keyword_found.
      destruct (first_keyword keywords text); cbn; split; congruence.
    - intros hit Hhit.
      destruct (first_keyword keywords text) as [k|] eqn:E; [|discriminate Hhit].
      cbn in Hhit. injection Hhit as <-. cbn [SignalHit.text].
      apply first_keyword_some. exact E. }
  cbv zeta. split; [|split; [|split]]; apply H.
Qed.

(** ** Action Predictor: scores *)

Lemma score_loop_count (indicators : list string) (text : string) :
  forall score : Z,
  fold_left (fun score indicator =>
               if Py.str_in indicator text then (score + 15)%Z else score)
            indicators score
  = (score + 15 * indicator_count indicators text)%Z.
Proof.
  unfold indicator_count.
  induction indicators as [|i indicators IH]; intro score; cbn [fold_left filter].
  - cbn. lia.
  - rewrite IH. destruct (Py.str_in i text); cbn [length]; lia.
Qed.

(** X14. The churn score and the resolution score are 15 points for
    every indicator of their list that occurs in the text, capped at
    100; they lie in [0,100], and a score is above 50 exactly when at
    least four indicators occur. *)
Theorem indicator_scores_count_matches (text : string) :
  let churn := indicator_count churn_indicators text in
  let resolution := indicator_count resolution_indicators text in
  _score_churn_risk text = Z.min 100 (15 * churn)
  /\ _score_resolution_likelihood text = Z.min 100 (15 * resolution)
  /\ (0 <= _score_churn_risk text <= 100)%Z
  /\ (0 <= _score_resolution_likelihood text <= 100)%Z
  /\ (_score_churn_risk text > 50 <-> 4 <= churn)%Z
  /\ (_score_resolution_likelihood text > 50 <-> 4 <= resolution)%Z.
Proof.
  cbv zeta. unfold _score_churn_risk, _score_resolution_likelihood, score_indicators.
  rewrite !score_loop_count.
  assert (H1 : (0 <= indicator_count churn_indicators text)%Z)
    by (unfold indicator_count; lia).
  assert (H2 : (0 <= indicator_count resolution_indicators text)%Z)
    by (unfold indicator_count; lia).
  generalize dependent (indicator_count churn_indicators text).
  generalize dependent (indicator_count resolution_indicators text).
  intros r Hr c Hc. repeat split; lia.
Qed.

(** ** Action Predictor: confidence and success rate *)

Lemma round_bounds (d : nat) (a b : Z) (x : Q) :
  inject_Z a <= x -> x <= inject_Z b ->
  inject_Z a <= Py.round x d /\ Py.round x d <= inject_Z b.
Proof.
  intros Ha Hb. unfold Py.round.
  assert (Hp : (0 < 10 ^ Z.of_nat d)%Z) by (apply Z.pow_pos_nonneg; lia).
  generalize dependent (10 ^ Z.of_nat d)%Z. intros p Hp.
  assert (HpQ : 0 < inject_Z p).
  { change 0 with (inject_Z 0). rewrite <- Zlt_Qlt. exact Hp. }
  assert (H1 : (a * p <= Py.round_half_even (x * inject_Z p))%Z).
  { apply round_half_even_ge. rewrite inject_Z_mult.
    apply Qmult_le_compat_r; [exact Ha|apply Qlt_le_weak; exact HpQ]. }
  assert (H2 : (Py.round_half_even (x * inject_Z p) <= b * p)%Z).
  { apply round_half_even_le. rewrite inject_Z_mult.
    apply Qmult_le_compat_r; [exact Hb|apply Qlt_le_weak; exact HpQ]. }
  rewrite Zle_Qle, inject_Z_mult in H1, H2.
  split.
  - apply Qle_shift_div_l; [exact HpQ|exact H1].
  - apply Qle_shift_div_r; [exact HpQ|exact H2].
Qed.

Lemma py_min_le_l (a b : Q) : Py.min a b <= a.
Proof. rewrite py_min_spec. apply Q.le_min_l. Qed.

Lemma py_min_glb (a b c : Q) : c <= a -> c <= b -> c <= Py.min a b.
Proof. intros Ha Hb. rewrite py_min_spec. apply Q.min_glb; assumption. Qed.

Lemma calculate_confidence_range (sentiments : list Q) (churn_score resolution_score : Z) :
  50 <= _calculate_confidence sentiments churn_score resolution_score
  /\ _calculate_confidence sentiments churn_score resolution_score <= 100.
Proof.
  unfold _calculate_confidence. split; [|apply py_min_le_l].
  apply py_min_glb; [discriminate|].
  assert (Hstrength : 0 <= Py.min 20
            (Qabs (Py.sum (last_two sentiments) - Py.sum (firstn 2 sentiments))
             / inject_Z (Z.of_nat (length sentiments)))).
  { apply py_min_glb; [discriminate|].
    destruct sentiments as [|s sentiments].
    - cbn. discriminate.
    - apply Qle_shift_div_l.
      + change 0 with (inject_Z 0). rewrite <- Zlt_Qlt. cbn [length]. lia.
      + rewrite Qmult_0_l. apply Qabs_nonneg. }
  generalize dependent (Py.min 20
            (Qabs (Py.sum (last_two sentiments) - Py.sum (firstn 2 sentiments))
             / inject_Z (Z.of_nat (length sentiments)))).
  intros strength Hstrength.
  destruct (5 <=? length sentiments)%nat, (3 <=? length sentiments)%nat,
    (Z.max churn_score resolution_score >? 60)%Z; lra.
Qed.

Lemma table_get_urgency (urgency : string) :
  (-20 <= table_get urgency urgency_map <= 10)%Z.
Proof.
  unfold urgency_map. cbn [table_get].
  repeat match goal with
         | |- context [String.eqb ?a ?b] => destruct (String.eqb a b)
         end; lia.
Qed.

Lemma table_get_action (action : string) :
  (-15 <= table_get action action_map <= 20)%Z.
Proof.
  unfold action_map. cbn [table_get].
  repeat match goal with
         | |- context [String.eqb ?a ?b] => destruct (String.eqb a b)
         end; lia.
Qed.

Lemma intervention_success_bounds (context urgency action : string) :
  (25 <= _calculate_intervention_success context urgency action <= 95)%Z.
Proof.
  unfold _calculate_intervention_success.
  pose proof (table_get_urgency urgency). pose proof (table_get_action action).
  destruct (String.eqb context "customer" || String.eqb context "employee"); lia.
Qed.

(** X15. The intervention success rate lies in [25,95] for every
    context, urgency and action, known or not: the lower bound 20 of its
    clamp is never reached.  For a predicted churn, whose urgency is
    CRITICAL, it is 35 for a customer or an employee and 25 otherwise. *)
Theorem intervention_success_range (context urgency action : string) :
  (25 <= _calculate_intervention_success context urgency action <= 95)%Z
  /\ _calculate_intervention_success context "CRITICAL" "LIKELY_CHURN"
     = (if String.eqb context "customer" || String.eqb context "employee"
        then 35 else 25)%Z.
Proof.
  split; [apply intervention_success_bounds|].
  unfold _calculate_intervention_success.
  destruct (String.eqb context "customer" || String.eqb context "employee");
    reflexivity.
Qed.

(** ** Action Predictor: the prediction as a whole *)

(** Every field of a prediction on a non-empty list. *)
Lemma predict_action_result (msg : Message) (msgs : list Message) (context : string)
    (p : Prediction.t) :
  predict_action (msg :: msgs) context = Some p ->
  exists (traj : Trajectory.t) (text : string),
    analyze_evolution (msg :: msgs) = Some traj
    /\ final_text (msg :: msgs) = Some text
    /\ let cs := Trajectory.current_sentiment traj in
       let trend := Trajectory.trend traj in
       let churn := _score_churn_risk text in
       let action :=
         _predict_primary_action cs trend churn (_score_resolution_likelihood text)
           context in
       let urgency := _assess_urgency cs churn action in
       Prediction.action p = action
       /\ Prediction.urgency p = urgency
       /\ Prediction.timeline p = _predict_timeline trend cs churn context
       /\ Prediction.confidence p
          = Py.round (_calculate_confidence
                        (List.map ScoredPoint.sentiment_score (Trajectory.timeline traj))
                        churn (_score_resolution_likelihood text)) 1
       /\ Prediction.success_rate p
          = _calculate_intervention_success context urgency action
       /\ Prediction.interventions p
          = _generate_interventions action context urgency cs
       /\ Prediction.sentiment_trajectory p
          = Some (TrajectorySummary.mk (Trajectory.initial_sentiment traj) cs trend
                    (Trajectory.overall_change traj)).
Proof.
  unfold predict_action.
  destruct (analyze_evolution (msg :: msgs)) as [traj|]; [|discriminate].
  destruct (final_text (msg :: msgs)) as [text|]; [|discriminate].
  intro H. injection H as <-. exists traj, text. repeat split.
Qed.



Lemma action_is_churn (cs : Q) (trend : string) (churn res : Z) (context : string) :
  _predict_primary_action cs trend churn res context = "LIKELY_CHURN"
  <-> (churn > 50)%Z /\ cs < 40.
Proof.
  pose proof (predict_primary_action_rule cs trend churn res context) as Hrule.
  split.
  - intro H. rewrite H in Hrule.
    inversion Hrule; subst; try congruence. split; assumption.
  - intros [Hc Hs].
    apply (action_rule_functional cs trend churn res); [exact Hrule|].
    apply rule_churn; assumption.
Qed.

Lemma action_is_escalation (cs : Q) (trend : string) (churn res : Z) (context : string) :
  _predict_primary_action cs trend churn res context = "ESCALATION_NEEDED" ->
  cs < 30 /\ (churn <= 50)%Z /\ trend = "DECLINING".
Proof.
  pose proof (predict_primary_action_rule cs trend churn res context) as Hrule.
  intro H. rewrite H in Hrule. inversion Hrule; subst; try congruence.
  split; [assumption|]. split; [|reflexivity].
  destruct (Z_le_gt_dec churn 50) as [Hle|Hgt]; [exact Hle|].
  exfalso. match goal with Hn : ~ (_ /\ _ < 40) |- _ => apply Hn end.
  split; [exact Hgt|lra].
Qed.

(** The fields of a prediction agree with one another. *)
Lemma prediction_fields_agree (cs : Q) (trend : string) (churn res : Z)
    (context : string) :
  let action := _predict_primary_action cs trend churn res context in
  let urgency := _assess_urgency cs churn action in
  let timeline := _predict_timeline trend cs churn context in
  (action = "LIKELY_CHURN" ->
   urgency = "CRITICAL"
   /\ (timeline = "IMMEDIATE (0-24 hours)" \/ timeline = "VERY_SOON (1-3 days)"
       \/ timeline = "SOON (3-7 days)"))
  /\ (timeline = "IMMEDIATE (0-24 hours)" -> action = "LIKELY_CHURN")
  /\ (action = "ESCALATION_NEEDED" ->
      (urgency = "CRITICAL" \/ urgency = "HIGH") /\ timeline = "SOON (3-7 days)")
  /\ (urgency = "LOW" -> timeline = "EXTENDED (1-3 months)").
Proof.
  cbv zeta. split; [|split; [|split]].
  - intro Ha. rewrite Ha. apply action_is_churn in Ha. destruct Ha as [Hc Hs].
    split.
    + unfold _assess_urgency. cbn [String.eqb Ascii.eqb Bool.eqb andb].
      rewrite !orb_true_r. reflexivity.
    + unfold _predict_timeline.
      assert (E : (churn >? 50)%Z = true) by (apply Z.gtb_lt; lia).
      rewrite E. cbn [orb].
      destruct (Py.Qltb cs 20 && (churn >? 80)%Z); [left; reflexivity|].
      destruct (String.eqb trend "DECLINING" && (churn >? 60)%Z);
        [right; left; reflexivity|right; right; reflexivity].
  - unfold _predict_timeline. intro Ht.
    destruct (Py.Qltb cs 20 && (churn >? 80)%Z) eqn:E1.
    + apply andb_true_iff in E1. destruct E1 as [Hs Hc].
      apply Qltb_lt in Hs. apply Z.gtb_lt in Hc.
      apply action_is_churn. split; [lia|lra].
    + destruct (String.eqb trend "DECLINING" && (churn >? 60)%Z); [discriminate Ht|].
      destruct ((churn >? 50)%Z || Py.Qltb cs 40); [discriminate Ht|].
      destruct (Py.Qltb cs 50); discriminate Ht.
  - intro Ha. rewrite Ha. apply action_is_escalation in Ha.
    destruct Ha as [Hs [Hc Ht]].
    assert (E40 : Py.Qltb cs 40 = true) by (apply Qltb_lt; lra).
    split.
    + unfold _assess_urgency. rewrite E40.
      destruct (Py.Qltb cs 20 || (churn >? 80)%Z || String.eqb "ESCALATION_NEEDED" "LIKELY_CHURN");
        [left; reflexivity|right; reflexivity].
    + unfold _predict_timeline. rewrite E40.
      assert (E80 : (churn >? 80)%Z = false) by (rewrite Z.gtb_ltb; apply Z.ltb_ge; lia).
      assert (E60 : (churn >? 60)%Z = false) by (rewrite Z.gtb_ltb; apply Z.ltb_ge; lia).
      rewrite E80, E60, !andb_false_r, orb_true_r. reflexivity.
  - unfold _assess_urgency, _predict_timeline. intro Hu.
    destruct (Py.Qltb cs 20) eqn:E20; [discriminate Hu|].
    destruct (churn >? 80)%Z eqn:E80; [discriminate Hu|]. cbn [orb andb] in *.
    destruct (String.eqb (_predict_primary_action cs trend churn res context)
                "LIKELY_CHURN"); [discriminate Hu|].
    destruct (Py.Qltb cs 40) eqn:E40; [discriminate Hu|].
    destruct (churn >? 60)%Z eqn:E60; [discriminate Hu|]. cbn [orb andb] in *.
    destruct (String.eqb (_predict_primary_action cs trend churn res context)
                "ESCALATION_NEEDED"); [discriminate Hu|].
    destruct (Py.Qltb cs 50) eqn:E50; [discriminate Hu|].
    destruct (churn >? 40)%Z eqn:E41; [discriminate Hu|].
    rewrite andb_false_r.
    assert (E51 : (churn >? 50)%Z = false).
    { rewrite Z.gtb_ltb in *. apply Z.ltb_ge. apply Z.ltb_ge in E41. lia. }
    rewrite E51. reflexivity.
Qed.

(** X17. The fields of a returned prediction agree with one another:
    its confidence lies in [50,100] and its success rate in [25,95] when
    the message list is not empty; a predicted churn has urgency
    CRITICAL and a timeline of at most 7 days; the timeline IMMEDIATE
    only comes with a predicted churn; a needed escalation has urgency
    CRITICAL or HIGH and the timeline SOON; and the urgency LOW only
    comes with the timeline EXTENDED. *)
Theorem prediction_fields_consistent (messages : list Message) (context : string)
    (p : Prediction.t) :
  predict_action messages context = Some p ->
  (messages <> [] ->
   (50 <= Prediction.confidence p /\ Prediction.confidence p <= 100)
   /\ (25 <= Prediction.success_rate p <= 95)%Z)
  /\ (Prediction.action p = "LIKELY_CHURN" ->
      Prediction.urgency p = "CRITICAL"
      /\ (Prediction.timeline p = "IMMEDIATE (0-24 hours)"
          \/ Prediction.timeline p = "VERY_SOON (1-3 days)"
          \/ Prediction.timeline p = "SOON (3-7 days)"))
  /\ (Prediction.timeline p = "IMMEDIATE (0-24 hours)" ->
      Prediction.action p = "LIKELY_CHURN")
  /\ (Prediction.action p = "ESCALATION_NEEDED" ->
      (Prediction.urgency p = "CRITICAL" \/ Prediction.urgency p = "HIGH")
      /\ Prediction.timeline p = "SOON (3-7 days)")
  /\ (Prediction.urgency p = "LOW" ->
      Prediction.timeline p = "EXTENDED (1-3 months)").
Proof.
  intro Hp. destruct messages as [|m ms].
  - injection Hp as <-. cbn.
    split; [congruence|]. repeat split; discriminate.
  - destruct (predict_action_result m ms context p Hp)
      as [traj [text [_ [_ H]]]].
    cbv zeta in H. destruct H as [Ha [Hu [Ht [Hc [Hs _]]]]].
    rewrite Ha, Hu, Ht, Hc, Hs.
    split.
    + intros _. split.
      * apply (round_bounds 1 50 100); apply calculate_confidence_range.
      * apply intervention_success_bounds.
    + apply prediction_fields_agree.
Qed.

(** ** Lexicon Scorer: what the keywords decide *)

Lemma clamp_0_100_id (c : Q) : 0 <= c -> c <= 100 -> clamp_0_100 c == c.
Proof.
  intros H0 H1. unfold clamp_0_100.
  rewrite (Q.max_r 0 c H0). apply Q.min_r. exact H1.
Qed.

Lemma clamp_0_100_ge (c x : Q) : 0 <= c -> c <= 100 -> c <= x -> c <= clamp_0_100 x.
Proof.
  intros H0 H1 Hx. rewrite <- (clamp_0_100_id c H0 H1).
  apply clamp_0_100_monotone. exact Hx.
Qed.

Lemma clamp_0_100_le (c x : Q) : 0 <= c -> c <= 100 -> x <= c -> clamp_0_100 x <= c.
Proof.
  intros H0 H1 Hx. rewrite <- (clamp_0_100_id c H0 H1).
  apply clamp_0_100_monotone. exact Hx.
Qed.

Lemma blend_window (p n pol : Q) :
  - (1) <= pol -> pol <= 1 ->
  35 + 7 * (p - n) <= 0.7 * (50 + 10 * p - 10 * n) + 0.3 * ((pol + 1) * 50)
  /\ 0.7 * (50 + 10 * p - 10 * n) + 0.3 * ((pol + 1) * 50) <= 65 + 7 * (p - n).
Proof. intros H1 H2. split; lra. Qed.

(** X18. With a polarity estimate in [-1,1] the lexicon decides the
    score up to 15 points: for a non-empty text with k more positive than
    negative lexicon terms the score is the clamp of a value between
    35 + 7k and 65 + 7k.  Hence k >= 4 gives a score of at least 60 and
    k <= -4 a score below 40, k >= 10 gives exactly 100 and k <= -10
    exactly 0, and a text without lexicon terms scores between 35 and
    65. *)
Theorem keywords_decide_score_up_to_polarity (text : string) :
  text <> "" ->
  - (1) <= polarity text /\ polarity text <= 1 ->
  let k := (positive_count text - negative_count text)%Z in
  let score := _calculate_sentiment (Some text) in
  ((4 <= k)%Z -> 60 <= score)
  /\ ((k <= -4)%Z -> score < 40)
  /\ ((10 <= k)%Z -> score == 100)
  /\ ((k <= -10)%Z -> score == 0)
  /\ (k = 0%Z -> 35 <= score /\ score <= 65).
Proof.
  intros Hne [Hp1 Hp2]. destruct text as [|c s]; [congruence|]. cbv zeta.
  pose proof (score_nonempty c s) as E.
  pose proof (blend_window (inject_Z (positive_count (String c s)))
                (inject_Z (negative_count (String c s)))
                (polarity (String c s)) Hp1 Hp2) as [Hlo Hhi].
  pose proof (score_bounds (Some (String c s))) as [Hs0 Hs1].
  assert (Hk : inject_Z (positive_count (String c s) - negative_count (String c s))
               == inject_Z (positive_count (String c s))
                  - inject_Z (negative_count (String c s))).
  { unfold Z.sub. rewrite inject_Z_plus, inject_Z_opp. reflexivity. }
  revert E Hlo Hhi Hs0 Hs1 Hk.
  generalize (_calculate_sentiment (Some (String c s))).
  generalize (0.7 * (50 + 10 * inject_Z (positive_count (String c s))
                     - 10 * inject_Z (negative_count (String c s)))
              + 0.3 * ((polarity (String c s) + 1) * 50)).
  generalize (inject_Z (positive_count (String c s))
              - inject_Z (negative_count (String c s))).
  generalize (positive_count (String c s) - negative_count (String c s))%Z.
  intros k kq blend score E Hlo Hhi Hs0 Hs1 Hk.
  split; [|split; [|split; [|split]]]; intro H.
  - rewrite E. apply clamp_0_100_ge; try discriminate.
    rewrite Zle_Qle, Hk in H. change (inject_Z 4) with 4 in H. lra.
  - rewrite E. apply Qle_lt_trans with (y := 37); [|reflexivity].
    apply clamp_0_100_le; try discriminate.
    rewrite Zle_Qle, Hk in H. change (inject_Z (-4)) with (- (4)) in H. lra.
  - apply Qle_antisym; [exact Hs1|].
    rewrite E. apply clamp_0_100_ge; try discriminate.
    rewrite Zle_Qle, Hk in H. change (inject_Z 10) with 10 in H. lra.
  - apply Qle_antisym; [|exact Hs0].
    rewrite E. apply clamp_0_100_le; try discriminate.
    rewrite Zle_Qle, Hk in H. change (inject_Z (-10)) with (- (10)) in H. lra.
  - subst k. change (inject_Z 0) with 0 in Hk. split; rewrite E.
    + apply clamp_0_100_ge; try discriminate. lra.
    + apply clamp_0_100_le; try discriminate. lra.
Qed.

(** ** Lexicon Scorer: words inside words *)

Lemma append_assoc (a b c : string) : (a ++ b) ++ c = a ++ b ++ c.
Proof. induction a as [|x a IH]; [reflexivity|]. cbn. rewrite IH. reflexivity. Qed.

(** A word that occurs in a word occurs wherever that word occurs. *)
Lemma str_in_trans (a b t : string) :
  Py.str_in a b = true -> Py.str_in b t = true -> Py.str_in a t = true.
Proof.
  rewrite !str_in_iff. intros [pre1 [post1 H1]] [pre2 [post2 H2]].
  exists (pre2 ++ pre1), (post1 ++ post2). rewrite H2, H1.
  rewrite !append_assoc. reflexivity.
Qed.

Lemma two_members_counted {A : Type} (f : A -> bool) (a b : A) (l : list A) :
  In a l -> In b l -> a <> b -> f a = true -> f b = true ->
  (2 <= length (filter f l))%nat.
Proof.
  intros Ha Hb Hne Hfa Hfb.
  assert (Ia : In a (filter f l)) by (apply filter_In; split; assumption).
  assert (Ib : In b (filter f l)) by (apply filter_In; split; assumption).
  destruct (filter f l) as [|x [|y l']].
  - destruct Ia.
  - destruct Ia as [<-|[]]. destruct Ib as [Hb'|[]]. congruence.
  - cbn [length]. lia.
Qed.

Lemma in_by_computation (w : string) (l : list string) :
  existsb (String.eqb w) l = true -> In w l.
Proof.
  intro H. apply existsb_exists in H. destruct H as [x [Hin Hx]].
  apply String.eqb_eq in Hx. subst x. exact Hin.
Qed.

Lemma nested_words_count_twice (words : list string) (inner outer text : string) :
  existsb (String.eqb inner) words = true ->
  existsb (String.eqb outer) words = true ->
  String.eqb inner outer = false ->
  Py.str_in inner outer = true ->
  Py.str_in outer text = true ->
  (2 <= count_words words text)%Z.
Proof.
  intros Hi Ho Hne Hnested Htext. unfold count_words.
  assert (H : (2 <= length (filter (fun word => Py.str_in word text) words))%nat).
  { apply (two_members_counted _ inner outer).
    - apply in_by_computation. exact Hi.
    - apply in_by_computation. exact Ho.
    - apply String.eqb_neq. exact Hne.
    - apply (str_in_trans inner outer text); assumption.
    - exact Htext. }
  lia.
Qed.

(** X19. A lexicon word that contains another lexicon word counts
    twice: a text with "bugs", "cancelar", "problema", "renunciar" or
    "mejores roles" has at least two negative-lexicon terms, and a text
    with "me encanta" at least two positive-lexicon terms. *)
Theorem nested_lexicon_words_count_twice (text : string) :
  (forall outer : string,
     In outer ["bugs"; "cancelar"; "problema"; "renunciar"; "mejores roles"] ->
     Py.str_in outer (lower text) = true ->
     (2 <= negative_count text)%Z)
  /\ (Py.str_in "me encanta" (lower text) = true -> (2 <= positive_count text)%Z).
Proof.
  split.
  - intros outer Hin Htext. unfold negative_count.
    cbn [In] in Hin.
    destruct Hin as [<-|[<-|[<-|[<-|[<-|[]]]]]].
    + apply (nested_words_count_twice negative_words "bug" "bugs");
        [vm_compute; reflexivity ..|exact Htext].
    + apply (nested_words_count_twice negative_words "cancel" "cancelar");
        [vm_compute; reflexivity ..|exact Htext].
    + apply (nested_words_count_twice negative_words "problem" "problema");
        [vm_compute; reflexivity ..|exact Htext].
    + apply (nested_words_count_twice negative_words "renuncia" "renunciar");
        [vm_compute; reflexivity ..|exact Htext].
    + apply (nested_words_count_twice negative_words "mejores" "mejores roles");
        [vm_compute; reflexivity ..|exact Htext].
  - intro Htext. unfold positive_count.
    apply (nested_words_count_twice positive_words "encanta" "me encanta");
      [vm_compute; reflexivity ..|exact Htext].
Qed.

(** ** Persistence: customer profiles *)

Lemma find_app_none {A : Type} (f : A -> bool) (l l' : list A) :
  find f l = None -> find f (l ++ l') = find f l'.
Proof.
  induction l as [|x l IH]; [reflexivity|].
  cbn [find app]. destruct (f x); [discriminate|exact IH].
Qed.

Lemma find_none_existsb {A : Type} (f : A -> bool) (l : list A) :
  find f l = None <-> existsb f l = false.
Proof.
  induction l as [|x l IH]; cbn [find existsb]; [split; reflexivity|].
  destruct (f x); cbn [orb]; [split; discriminate|exact IH].
Qed.

Lemma find_map_preserving {A : Type} (f : A -> bool) (g : A -> A) (l : list A) :
  (forall x, f (g x) = f x) ->
  find f (List.map g l) = option_map g (find f l).
Proof.
  intro H. induction l as [|x l IH]; [reflexivity|].
  cbn [List.map find]. rewrite H. destruct (f x); [reflexivity|exact IH].
Qed.

Lemma update_profile_customer (now c : string) (conf sent : Q) (row : ProfileRow.t) :
  ProfileRow.customer_id (update_profile now c conf sent row)
  = ProfileRow.customer_id row.
Proof.
  unfold update_profile.
  destruct (String.eqb (ProfileRow.customer_id row) c); reflexivity.
Qed.

(** The first save for a customer creates the profile. *)
Lemma save_creates_profile (db : Database.t) (now c context : string)
    (messages : list Message) (analysis : Analysis.t) :
  profile_of c db = None ->
  profile_of c (snd (save_analysis db now c context messages analysis))
  = Some (ProfileRow.mk
            (next_id (List.map ProfileRow.id (Database.customer_profiles db)))
            c context now now 1
            (get_or (Analysis.confidence analysis) 0)
            (get_or (Analysis.current_sentiment analysis) 0)).
Proof.
  unfold profile_of. intro Hnone.
  unfold save_analysis. cbn [snd Database.customer_profiles].
  pose proof Hnone as Hex. apply find_none_existsb in Hex. rewrite Hex.
  rewrite (find_app_none _ _ _ Hnone). cbn [find ProfileRow.customer_id].
  rewrite String.eqb_refl. reflexivity.
Qed.

(** A later save updates it. *)
Lemma save_updates_profile (db : Database.t) (now c context : string)
    (messages : list Message) (analysis : Analysis.t) (row : ProfileRow.t) :
  profile_of c db = Some row ->
  profile_of c (snd (save_analysis db now c context messages analysis))
  = Some (ProfileRow.mk (ProfileRow.id row) (ProfileRow.customer_id row)
            (ProfileRow.context_type row) (ProfileRow.first_contact row)
            now
            (ProfileRow.total_interactions row + 1)
            (get_or (Analysis.confidence analysis) 0)
            ((ProfileRow.lifetime_sentiment row
              * inject_Z (ProfileRow.total_interactions row)
              + get_or (Analysis.current_sentiment analysis) 0)
             / inject_Z (ProfileRow.total_interactions row + 1))).
Proof.
  unfold profile_of. intro Hsome.
  unfold save_analysis. cbn [snd Database.customer_profiles].
  assert (Hex : existsb (fun r => String.eqb (ProfileRow.customer_id r) c)
                  (Database.customer_profiles db) = true).
  { destruct (existsb (fun r => String.eqb (ProfileRow.customer_id r) c)
                (Database.customer_profiles db)) eqn:E; [reflexivity|].
    apply find_none_existsb in E. congruence. }
  rewrite Hex, find_map_preserving.
  - rewrite Hsome. cbn [option_map]. unfold update_profile.
    apply find_some in Hsome. destruct Hsome as [_ Hc]. rewrite Hc. reflexivity.
  - intro x. rewrite update_profile_customer. reflexivity.
Qed.

Lemma last_cons_default {A : Type} (l : list A) :
  forall x d : A, last (x :: l) d = last l x.
Proof.
  induction l as [|y l IH]; intros x d; [reflexivity|].
  change (last (x :: y :: l) d) with (last (y :: l) d). rewrite !IH. reflexivity.
Qed.

(** The update of the lifetime sentiment keeps it between two bounds
    that hold of the old value and of the new sentiment. *)
Lemma running_mean_bounds (lo hi avg s : Q) (n : Z) :
  (1 <= n)%Z ->
  lo <= avg /\ avg <= hi ->
  lo <= s /\ s <= hi ->
  lo <= (avg * inject_Z n + s) / inject_Z (n + 1)
  /\ (avg * inject_Z n + s) / inject_Z (n + 1) <= hi.
Proof.
  intros Hn [Ha1 Ha2] [Hs1 Hs2].
  rewrite inject_Z_plus. change (inject_Z 1) with 1.
  assert (HN : 1 <= inject_Z n).
  { change 1 with (inject_Z 1). rewrite <- Zle_Qle. exact Hn. }
  generalize dependent (inject_Z n). intros N HN.
  assert (Hpos : 0 < N + 1) by lra.
  assert (H1 : 0 <= (avg - lo) * N) by (apply Qmult_le_0_compat; lra).
  assert (H2 : 0 <= (hi - avg) * N) by (apply Qmult_le_0_compat; lra).
  split.
  - apply Qle_shift_div_l; [exact Hpos|].
    setoid_replace (avg * N + s) with (lo * (N + 1) + ((avg - lo) * N + (s - lo)))
      by ring.
    lra.
  - apply Qle_shift_div_r; [exact Hpos|].
    setoid_replace (avg * N + s) with (hi * (N + 1) - ((hi - avg) * N + (hi - s)))
      by ring.
    lra.
Qed.

(** The profile after further saves for a customer who has one. *)
Lemma save_all_existing (c : string) (saves : list Save) :
  forall (db : Database.t) (row : ProfileRow.t),
  profile_of c db = Some row ->
  (1 <= ProfileRow.total_interactions row)%Z ->
  exists row' : ProfileRow.t,
    profile_of c (save_all c saves db) = Some row'
    /\ ProfileRow.total_interactions row'
       = (ProfileRow.total_interactions row + Z.of_nat (length saves))%Z
    /\ (forall lo hi : Q,
          lo <= ProfileRow.lifetime_sentiment row
          /\ ProfileRow.lifetime_sentiment row <= hi ->
          Forall (fun s => lo <= stored_sentiment s /\ stored_sentiment s <= hi) saves ->
          lo <= ProfileRow.lifetime_sentiment row'
          /\ ProfileRow.lifetime_sentiment row' <= hi)
    /\ (saves = [] -> row' = row)
    /\ ProfileRow.context_type row' = ProfileRow.context_type row
    /\ ProfileRow.first_contact row' = ProfileRow.first_contact row
    /\ ProfileRow.churn_risk row'
       = last (List.map stored_confidence saves) (ProfileRow.churn_risk row)
    /\ ProfileRow.last_contact row'
       = last (List.map save_now saves) (ProfileRow.last_contact row).
Proof.
  induction saves as [|s saves IH]; intros db row Hrow Htotal.
  - exists row. split; [exact Hrow|]. split; [cbn; lia|].
    split; [intros lo hi H _; exact H|]. repeat split.
  - cbn [save_all fold_left].
    pose proof (save_updates_profile db (save_now s) c (save_context_type s)
                  (save_messages s) (save_analysis_arg s) row Hrow) as Hnext.
    fold (save_all c saves
            (snd (save_analysis db (save_now s) c (save_context_type s)
                    (save_messages s) (save_analysis_arg s)))).
    destruct (IH _ _ Hnext) as [row' [Hp [Ht [Hl [_ [Hc [Hf [Hr Hn]]]]]]]].
    { cbn [ProfileRow.total_interactions]. lia. }
    cbn [ProfileRow.total_interactions ProfileRow.lifetime_sentiment
         ProfileRow.context_type ProfileRow.first_contact ProfileRow.churn_risk
         ProfileRow.last_contact] in Ht, Hl, Hc, Hf, Hr, Hn.
    exists row'. split; [exact Hp|].
    split; [rewrite Ht; cbn [length]; lia|].
    split.
    { intros lo hi Hrange Hall. inversion Hall as [|s0 saves0 Hs Hrest]; subst.
      apply (Hl lo hi); [|exact Hrest].
      apply running_mean_bounds; [exact Htotal|exact Hrange|exact Hs]. }
    split; [discriminate|].
    split; [exact Hc|]. split; [exact Hf|]. split.
    + rewrite Hr. cbn [List.map]. rewrite last_cons_default. reflexivity.
    + rewrite Hn. cbn [List.map]. rewrite last_cons_default. reflexivity.
Qed.

(** X20. From a database without a profile for a customer, n >= 1
    saves for that customer leave a profile with n interactions, whose
    churn risk is the confidence of the last save and whose last contact
    is the moment of the last save; the profile keeps the context type
    and the first contact of the first save.  Its lifetime sentiment is
    the stored sentiment after one save, and stays in [0,100] when every
    stored sentiment is in [0,100]. *)
Theorem profile_accumulates_saves (db : Database.t) (c : string)
    (first : Save) (others : list Save) :
  profile_of c db = None ->
  let saves := first :: others in
  exists row : ProfileRow.t,
    profile_of c (save_all c saves db) = Some row
    /\ ProfileRow.total_interactions row = Z.of_nat (length saves)
    /\ ProfileRow.churn_risk row = last (List.map stored_confidence saves) 0
    /\ ProfileRow.context_type row = save_context_type first
    /\ ProfileRow.first_contact row = save_now first
    /\ ProfileRow.last_contact row = last (List.map save_now saves) ""
    /\ (others = [] -> ProfileRow.lifetime_sentiment row = stored_sentiment first)
    /\ (Forall (fun s => 0 <= stored_sentiment s /\ stored_sentiment s <= 100) saves ->
        0 <= ProfileRow.lifetime_sentiment row
        /\ ProfileRow.lifetime_sentiment row <= 100).
Proof.
  intro Hnone. cbv zeta. cbn [save_all fold_left].
  pose proof (save_creates_profile db (save_now first) c (save_context_type first)
                (save_messages first) (save_analysis_arg first) Hnone) as Hfirst.
  fold (save_all c others
          (snd (save_analysis db (save_now first) c (save_context_type first)
                  (save_messages first) (save_analysis_arg first)))).
  destruct (save_all_existing c others _ _ Hfirst)
    as [row [Hp [Ht [Hl [He [Hc [Hf [Hr Hn]]]]]]]].
  { cbn [ProfileRow.total_interactions]. lia. }
  cbn [ProfileRow.total_interactions ProfileRow.lifetime_sentiment
       ProfileRow.context_type ProfileRow.first_contact ProfileRow.churn_risk
       ProfileRow.last_contact] in Ht, Hl, Hc, Hf, Hr, Hn.
  exists row. split; [exact Hp|].
  split; [rewrite Ht; cbn [length]; lia|].
  split; [rewrite Hr; cbn [List.map]; rewrite last_cons_default; reflexivity|].
  split; [exact Hc|]. split; [exact Hf|].
  split; [rewrite Hn; cbn [List.map]; rewrite last_cons_default; reflexivity|].
  split.
  - intro Ho. rewrite (He Ho). reflexivity.
  - intro Hall. inversion Hall as [|s0 saves0 Hs Hrest]; subst.
    apply (Hl 0 100); [exact Hs|exact Hrest].
Qed.

(** ** Persistence: one save *)

Lemma next_id_fresh (ids : list Z) : Forall (fun i => i < next_id ids)%Z ids.
Proof.
  unfold next_id. induction ids as [|i ids IH]; constructor.
  - cbn [fold_right]. lia.
  - cbn [fold_right]. eapply Forall_impl; [|exact IH].
    cbn beta. intros j Hj. lia.
Qed.

Lemma map_update_customers (now c : string) (conf sent : Q) (rows : list ProfileRow.t) :
  List.map ProfileRow.customer_id (List.map (update_profile now c conf sent) rows)
  = List.map ProfileRow.customer_id rows.
Proof.
  rewrite map_map. apply map_ext. intro row. apply update_profile_customer.
Qed.

(** X21. One save appends exactly one conversation row, whose id is the
    returned id and is larger than every id in the table; it appends one
    alert when the stored confidence is above 0.7 (HIGH above 0.85,
    MEDIUM otherwise, unresolved, typed by the predicted action) and
    touches no alert otherwise; and it never gives a customer a second
    profile. *)
Theorem save_appends_one_row (db : Database.t) (now c context : string)
    (messages : list Message) (analysis : Analysis.t) :
  let confidence := get_or (Analysis.confidence analysis) 0 in
  let analysis_id := fst (save_analysis db now c context messages analysis) in
  let db' := snd (save_analysis db now c context messages analysis) in
  (exists row : ConversationRow.t,
     Database.conversations db' = (Database.conversations db ++ [row])%list
     /\ ConversationRow.id row = analysis_id
     /\ ConversationRow.customer_id row = c
     /\ Forall (fun old => (ConversationRow.id old < analysis_id)%Z)
          (Database.conversations db))
  /\ (0.7 < confidence ->
      exists alert : AlertRow.t,
        Database.risk_alerts db' = (Database.risk_alerts db ++ [alert])%list
        /\ AlertRow.customer_id alert = c
        /\ AlertRow.alert_type alert
           = get_or (Analysis.predicted_action analysis) "UNKNOWN"
        /\ AlertRow.resolved alert = 0%Z
        /\ (0.85 < confidence -> AlertRow.severity alert = "HIGH")
        /\ (confidence <= 0.85 -> AlertRow.severity alert = "MEDIUM"))
  /\ (confidence <= 0.7 -> Database.risk_alerts db' = Database.risk_alerts db)
  /\ (NoDup (List.map ProfileRow.customer_id (Database.customer_profiles db)) ->
      NoDup (List.map ProfileRow.customer_id (Database.customer_profiles db'))
      /\ In c (List.map ProfileRow.customer_id (Database.customer_profiles db'))).
Proof.
  cbv zeta. unfold save_analysis.
  cbn [fst snd Database.conversations Database.risk_alerts Database.customer_profiles].
  split; [|split; [|split]].
  - eexists. split; [reflexivity|]. cbn [ConversationRow.id ConversationRow.customer_id].
    split; [reflexivity|]. split; [reflexivity|].
    pose proof (next_id_fresh (List.map ConversationRow.id (Database.conversations db)))
      as H.
    rewrite Forall_map in H. exact H.
  - intro Hc. unfold Py.Qgtb.
    assert (E : Py.Qltb 0.7 (get_or (Analysis.confidence analysis) 0) = true)
      by (apply Qltb_lt; exact Hc).
    rewrite E. eexists. split; [reflexivity|].
    cbn [AlertRow.customer_id AlertRow.alert_type AlertRow.resolved AlertRow.severity].
    split; [reflexivity|]. split; [reflexivity|]. split; [reflexivity|]. split.
    + intro H. apply Qltb_lt in H. rewrite H. reflexivity.
    + intro H. apply Qltb_ge in H. rewrite H. reflexivity.
  - intro Hc. unfold Py.Qgtb. apply Qltb_ge in Hc. rewrite Hc. reflexivity.
  - intro Hnodup.
    destruct (existsb (fun row => String.eqb (ProfileRow.customer_id row) c)
                (Database.customer_profiles db)) eqn:E.
    + rewrite map_update_customers. split; [exact Hnodup|].
      apply existsb_exists in E. destruct E as [row [Hin Hrow]].
      apply String.eqb_eq in Hrow. rewrite <- Hrow. apply in_map. exact Hin.
    + rewrite map_app. cbn [List.map ProfileRow.customer_id]. split.
      * apply Permutation_NoDup with (l := c :: List.map ProfileRow.customer_id
                                             (Database.customer_profiles db)).
        -- apply Permutation_cons_append.
        -- constructor; [|exact Hnodup].
           intro Hin. apply in_map_iff in Hin. destruct Hin as [row [Hrow Hin]].
           assert (Hex : existsb (fun row => String.eqb (ProfileRow.customer_id row) c)
                           (Database.customer_profiles db) = true).
           { apply existsb_exists. exists row. split; [exact Hin|].
             apply String.eqb_eq. exact Hrow. }
           congruence.
      * apply in_or_app. right. left. reflexivity.
Qed.

(** ** The three analysis tools of the server *)

Lemma normalize_context_cases (context_type : option string) :
  normalize_context context_type = "customer"
  \/ normalize_context context_type = "employee"
  \/ normalize_context context_type = "email".
Proof.
  unfold normalize_context.
  destruct (String.eqb_spec (get_or context_type "customer") "customer") as [->|_];
    [left; reflexivity|].
  destruct (String.eqb_spec (get_or context_type "customer") "employee") as [->|_];
    [right; left; reflexivity|].
  destruct (String.eqb_spec (get_or context_type "customer") "email") as [->|_];
    [right; right; reflexivity|left; reflexivity].
Qed.

(** X23. The server hands the contexts customer, employee and email to
    the Signal Detector unchanged and replaces any other context, and an
    absent one, by customer; the context handed on is also the one
    stored with the conversation.  So the recommendations of the
    investor context are never sent, and with the context email, for
    which the detector has no recommendations of its own, the answer
    holds at most the urgent notice and the breaking point. *)
Theorem server_contexts (default_customer_id : list Message -> string)
    (msg : Message) (msgs : list Message) (context_type customer_id : option string)
    (now : string) (db : Database.t) :
  let arguments := mkArguments (Some (msg :: msgs)) context_type customer_id in
  let known (c : string) := c = "customer" \/ c = "employee" \/ c = "email" in
  exists (context : string) (row : ConversationRow.t),
    known context
    /\ (forall c : string, known c -> context_type = Some c -> context = c)
    /\ ((forall c : string, known c -> context_type <> Some c) ->
        context = "customer")
    /\ fst (call_detect_risk_signals default_customer_id arguments now db)
       = AssessmentResponse (detect_signals (msg :: msgs) context)
    /\ Database.conversations
         (snd (call_detect_risk_signals default_customer_id arguments now db))
       = (Database.conversations db ++ [row])%list
    /\ ConversationRow.context_type row = context
    /\ (context = "email" ->
        exists recommendations : list string,
          dict_get "recommendations" (detect_signals (msg :: msgs) context)
          = Some (PList (List.map PStr recommendations))
          /\ (length recommendations <= 2)%nat).
Proof.
  cbv zeta. exists (normalize_context context_type).
  unfold call_detect_risk_signals. cbn [arg_messages arg_context_type arg_customer_id].
  eexists. unfold save_analysis at 1. cbn [fst snd Database.conversations].
  split; [apply normalize_context_cases|]. split; [|split; [|split; [|split; [|split]]]].
  - intros c [-> | [-> | ->]] ->; reflexivity.
  - intro Hother. unfold normalize_context.
    destruct context_type as [ctx|]; cbn [get_or]; [|reflexivity].
    destruct (String.eqb_spec ctx "customer") as [->|_]; [reflexivity|].
    destruct (String.eqb_spec ctx "employee") as [->|_].
    { exfalso. apply (Hother "employee"); [right; left; reflexivity|reflexivity]. }
    destruct (String.eqb_spec ctx "email") as [->|_]; [|reflexivity].
    exfalso. apply (Hother "email"); [right; right; reflexivity|reflexivity].
  - reflexivity.
  - reflexivity.
  - reflexivity.
  - intros Hemail. rewrite Hemail.
    eexists. split; [apply detect_signals_recommendations|].
    unfold _generate_recommendations.
    rewrite !(any_type_untyped _ _ (detect_loop_signals_untyped (msg :: msgs))).
    rewrite !app_nil_r.
    destruct (String.eqb _ "CRITICAL"), (breaking_point (detect_loop (msg :: msgs)))
      as [[|b]|]; cbn; lia.
Qed.

Lemma save_alert_high (db : Database.t) (now c context : string)
    (messages : list Message) (analysis : Analysis.t) :
  0.85 < get_or (Analysis.confidence analysis) 0 ->
  exists alert : AlertRow.t,
    Database.risk_alerts (snd (save_analysis db now c context messages analysis))
    = (Database.risk_alerts db ++ [alert])%list
    /\ AlertRow.severity alert = "HIGH"
    /\ AlertRow.alert_type alert = get_or (Analysis.predicted_action analysis) "UNKNOWN".
Proof.
  intro Hc. unfold save_analysis. cbn [snd Database.risk_alerts]. unfold Py.Qgtb.
  assert (E1 : Py.Qltb 0.7 (get_or (Analysis.confidence analysis) 0) = true)
    by (apply Qltb_lt; lra).
  assert (E2 : Py.Qltb 0.85 (get_or (Analysis.confidence analysis) 0) = true)
    by (apply Qltb_lt; exact Hc).
  rewrite E1, E2. eexists. split; [reflexivity|]. split; reflexivity.
Qed.

Lemma save_no_alert (db : Database.t) (now c context : string)
    (messages : list Message) (analysis : Analysis.t) :
  get_or (Analysis.confidence analysis) 0 <= 0.7 ->
  Database.risk_alerts (snd (save_analysis db now c context messages analysis))
  = Database.risk_alerts db.
Proof.
  intro Hc. unfold save_analysis. cbn [snd Database.risk_alerts]. unfold Py.Qgtb.
  apply Qltb_ge in Hc. rewrite Hc. reflexivity.
Qed.

Lemma prediction_confidence_range (msg : Message) (msgs : list Message)
    (context : string) (p : Prediction.t) :
  predict_action (msg :: msgs) context = Some p ->
  50 <= Prediction.confidence p /\ Prediction.confidence p <= 100.
Proof.
  intro Hp.
  destruct (predict_action_result msg msgs context p Hp) as [traj [text [_ [_ H]]]].
  cbv zeta in H. destruct H as [_ [_ [_ [Hc _]]]]. rewrite Hc.
  apply (round_bounds 1 50 100); apply calculate_confidence_range.
Qed.

(** X24. The alerts that the three tools raise.  Storing a trajectory
    never raises one, its result having no confidence.  Storing a risk
    assessment raises one exactly when some message is flagged, and
    storing a prediction always raises one; both are of severity HIGH,
    the confidences of these results being counted out of 100 and
    compared with 0.7 and 0.85, and both are of type UNKNOWN, no result
    having a key predicted_action.  A call of the prediction tool that
    fails leaves the database as it is. *)
Theorem alerts_raised_by_tools (default_customer_id : list Message -> string)
    (msg : Message) (msgs : list Message) (context_type customer_id : option string)
    (now : string) (db : Database.t) :
  let arguments := mkArguments (Some (msg :: msgs)) context_type customer_id in
  Database.risk_alerts
    (snd (call_analyze_sentiment_evolution default_customer_id arguments now db))
  = Database.risk_alerts db
  /\ (flagged_count (msg :: msgs) = 0%Z ->
      Database.risk_alerts
        (snd (call_detect_risk_signals default_customer_id arguments now db))
      = Database.risk_alerts db)
  /\ (flagged_count (msg :: msgs) <> 0%Z ->
      exists alert : AlertRow.t,
        Database.risk_alerts
          (snd (call_detect_risk_signals default_customer_id arguments now db))
        = (Database.risk_alerts db ++ [alert])%list
        /\ AlertRow.severity alert = "HIGH"
        /\ AlertRow.alert_type alert = "UNKNOWN")
  /\ (forall p : Prediction.t,
        fst (call_predict_next_action default_customer_id arguments now db)
        = PredictionResponse p ->
        exists alert : AlertRow.t,
          Database.risk_alerts
            (snd (call_predict_next_action default_customer_id arguments now db))
          = (Database.risk_alerts db ++ [alert])%list
          /\ AlertRow.severity alert = "HIGH"
          /\ AlertRow.alert_type alert = "UNKNOWN")
  /\ (fst (call_predict_next_action default_customer_id arguments now db)
      = ToolException "predict_next_action" ->
      snd (call_predict_next_action default_customer_id arguments now db) = db).
Proof.
  cbv zeta. split; [|split; [|split; [|split]]].
  - unfold call_analyze_sentiment_evolution. cbn [arg_messages].
    destruct (analyze_evolution (msg :: msgs)); [|reflexivity].
    cbn [snd]. apply save_no_alert. cbn. discriminate.
  - intro Hk. unfold call_detect_risk_signals. cbn [arg_messages arg_context_type snd].
    apply save_no_alert. unfold analysis_of_assessment. cbn [Analysis.confidence].
    destruct (detect_signals_confidence_flagged msg msgs
                (normalize_context context_type)) as [_ Hc].
    rewrite Hc, Hk. cbn. discriminate.
  - intro Hk. unfold call_detect_risk_signals. cbn [arg_messages arg_context_type snd].
    destruct (save_alert_high db now
                (get_or customer_id (default_customer_id (msg :: msgs)))
                (normalize_context context_type) (msg :: msgs)
                (analysis_of_assessment
                   (detect_signals (msg :: msgs) (normalize_context context_type))))
      as [alert [Ha [Hs Ht]]].
    + unfold analysis_of_assessment. cbn [Analysis.confidence].
      destruct (detect_signals_confidence_flagged msg msgs
                  (normalize_context context_type)) as [_ Hc].
      rewrite Hc. cbn [get_or].
      assert (Hpos : (1 <= flagged_count (msg :: msgs))%Z)
        by (unfold flagged_count in *; lia).
      apply Qlt_le_trans with (y := inject_Z 15); [reflexivity|].
      rewrite <- Zle_Qle. lia.
    + exists alert. split; [exact Ha|]. split; [exact Hs|]. exact Ht.
  - intros p Hp. unfold call_predict_next_action in *.
    cbn [arg_messages arg_context_type] in *.
    destruct (predict_action (msg :: msgs) (normalize_context context_type))
      as [q|] eqn:E; [|discriminate Hp].
    cbn [fst snd] in *. injection Hp as ->.
    destruct (save_alert_high db now
                (get_or customer_id (default_customer_id (msg :: msgs)))
                (normalize_context context_type) (msg :: msgs)
                (analysis_of_prediction p)) as [alert [Ha [Hs Ht]]].
    + cbn. pose proof (prediction_confidence_range msg msgs _ p E) as [H50 _]. lra.
    + exists alert. split; [exact Ha|]. split; [exact Hs|]. exact Ht.
  - unfold call_predict_next_action. cbn [arg_messages arg_context_type].
    destruct (predict_action (msg :: msgs) (normalize_context context_type));
      [discriminate|reflexivity].
Qed.

(** X25. What the three tools store as the conversation row.  The
    trajectory tool stores the current sentiment and the trend under the
    context "conversation", with confidence 0.  The other two store the
    sentiment 0 and the trend UNKNOWN, their results having neither key
    at the top: the assessment tool with its risk level and its
    confidence, the prediction tool with the risk level UNKNOWN and a
    confidence in [50,100].  The predicted action of every row is
    UNKNOWN. *)
Theorem rows_stored_by_tools (default_customer_id : list Message -> string)
    (msg : Message) (msgs : list Message) (context_type customer_id : option string)
    (now : string) (db : Database.t) :
  let arguments := mkArguments (Some (msg :: msgs)) context_type customer_id in
  (exists (traj : Trajectory.t) (row : ConversationRow.t),
     call_analyze_sentiment_evolution default_customer_id arguments now db
     = (TrajectoryResponse traj,
        snd (call_analyze_sentiment_evolution default_customer_id arguments now db))
     /\ Database.conversations
          (snd (call_analyze_sentiment_evolution default_customer_id arguments now db))
        = (Database.conversations db ++ [row])%list
     /\ ConversationRow.sentiment_score row = Trajectory.current_sentiment traj
     /\ ConversationRow.trend row = Trajectory.trend traj
     /\ ConversationRow.context_type row = "conversation"
     /\ ConversationRow.confidence row = 0
     /\ ConversationRow.risk_level row = "UNKNOWN"
     /\ ConversationRow.predicted_action row = "UNKNOWN")
  /\ (exists row : ConversationRow.t,
        Database.conversations
          (snd (call_detect_risk_signals default_customer_id arguments now db))
        = (Database.conversations db ++ [row])%list
        /\ ConversationRow.sentiment_score row = 0
        /\ ConversationRow.trend row = "UNKNOWN"
        /\ dict_get "risk_level"
             (detect_signals (msg :: msgs) (normalize_context context_type))
           = Some (PStr (ConversationRow.risk_level row))
        /\ ConversationRow.confidence row
           = inject_Z (Z.min 100 (15 * flagged_count (msg :: msgs)))
        /\ ConversationRow.predicted_action row = "UNKNOWN")
  /\ (forall p : Prediction.t,
        fst (call_predict_next_action default_customer_id arguments now db)
        = PredictionResponse p ->
        exists row : ConversationRow.t,
          Database.conversations
            (snd (call_predict_next_action default_customer_id arguments now db))
          = (Database.conversations db ++ [row])%list
          /\ ConversationRow.sentiment_score row = 0
          /\ ConversationRow.trend row = "UNKNOWN"
          /\ ConversationRow.risk_level row = "UNKNOWN"
          /\ ConversationRow.predicted_action row = "UNKNOWN"
          /\ ConversationRow.confidence row = Prediction.confidence p
          /\ 50 <= ConversationRow.confidence row
          /\ ConversationRow.confidence row <= 100).
Proof.
  cbv zeta. split; [|split].
  - unfold call_analyze_sentiment_evolution. cbn [arg_messages arg_customer_id].
    destruct (analyze_evolution_nonempty msg msgs) as [traj [E _]]. rewrite E.
    exists traj. eexists. split; [reflexivity|].
    unfold save_analysis. cbn [snd Database.conversations].
    split; [reflexivity|]. repeat split.
  - unfold call_detect_risk_signals. cbn [arg_messages arg_context_type arg_customer_id].
    eexists. unfold save_analysis. cbn [snd Database.conversations].
    split; [reflexivity|].
    cbn [ConversationRow.sentiment_score ConversationRow.trend
         ConversationRow.risk_level ConversationRow.confidence
         ConversationRow.predicted_action].
    unfold analysis_of_assessment.
    cbn [Analysis.current_sentiment Analysis.trend Analysis.risk_level
         Analysis.confidence Analysis.predicted_action get_or].
    destruct (detect_signals_confidence_flagged msg msgs
                (normalize_context context_type)) as [_ Hc].
    rewrite Hc, detect_signals_risk_level. cbn [get_or]. repeat split.
  - intros p Hp. unfold call_predict_next_action in *.
    cbn [arg_messages arg_context_type arg_customer_id] in *.
    destruct (predict_action (msg :: msgs) (normalize_context context_type))
      as [q|] eqn:E; [|discriminate Hp].
    cbn [fst snd] in *. injection Hp as ->.
    eexists. unfold save_analysis. cbn [snd Database.conversations].
    split; [reflexivity|].
    cbn [ConversationRow.sentiment_score ConversationRow.trend
         ConversationRow.risk_level ConversationRow.confidence
         ConversationRow.predicted_action].
    pose proof (prediction_confidence_range msg msgs _ p E) as [H50 H100].
    repeat split; assumption.
Qed.

(** ** Interventions *)

Lemma interventions_without_fifth (action context urgency : string) (cs : Q) :
  action = "LIKELY_CHURN" \/ action = "ESCALATION_NEEDED" ->
  urgency = "CRITICAL" \/ urgency = "HIGH" ->
  let interventions := _generate_interventions action context urgency cs in
  ~ In "Consider special pricing" interventions
  /\ ~ In "Assess job satisfaction" interventions
  /\ (3 <= length interventions <= 4)%nat
  /\ (length interventions = 4%nat <->
      context = "customer" \/ context = "employee").
Proof.
  intros Ha Hu. cbv zeta. unfold _generate_interventions.
  destruct (String.eqb_spec context "customer") as [Hc|Hc];
    [|destruct (String.eqb_spec context "employee") as [He|He]];
    destruct Ha as [-> | ->], Hu as [-> | ->]; cbn;
    (split; [intro H; repeat (destruct H as [H|H]; [discriminate H|]); exact H|]);
    (split; [intro H; repeat (destruct H as [H|H]; [discriminate H|]); exact H|]);
    (split; [lia|]);
    (split; [intro H; first [left; assumption | right; assumption | discriminate H]
            | intros [H|H]; first [reflexivity | congruence]]).
Qed.

(** X26. For a predicted churn or a needed escalation the list of
    interventions is cut after its fourth entry: it has the three
    entries of the action and, for a customer or an employee, the first
    of the two entries of the context; "Consider special pricing" and
    "Assess job satisfaction" are never part of it. *)
Theorem urgent_actions_drop_last_intervention (messages : list Message)
    (context : string) (p : Prediction.t) :
  predict_action messages context = Some p ->
  Prediction.action p = "LIKELY_CHURN" \/ Prediction.action p = "ESCALATION_NEEDED" ->
  ~ In "Consider special pricing" (Prediction.interventions p)
  /\ ~ In "Assess job satisfaction" (Prediction.interventions p)
  /\ (3 <= length (Prediction.interventions p) <= 4)%nat
  /\ (length (Prediction.interventions p) = 4%nat <->
      context = "customer" \/ context = "employee").
Proof.
  intros Hp Ha. destruct messages as [|m ms].
  - injection Hp as <-. cbn in Ha. destruct Ha as [Ha|Ha]; discriminate Ha.
  - destruct (predict_action_result m ms context p Hp) as [traj [text [_ [_ H]]]].
    cbv zeta in H. destruct H as [Hact [Hurg [_ [_ [_ [Hint _]]]]]].
    pose proof (prediction_fields_agree (Trajectory.current_sentiment traj)
                  (Trajectory.trend traj) (_score_churn_risk text)
                  (_score_resolution_likelihood text) context) as Hagree.
    cbv zeta in Hagree. destruct Hagree as [Hchurn [_ [Hesc _]]].
    rewrite Hact in Ha. rewrite Hint.
    apply interventions_without_fifth; [exact Ha|].
    destruct Ha as [Ha|Ha].
    + left. apply Hchurn. exact Ha.
    + apply Hesc. exact Ha.
Qed.

(** ** The entries of the signals list *)

Lemma scan_message_hits (i : nat) (t : string) (bp : option nat) (kp : list string) :
  msg_signals (scan_message i t bp kp) = message_hits t.
Proof.
  unfold scan_message, message_hits.
  destruct (_check_comparisons t), (_check_frustration t),
    (_check_disengagement t), (_check_price t); reflexivity.
Qed.

Lemma message_hits_flagged (t : string) : message_hits t = [] <-> flagged t = false.
Proof.
  unfold message_hits, flagged.
  destruct (_check_comparisons t), (_check_frustration t),
    (_check_disengagement t), (_check_price t); cbn; split; congruence.
Qed.

Lemma raw_risk_of_flagged (t : string) :
  flagged t = true -> (20 <= risk_contribution t <= 100)%Z.
Proof.
  unfold flagged, risk_contribution, raw_risk.
  destruct (found (_check_comparisons t)), (found (_check_frustration t)),
    (found (_check_disengagement t)), (found (_check_price t)); cbn;
    intro H; try discriminate H; lia.
Qed.

Lemma detect_step_signals (st : DetectState) (i : nat) (msg : Message) :
  signals (detect_step st (i, msg))
  = (signals st
     ++ if flagged (lower (message_text msg)) then
          [ PDict [ ("message_index", PInt (Z.of_nat (i + 1)));
                    ("timestamp", PStr (message_timestamp i msg));
                    ("signals",
                     PList (List.map SignalHit.to_py
                              (message_hits (lower (message_text msg)))));
                    ("risk_score",
                     PInt (risk_contribution (lower (message_text msg)))) ] ]
        else [])%list.
Proof.
  unfold detect_step.
  rewrite scan_message_hits, scan_message_risk.
  pose proof (message_hits_flagged (lower (message_text msg))) as Hf.
  destruct (message_hits (lower (message_text msg))) as [|h hs] eqn:E;
    cbn [signals].
  - destruct Hf as [Hf _]. rewrite (Hf eq_refl). symmetry. apply app_nil_r.
  - destruct (flagged (lower (message_text msg))).
    + reflexivity.
    + destruct Hf as [_ Hf]. discriminate (Hf eq_refl).
Qed.

Lemma detect_loop_signals (msgs : list Message) :
  forall (k : nat) (st : DetectState),
  signals (fold_left detect_step (combine (seq k (length msgs)) msgs) st)
  = (signals st
     ++ List.map (fun im =>
          PDict [ ("message_index", PInt (Z.of_nat (fst im + 1)));
                  ("timestamp", PStr (message_timestamp (fst im) (snd im)));
                  ("signals",
                   PList (List.map SignalHit.to_py
                            (message_hits (lower (message_text (snd im))))));
                  ("risk_score",
                   PInt (risk_contribution (lower (message_text (snd im))))) ])
          (filter (fun im => flagged (lower (message_text (snd im))))
                  (combine (seq k (length msgs)) msgs)))%list.
Proof.
  induction msgs as [|msg msgs IH]; intros k st.
  - cbn. symmetry. apply app_nil_r.
  - rewrite enumerate_cons. cbn [fold_left]. rewrite IH, detect_step_signals.
    cbn [filter snd fst].
    destruct (flagged (lower (message_text msg))).
    + cbn [List.map fst snd]. rewrite <- app_assoc. reflexivity.
    + rewrite app_nil_r. reflexivity.
Qed.

Lemma in_enumerate (msgs : list Message) :
  forall (start i : nat) (msg : Message),
  In (i, msg) (combine (seq start (length msgs)) msgs) ->
  (start <= i)%nat /\ nth_error msgs (i - start) = Some msg.
Proof.
  induction msgs as [|m msgs IH]; intros start i msg Hin; [destruct Hin|].
  cbn [length seq combine In] in Hin. destruct Hin as [Heq|Hin].
  - injection Heq as <- <-. split; [lia|]. rewrite Nat.sub_diag. reflexivity.
  - apply IH in Hin. destruct Hin as [Hle Hnth]. split; [lia|].
    replace (i - start)%nat with (S (i - S start)) by lia. exact Hnth.
Qed.

(** X27. The signals list has one entry for each flagged message, in
    the order of the messages: the entry of message i (from 0) carries
    the message index i + 1, the timestamp of the message, the signals
    found in it in the order comparison, frustration, disengagement,
    price, and its risk contribution, which is between 20 and 100. *)
Theorem signal_entries_follow_messages (messages : list Message) (context : string) :
  exists entries : list PyVal,
    dict_get "signals" (detect_signals messages context) = Some (PList entries)
    /\ List.map (py_get "message_index") entries
       = List.map (fun im => Some (PInt (Z.of_nat (fst im + 1))))
           (flagged_messages messages)
    /\ List.map (py_get "risk_score") entries
       = List.map (fun im => Some (PInt (risk_contribution
                                          (lower (message_text (snd im))))))
           (flagged_messages messages)
    /\ List.map (py_get "timestamp") entries
       = List.map (fun im => Some (PStr (message_timestamp (fst im) (snd im))))
           (flagged_messages messages)
    /\ List.map (py_get "signals") entries
       = List.map (fun im => Some (PList (List.map SignalHit.to_py
                                (message_hits (lower (message_text (snd im)))))))
           (flagged_messages messages)
    /\ (forall (i : nat) (msg : Message),
          In (i, msg) (flagged_messages messages) ->
          nth_error messages i = Some msg
          /\ message_hits (lower (message_text msg)) <> []
          /\ (20 <= risk_contribution (lower (message_text msg)) <= 100)%Z).
Proof.
  assert (Hlast : forall (i : nat) (msg : Message),
            In (i, msg) (flagged_messages messages) ->
            nth_error messages i = Some msg
            /\ message_hits (lower (message_text msg)) <> []
            /\ (20 <= risk_contribution (lower (message_text msg)) <= 100)%Z).
  { intros i msg Hin. unfold flagged_messages, enumerate in Hin.
    apply filter_In in Hin. destruct Hin as [Hin Hf]. cbn [snd] in Hf.
    apply in_enumerate in Hin. destruct Hin as [_ Hnth].
    rewrite Nat.sub_0_r in Hnth. split; [exact Hnth|]. split.
    - intro H. apply message_hits_flagged in H. congruence.
    - apply raw_risk_of_flagged. exact Hf. }
  destruct messages as [|m ms].
  - exists []. split; [reflexivity|]. do 4 (split; [reflexivity|]). exact Hlast.
  - eexists. split; [reflexivity|].
    unfold detect_loop, enumerate. rewrite detect_loop_signals.
    cbn [signals app].
    split; [|split; [|split; [|split; [|exact Hlast]]]];
      unfold flagged_messages, enumerate; rewrite !map_map; reflexivity.
Qed.

End Pipeline.

(** * The properties at concrete inputs *)




(** C2 fails as stated: the message "I will cancel, the competitor has a
    better price" contains "cancel" and "competitor" and fires
    disengagement and comparison, but the price signal fires as well, so
    the message contributes 35 + 25 + 20 = 80 and alone yields the level
    CRITICAL, not 60 and HIGH. *)
Lemma cancel_and_competitor_beyond_sixty :
  let msg := MsgStr "I will cancel, the competitor has a better price" in
  let text := Py.ascii_lower (message_text msg) in
  let result := detect_signals Py.ascii_lower first_occurrence_order [msg] "customer" in
  Py.str_in "cancel" text = true
  /\ Py.str_in "competitor" text = true
  /\ found (_check_disengagement text) = true
  /\ found (_check_comparisons text) = true
  /\ risk_contribution text = 80%Z
  /\ dict_get "total_risk_score" result = Some (PInt 80)
  /\ dict_get "risk_level" result = Some (PStr "CRITICAL")
  /\ ~ (forall m : Message,
          Py.str_in "cancel" (Py.ascii_lower (message_text m)) = true ->
          Py.str_in "competitor" (Py.ascii_lower (message_text m)) = true ->
          risk_contribution (Py.ascii_lower (message_text m)) = 60%Z
          /\ dict_get "risk_level"
               (detect_signals Py.ascii_lower first_occurrence_order [m] "customer")
             = Some (PStr "HIGH")).
Proof.
  cbv zeta. do 7 (split; [reflexivity|]).
  intro H.
  destruct (H (MsgStr "I will cancel, the competitor has a better price")
              eq_refl eq_refl) as [Hsixty _].
  vm_compute in Hsixty. discriminate Hsixty.
Qed.

Lemma overall_risk_is_maximum_witness :
  let messages :=
    [MsgStr "Thanks for the update"; MsgStr "I will Cancel and go to a Competitor"] in
  messages <> []
  /\ dict_get "total_risk_score"
       (detect_signals Py.ascii_lower first_occurrence_order messages "customer")
     = Some (PInt 60)
  /\ dict_get "risk_level"
       (detect_signals Py.ascii_lower first_occurrence_order
          [MsgStr "I will Cancel and go to a Competitor"] "customer")
     = Some (PStr "HIGH").
Proof.
  cbv zeta. split; [discriminate|].
  destruct (overall_risk_is_maximum Py.ascii_lower first_occurrence_order
              [MsgStr "Thanks for the update";
               MsgStr "I will Cancel and go to a Competitor"] "customer")
    as [Htotal [_ Hscenario]]; [discriminate|].
  split; [exact Htotal|].
  destruct (Hscenario (MsgStr "I will Cancel and go to a Competitor"))
    as [_ [_ [_ [_ Hsixty]]]]; [reflexivity|reflexivity|].
  destruct Hsixty as [_ [_ Hlevel]]; [reflexivity|reflexivity|].
  exact Hlevel.
Defined.

Lemma breaking_point_is_first_qualifying_witness :
  let messages :=
    [MsgStr "All good so far"; MsgStr "This is slow"; MsgStr "I want to cancel";
     MsgStr "Is there an alternative?"] in
  dict_get "breaking_point"
    (detect_signals Py.ascii_lower first_occurrence_order messages "customer")
  = Some (PInt 3)
  /\ breaking_point (detect_loop Py.ascii_lower (firstn 3 messages)) = Some 3%nat
  /\ breaking_point (detect_loop Py.ascii_lower messages) = Some 3%nat.
Proof.
  cbv zeta.
  destruct (breaking_point_is_first_qualifying Py.ascii_lower first_occurrence_order
              [MsgStr "All good so far"; MsgStr "This is slow";
               MsgStr "I want to cancel"; MsgStr "Is there an alternative?"]
              "customer") as [Hbp _].
  split; [exact Hbp|]. split; [reflexivity|].
  destruct (breaking_point_is_first_qualifying Py.ascii_lower first_occurrence_order
              [MsgStr "All good so far"; MsgStr "This is slow";
               MsgStr "I want to cancel"] "customer") as [_ [_ Hkept]].
  exact (Hkept 3%nat [MsgStr "Is there an alternative?"] eq_refl).
Defined.

Lemma frustration_never_sets_breaking_point_witness :
  (exists b : Z,
     dict_get "breaking_point"
       (detect_signals Py.ascii_lower first_occurrence_order
          [MsgStr "This is slow"; MsgStr "I want to cancel"] "customer")
     = Some (PInt b))
  /\ msg_risk (frustration_block 0 (_check_frustration "this is slow")
                 (comparison_block 0 (_check_comparisons "this is slow")
                    (mkScan [] 0 None [])))
     = 30%Z
  /\ dict_get "breaking_point"
       (detect_signals Py.ascii_lower first_occurrence_order
          [MsgStr "This is slow"; MsgStr "and expensive"] "customer")
     = Some PNone.
Proof.
  destruct (frustration_never_sets_breaking_point Py.ascii_lower first_occurrence_order
              [MsgStr "This is slow"; MsgStr "I want to cancel"] "customer")
    as [[_ Hexists] Hblock].
  split.
  - apply Hexists. exists "i want to cancel".
    split; [right; left; reflexivity|]. right. reflexivity.
  - split; [|reflexivity].
    destruct (Hblock 0%nat "this is slow" None []) as [_ [Hthirty _]].
    apply Hthirty; reflexivity.
Defined.

Lemma turning_points_above_twenty_witness :
  let sentiments := [50; 70; 90.01; 40] in
  let timeline :=
    [ ScoredPoint.mk "Message 1" "a" 50 "NEUTRAL" 1;
      ScoredPoint.mk "Message 2" "b" 70 "POSITIVE" 2;
      ScoredPoint.mk "Message 3" "c" 90.01 "EXTREMELY_POSITIVE" 3;
      ScoredPoint.mk "Message 4" "d" 40 "NEUTRAL" 4 ] in
  length timeline = length sentiments
  /\ exists turning_points : list TurningPoint.t,
       _find_turning_points sentiments timeline = Some turning_points
       /\ ~ In 1%nat (List.map TurningPoint.index turning_points)
       /\ In 2%nat (List.map TurningPoint.index turning_points)
       /\ In 3%nat (List.map TurningPoint.index turning_points).
Proof.
  cbv zeta. split; [reflexivity|].
  destruct (turning_points_above_twenty [50; 70; 90.01; 40]
              [ ScoredPoint.mk "Message 1" "a" 50 "NEUTRAL" 1;
                ScoredPoint.mk "Message 2" "b" 70 "POSITIVE" 2;
                ScoredPoint.mk "Message 3" "c" 90.01 "EXTREMELY_POSITIVE" 3;
                ScoredPoint.mk "Message 4" "d" 40 "NEUTRAL" 4 ] eq_refl)
    as [tps [E [Hiff _]]].
  exists tps. split; [exact E|]. split; [|split].
  - intro H1. apply Hiff in H1. destruct H1 as [_ H1].
    vm_compute in H1. discriminate H1.
  - apply Hiff. split; [cbn; lia|reflexivity].
  - apply Hiff. split; [cbn; lia|reflexivity].
Defined.

Lemma current_sentiment_is_last_score_witness :
  let messages := [MsgStr "I love this, excellent service"; MsgStr "This is terrible"] in
  messages <> []
  /\ exists traj : Trajectory.t,
       analyze_evolution Py.ascii_lower negation_aware_polarity fmt_integer messages
       = Some traj
       /\ (forall d : ScoredPoint.t,
             ScoredPoint.sentiment_score (last (Trajectory.timeline traj) d)
             = Trajectory.current_sentiment traj)
       /\ Trajectory.trend traj = "DECLINING".
Proof.
  cbv zeta. split; [discriminate|].
  destruct (current_sentiment_is_last_score Py.ascii_lower negation_aware_polarity
              fmt_integer
              [MsgStr "I love this, excellent service"; MsgStr "This is terrible"])
    as [traj [E [_ [Hlast [Htrend _]]]]]; [discriminate|].
  exists traj. split; [exact E|]. split; [exact Hlast|].
  rewrite Htrend. reflexivity.
Defined.

Lemma primary_action_first_match_witness :
  let messages := [MsgStr "I love this, excellent service"; MsgStr "This is terrible"] in
  messages <> []
  /\ exists p : Prediction.t,
       predict_action Py.ascii_lower negation_aware_polarity fmt_integer messages
         "customer" = Some p
       /\ Prediction.action p = "ESCALATION_NEEDED".
Proof.
  cbv zeta. split; [discriminate|].
  destruct (primary_action_first_match Py.ascii_lower negation_aware_polarity
              fmt_integer
              [MsgStr "I love this, excellent service"; MsgStr "This is terrible"]
              "customer")
    as [Hrule [Hreturns Hunique]]; [discriminate|].
  destruct Hreturns as [p Hp]; [discriminate|].
  exists p. split; [exact Hp|].
  vm_compute in Hp. injection Hp as <-. reflexivity.
Defined.

(** * The further properties at concrete inputs *)

Lemma timeline_follows_messages_witness :
  exists traj : Trajectory.t,
    analyze_evolution Py.ascii_lower neutral_polarity fmt_integer
      [MsgStr "I love this"; MsgDict (Some "This is slow") (Some "2025-11-27")]
    = Some traj
    /\ length (Trajectory.timeline traj) = 2%nat
    /\ Trajectory.message_count traj = 2%nat.
Proof.
  destruct (analyze_evolution Py.ascii_lower neutral_polarity fmt_integer
              [MsgStr "I love this"; MsgDict (Some "This is slow") (Some "2025-11-27")])
    as [traj|] eqn:E; [|vm_compute in E; discriminate E].
  exists traj. split; [reflexivity|].
  destruct (timeline_follows_messages Py.ascii_lower neutral_polarity fmt_integer
              _ traj E) as [Hlen [Hcount _]].
  split; [exact Hlen|exact Hcount].
Defined.

Lemma context_only_selects_recommendations_witness :
  "risk_level" <> "recommendations"
  /\ dict_get "risk_level"
       (detect_signals Py.ascii_lower first_occurrence_order
          [MsgStr "I want to cancel"] "customer")
     = dict_get "risk_level"
         (detect_signals Py.ascii_lower first_occurrence_order
            [MsgStr "I want to cancel"] "investor").
Proof.
  split; [discriminate|].
  apply (context_only_selects_recommendations Py.ascii_lower first_occurrence_order).
  discriminate.
Defined.

Lemma critical_risk_has_breaking_point_witness :
  let messages :=
    [MsgStr "Hello"; MsgStr "This is slow, I will cancel and go to a competitor"] in
  dict_get "risk_level"
    (detect_signals Py.ascii_lower first_occurrence_order messages "customer")
  = Some (PStr "CRITICAL")
  /\ exists (b : nat) (others : list string),
       (1 <= b <= length messages)%nat
       /\ dict_get "breaking_point"
            (detect_signals Py.ascii_lower first_occurrence_order messages "customer")
          = Some (PInt (Z.of_nat b)).
Proof.
  cbv zeta. split; [reflexivity|].
  destruct (critical_risk_has_breaking_point Py.ascii_lower first_occurrence_order
              [MsgStr "Hello";
               MsgStr "This is slow, I will cancel and go to a competitor"]
              "customer" eq_refl) as [b [others [Hb [Hbp _]]]].
  exists b, others. split; [exact Hb|exact Hbp].
Defined.

Lemma risk_ignores_message_order_witness :
  Permutation [MsgStr "This is slow"; MsgStr "I want to cancel"]
              [MsgStr "I want to cancel"; MsgStr "This is slow"]
  /\ dict_get "total_risk_score"
       (detect_signals Py.ascii_lower first_occurrence_order
          [MsgStr "This is slow"; MsgStr "I want to cancel"] "customer")
     = dict_get "total_risk_score"
         (detect_signals Py.ascii_lower first_occurrence_order
            [MsgStr "I want to cancel"; MsgStr "This is slow"] "customer").
Proof.
  split; [apply perm_swap|].
  apply (risk_ignores_message_order Py.ascii_lower first_occurrence_order).
  - apply perm_swap.
  - left. reflexivity.
Defined.

Lemma prediction_fields_consistent_witness :
  exists p : Prediction.t,
    predict_action Py.ascii_lower negation_aware_polarity fmt_integer
      [MsgStr "I love this, excellent service"; MsgStr "This is terrible"] "customer"
    = Some p
    /\ Prediction.action p = "ESCALATION_NEEDED"
    /\ Prediction.timeline p = "SOON (3-7 days)".
Proof.
  destruct (predict_action Py.ascii_lower negation_aware_polarity fmt_integer
              [MsgStr "I love this, excellent service"; MsgStr "This is terrible"]
              "customer") as [p|] eqn:E; [|vm_compute in E; discriminate E].
  exists p. split; [reflexivity|].
  destruct (prediction_fields_consistent Py.ascii_lower negation_aware_polarity
              fmt_integer _ _ p E) as [_ [_ [_ [Hescalation _]]]].
  assert (Ha : Prediction.action p = "ESCALATION_NEEDED").
  { vm_compute in E. injection E as <-. reflexivity. }
  split; [exact Ha|]. apply Hescalation. exact Ha.
Defined.

Lemma keywords_decide_score_up_to_polarity_witness :
  let text := "slow and expensive, a terrible problem" in
  text <> ""
  /\ (- (1) <= neutral_polarity text /\ neutral_polarity text <= 1)
  /\ _calculate_sentiment Py.ascii_lower neutral_polarity (Some text) < 40.
Proof.
  cbv zeta. split; [discriminate|].
  assert (Hrange : - (1) <= neutral_polarity "slow and expensive, a terrible problem"
                   /\ neutral_polarity "slow and expensive, a terrible problem" <= 1).
  { split; apply Qle_bool_iff; reflexivity. }
  split; [exact Hrange|].
  destruct (keywords_decide_score_up_to_polarity Py.ascii_lower neutral_polarity
              "slow and expensive, a terrible problem") as [_ [Hneg _]].
  - discriminate.
  - exact Hrange.
  - apply Hneg. vm_compute. discriminate.
Defined.

Lemma profile_accumulates_saves_witness :
  let db := Database.mk [] [] [] in
  let first :=
    mkSave "2025-11-27 10:00" "customer" [MsgStr "a"]
      (Analysis.mk (Some 40) (Some "STABLE") None None (Some 0.5)) in
  let second :=
    mkSave "2025-11-28 10:00" "employee" [MsgStr "b"]
      (Analysis.mk (Some 80) (Some "IMPROVING") None None (Some 0.9)) in
  profile_of "acme" db = None
  /\ exists row : ProfileRow.t,
       profile_of "acme" (save_all fmt_integer "acme" [first; second] db) = Some row
       /\ ProfileRow.total_interactions row = 2%Z
       /\ ProfileRow.churn_risk row = 0.9
       /\ ProfileRow.context_type row = "customer"
       /\ ProfileRow.last_contact row = "2025-11-28 10:00"
       /\ 0 <= ProfileRow.lifetime_sentiment row
       /\ ProfileRow.lifetime_sentiment row <= 100.
Proof.
  cbv zeta. split; [reflexivity|].
  destruct (profile_accumulates_saves fmt_integer (Database.mk [] [] [])
              "acme"
              (mkSave "2025-11-27 10:00" "customer" [MsgStr "a"]
                 (Analysis.mk (Some 40) (Some "STABLE") None None (Some 0.5)))
              [mkSave "2025-11-28 10:00" "employee" [MsgStr "b"]
                 (Analysis.mk (Some 80) (Some "IMPROVING") None None (Some 0.9))]
              eq_refl)
    as [row [Hp [Ht [Hr [Hc [_ [Hn [_ Hrange]]]]]]]].
  exists row. split; [exact Hp|]. split; [exact Ht|]. split; [exact Hr|].
  split; [exact Hc|]. split; [exact Hn|].
  apply Hrange. repeat constructor; discriminate.
Defined.


Lemma urgent_actions_drop_last_intervention_witness :
  exists p : Prediction.t,
    predict_action Py.ascii_lower negation_aware_polarity fmt_integer
      [MsgStr "I love this, excellent service"; MsgStr "This is terrible"] "customer"
    = Some p
    /\ (Prediction.action p = "LIKELY_CHURN"
        \/ Prediction.action p = "ESCALATION_NEEDED")
    /\ length (Prediction.interventions p) = 4%nat
    /\ ~ In "Consider special pricing" (Prediction.interventions p).
Proof.
  destruct (predict_action Py.ascii_lower negation_aware_polarity fmt_integer
              [MsgStr "I love this, excellent service"; MsgStr "This is terrible"]
              "customer") as [p|] eqn:E; [|vm_compute in E; discriminate E].
  exists p. split; [reflexivity|].
  assert (Ha : Prediction.action p = "LIKELY_CHURN"
               \/ Prediction.action p = "ESCALATION_NEEDED").
  { right. vm_compute in E. injection E as <-. reflexivity. }
  split; [exact Ha|].
  destruct (urgent_actions_drop_last_intervention Py.ascii_lower
              negation_aware_polarity fmt_integer _ _ p E Ha)
    as [Hnever [_ [_ Hfour]]].
  split; [|exact Hnever]. apply Hfour. left. reflexivity.
Defined.
